(** * stages/01_download_build.py: download and build the TDC ADMET brick

    A shallow embedding of [main] and of the pandas / pathlib calls it makes,
    followed by the properties of the three phases of the script: the
    fetch-and-write loops, the combined summary, and the final report.

    Conventions of the embedding.
    - A Python [str] is a Rocq [string], one [ascii] per code point, so the
      model covers the code points below 256 (Latin-1); [isspace] and
      [lower_char] are Python's [str.isspace] and [str.lower] on that range.
    - A pandas frame is a list of column labels and a list of rows, each row
      carrying its index label and its cells.  A cell is the Python value that
      was stored; the dtype a column ends up with (an integer column padded
      with NaN is stored as float64) is below the resolution of the model.
    - The directory [brick/] is a finite map from file names to file contents.
    - The script runs in a state-and-exception monad over the directory, the
      console, the log of provider requests and the list [all_datasets].
    - Line 17, which makes the directory, is modelled on what the path
      [brick] holds before the run ([mkdir], [main_from]); the lines after
      it run on the files of the directory ([main_with], [main]). *)

From Stdlib Require Import Ascii String NArith ZArith Lia.
From stdpp Require Import gmap strings list fin_maps sorting pretty.


(** ** Python strings *)

Module PyStr.

(** [str.isspace] on one code point below 256: TAB..CR, FS..US, space,
    NEL and the no-break space. *)
Definition isspace (c : ascii) : bool :=
  let n := N_of_ascii c in
  ((9 <=? n) && (n <=? 13) || (28 <=? n) && (n <=? 32)
   || (n =? 133) || (n =? 160))%N.

(** [str.lower] on one code point below 256: A..Z and the accented capitals
    0xC0..0xDE (0xD7, the multiplication sign, excepted) move up by 32. *)
Definition lower_char (c : ascii) : ascii :=
  let n := N_of_ascii c in
  if ((65 <=? n) && (n <=? 90) || (192 <=? n) && (n <=? 214)
      || (216 <=? n) && (n <=? 222))%N
  then ascii_of_N (n + 32) else c.

Fixpoint map (f : ascii → ascii) (s : string) : string :=
  match s with
  | EmptyString => EmptyString
  | String c s' => String (f c) (map f s')
  end.

(** [s.lower()] *)
Definition lower (s : string) : string := map lower_char s.

(** [s.replace(old, new)] for one-character [old] and [new], the only way
    the script calls it. *)
Definition replace (old new : ascii) (s : string) : string :=
  map (λ c, if Ascii.eqb c old then new else c) s.

Fixpoint lstrip (s : string) : string :=
  match s with
  | EmptyString => EmptyString
  | String c s' => if isspace c then lstrip s' else s
  end.

Fixpoint rstrip (s : string) : string :=
  match s with
  | EmptyString => EmptyString
  | String c s' =>
      match rstrip s' with
      | EmptyString => if isspace c then EmptyString else String c EmptyString
      | r => String c r
      end
  end.

(** [s.strip()] *)
Definition strip (s : string) : string := rstrip (lstrip s).

(** [s.endswith(suffix)] *)
Definition endswith (s suffix : string) : bool :=
  let n := String.length s in
  let k := String.length suffix in
  (k <=? n)%nat && String.eqb (substring (n - k) k s) suffix.

(** ["=" * n] *)
Fixpoint repeat (c : ascii) (n : nat) : string :=
  match n with
  | O => EmptyString
  | S n' => String c (repeat c n')
  end.

(** The line feed, ["\n"]. *)
Definition nl : string := String (ascii_of_nat 10) EmptyString.

End PyStr.

(** ** Cells and column labels *)

(** The Python values a cell holds.  A float is carried by its [repr], which
    is what [str] returns for it; NaN, the marker pandas pads with, is kept
    apart. *)
Inductive value : Type :=
  | VStr (s : string)
  | VInt (z : Z)
  | VFloat (repr : string)
  | VBool (b : bool)
  | VNone
  | VNaN.

(** [str(v)] *)
Definition str_value (v : value) : string :=
  match v with
  | VStr s => s
  | VInt z => pretty z
  | VFloat r => r
  | VBool true => "True"
  | VBool false => "False"
  | VNone => "None"
  | VNaN => "nan"
  end.

(** [isinstance(v, str)] *)
Definition is_text (v : value) : bool :=
  match v with VStr _ => true | _ => false end.

(** A column label: pandas takes any hashable; strings and integers are the
    ones a provider hands out. *)
Inductive label : Type :=
  | LStr (s : string)
  | LInt (z : Z).

(** [str(c)] *)
Definition str_label (c : label) : string :=
  match c with
  | LStr s => s
  | LInt z => pretty z
  end.

(** Lines 72 and 96:
    [str(c).strip().lower().replace(' ', '_').replace('-', '_')]. *)
Definition normalize (c : label) : string :=
  PyStr.replace "-" "_"
    (PyStr.replace " " "_" (PyStr.lower (PyStr.strip (str_label c)))).

(** The new label the assignment to [df.columns] stores. *)
Definition normalize_label (c : label) : label := LStr (normalize c).

Global Instance value_eq_dec : EqDecision value.
Proof. solve_decision. Defined.

Global Instance label_eq_dec : EqDecision label.
Proof. solve_decision. Defined.

(** ** Frames *)

(** One row of a frame: its index label and its cells, in column order. *)
Record row : Type := Row { ix : Z; cells : list value }.

Record DataFrame : Type := Frame { columns : list label; rows : list row }.

(** Every row has one cell per column, as in any frame pandas builds. *)
Definition rectangular (df : DataFrame) : Prop :=
  Forall (λ r, length (cells r) = length (columns df)) (rows df).

Module Pd.

(** [len(df)] *)
Definition len (df : DataFrame) : nat := length (rows df).

(** [key in df.columns] *)
Definition has_column (key : label) (df : DataFrame) : bool :=
  bool_decide (key ∈ columns df).

(** [df[key] = v] for a scalar [v]: every column labelled [key] is
    overwritten; when there is none, a new last column is added. *)
Definition setitem (key : label) (v : value) (df : DataFrame) : DataFrame :=
  if has_column key df then
    Frame (columns df)
          (map (λ r, Row (ix r)
                         (zip_with (λ c x, if decide (c = key) then v else x)
                                   (columns df) (cells r)))
               (rows df))
  else
    Frame (columns df ++ [key])
          (map (λ r, Row (ix r) (cells r ++ [v])) (rows df)).

(** [df.columns = [f(c) for c in df.columns]] *)
Definition rename (f : label → label) (df : DataFrame) : DataFrame :=
  Frame (map f (columns df)) (rows df).

(** The positions of the columns labelled [key]. *)
Fixpoint positions (key : label) (cols : list label) (i : nat) : list nat :=
  match cols with
  | [] => []
  | c :: cols' =>
      if decide (c = key) then i :: positions key cols' (S i)
      else positions key cols' (S i)
  end.

(** The cell at position [j], NaN when the row is too short. *)
Definition cell (cs : list value) (j : nat) : value := default VNaN (cs !! j).

(** [df[keys].copy()] for a list of labels that are all in the frame: the
    columns carrying each label, in the order of [keys]; the index is
    kept. *)
Definition getitem (keys : list label) (df : DataFrame) : DataFrame :=
  let ps := flat_map (λ k, positions k (columns df) 0) keys in
  Frame (flat_map (λ k, map (λ _, k) (positions k (columns df) 0)) keys)
        (map (λ r, Row (ix r) (map (cell (cells r)) ps)) (rows df)).

(** [df[key] = df[key].astype(str)] *)
Definition astype_str (key : label) (df : DataFrame) : DataFrame :=
  Frame (columns df)
        (map (λ r, Row (ix r)
                       (zip_with (λ c x, if decide (c = key)
                                         then VStr (str_value x) else x)
                                 (columns df) (cells r)))
             (rows df)).

(** The labels of several frames in order of first appearance: the columns
    of an outer join that does not sort. *)
Definition union_columns (frames : list DataFrame) : list label :=
  foldl (λ acc c, if decide (c ∈ acc) then acc else acc ++ [c])
        [] (flat_map columns frames).

(** One row laid out along the columns [cols]; NaN where the frame it
    comes from has no such column. *)
Definition align (cols : list label) (df : DataFrame) (r : row) : list value :=
  map (λ c, match positions c (columns df) 0 with
            | j :: _ => cell (cells r) j
            | [] => VNaN
            end) cols.

(** A fresh [RangeIndex] on a list of rows. *)
Definition range_index (data : list (list value)) : list row :=
  imap (λ i cs, Row (Z.of_nat i) cs) data.

(** The table [pd.concat(frames, ignore_index=True)] builds from a
    non-empty list of frames with pairwise distinct labels each. *)
Definition concat_frames (frames : list DataFrame) : DataFrame :=
  let cols := union_columns frames in
  Frame cols
        (range_index (flat_map (λ df, map (align cols df) (rows df)) frames)).

End Pd.

(** ** The directory, the console and the exceptions *)

(** What a file of [brick/] holds: a table written by [to_parquet] with
    [index=False] (labels and cells, no index), or anything else. *)
Inductive file : Type :=
  | Parquet (cols : list label) (data : list (list value))
  | Blob (bytes : string).

(** A Python [Exception], carried by its description [str(e)]. *)
Inductive exn : Type := Exception (description : string).

Definition str_exn (e : exn) : string :=
  match e with Exception d => d end.

Inductive result (A : Type) : Type :=
  | Ok (a : A)
  | Raise (e : exn).
Arguments Ok {A} a.
Arguments Raise {A} e.

(** The two provider classes of [tdc.single_pred]. *)
Inductive category : Type := ADME | Tox.

Global Instance category_eq_dec : EqDecision category.
Proof. solve_decision. Defined.

Record state : Type := State {
  brick : gmap string file;             (* the files of [brick/], by name *)
  stdout : list string;                 (* one entry per call of [print] *)
  requests : list (category * string);  (* the provider calls made so far *)
  all_datasets : list DataFrame         (* the accumulator of [main] *)
}.

(** A computation of the script: it ends with a value or with an exception,
    and in both cases leaves a state behind. *)
Definition M (A : Type) : Type := state → result A * state.

Global Instance M_ret : MRet M := λ A a st, (Ok a, st).

Global Instance M_bind : MBind M := λ A B f m st,
  match m st with
  | (Ok a, st') => f a st'
  | (Raise e, st') => (Raise e, st')
  end.

Definition raise {A} (e : exn) : M A := λ st, (Raise e, st).

(** [try: body  except Exception as e: handler(e)] *)
Definition try_except {A} (body : M A) (handler : exn → M A) : M A := λ st,
  match body st with
  | (Ok a, st') => (Ok a, st')
  | (Raise e, st') => handler e st'
  end.

(** [print(s)] *)
Definition print (s : string) : M unit := λ st,
  (Ok tt, State (brick st) (stdout st ++ [s]) (requests st) (all_datasets st)).

(** [for x in xs: body(x)] *)
Fixpoint for_each {A} (xs : list A) (body : A → M unit) : M unit :=
  match xs with
  | [] => mret tt
  | x :: xs' => body x ;; for_each xs' body
  end.

(** ** The script *)

Section Script.

(** The provider: [ADME(name=name).get_data()] and [Tox(name=name).get_data()]
    return a frame or raise.  What they return is theirs to decide. *)
Variable provider : category → string → result DataFrame.

(** The failures of a parquet write that the frame's labels do not explain
    (the disk, the schema): [Some e] when writing this frame under this name
    raises [e]. *)
Variable write_error : string → DataFrame → option exn.

(** [data = ADME(name=name); df = data.get_data()] *)
Definition get_data (c : category) (name : string) : M DataFrame := λ st,
  (provider c name,
   State (brick st) (stdout st) (requests st ++ [(c, name)]) (all_datasets st)).

(** [df.to_parquet(brick_path / fname, index=False)].  pyarrow refuses a
    frame whose labels are not pairwise distinct before it writes a byte;
    a write that raises leaves the directory as it was. *)
Definition to_parquet (fname : string) (df : DataFrame) : M unit := λ st,
  if bool_decide (NoDup (columns df)) then
    match write_error fname df with
    | Some e => (Raise e, st)
    | None =>
        (Ok tt,
         State (<[fname := Parquet (columns df) (map cells (rows df))]> (brick st))
               (stdout st) (requests st) (all_datasets st))
    end
  else (Raise (Exception "Duplicate column names found"), st).

(** [pd.read_parquet(brick_path / fname)] *)
Definition read_parquet (fname : string) : M DataFrame := λ st,
  match brick st !! fname with
  | Some (Parquet cols data) => (Ok (Frame cols (Pd.range_index data)), st)
  | Some (Blob _) =>
      (Raise (Exception "Parquet magic bytes not found in footer"), st)
  | None => (Raise (Exception "No such file or directory"), st)
  end.

(** [sorted(brick_path.glob("*.parquet"))], as file names. *)
Definition glob_parquet (st : state) : list string :=
  merge_sort String.le
    (filter (λ f, PyStr.endswith f ".parquet" = true) (map fst (map_to_list (brick st)))).

(** [pd.concat(frames, ignore_index=True)]; pandas raises on no frame. *)
Definition concat (frames : list DataFrame) : M DataFrame :=
  match frames with
  | [] => raise (Exception "No objects to concatenate")
  | _ => mret (Pd.concat_frames frames)
  end.

(** [all_datasets.append(df)] *)
Definition append_dataset (df : DataFrame) : M unit := λ st,
  (Ok tt, State (brick st) (stdout st) (requests st) (all_datasets st ++ [df])).

(** What the two loops of [main] differ in. *)
Definition class_name (c : category) : string :=
  match c with ADME => "ADME" | Tox => "Tox" end.

Definition category_tag (c : category) : string :=
  match c with ADME => "ADME" | Tox => "Toxicity" end.

Definition file_prefix (c : category) : string :=
  match c with ADME => "adme_" | Tox => "tox_" end.

(** [brick_path / f"adme_{name.lower()}.parquet"], as a file name. *)
Definition output_name (c : category) (name : string) : string :=
  file_prefix c +:+ PyStr.lower name +:+ ".parquet".

(** Lines 68-72 and 92-96: the frame as it is written. *)
Definition annotate (c : category) (name : string) (df : DataFrame) : DataFrame :=
  Pd.rename normalize_label
    (Pd.setitem (LStr "category") (VStr (category_tag c))
       (Pd.setitem (LStr "dataset") (VStr name) df)).

(** Lines 66-79 and 90-103: the body of the [try]. *)
Definition fetch_and_write (c : category) (name : string) : M unit :=
  df ← get_data c name;
  let df := annotate c name df in
  let output_file := output_name c name in
  to_parquet output_file df ;;
  print ("  - Saved " +:+ pretty (Pd.len df) +:+ " records to brick/" +:+ output_file) ;;
  append_dataset df.

(** Lines 64-81 and 88-105: one iteration of a loop. *)
Definition process (c : category) (name : string) : M unit :=
  print (PyStr.nl +:+ "Processing " +:+ class_name c +:+ "/" +:+ name +:+ "...") ;;
  try_except (fetch_and_write c name)
             (λ e, print ("  - Error: " +:+ str_exn e)).

Definition cols_to_keep : list label :=
  [LStr "drug_id"; LStr "drug"; LStr "y"; LStr "dataset"; LStr "category"].

(** Line 117. *)
Definition available_cols (df : DataFrame) : list label :=
  filter (λ c, c ∈ columns df) cols_to_keep.

(** Lines 119-122: the projection of one accumulated frame. *)
Definition subset_of (df : DataFrame) : DataFrame :=
  let subset := Pd.getitem (available_cols df) df in
  if Pd.has_column (LStr "drug_id") subset
  then Pd.astype_str (LStr "drug_id") subset
  else subset.

(** Lines 114-123: the list [summary_data]. *)
Fixpoint summary_data (all : list DataFrame) : list DataFrame :=
  match all with
  | [] => []
  | df :: all' =>
      match available_cols df with
      | [] => summary_data all'
      | _ => subset_of df :: summary_data all'
      end
  end.

Definition combined_file : string := "tdc_admet_combined.parquet".

(** Lines 112-129. *)
Definition combine : M unit := λ st,
  match all_datasets st with
  | [] => (Ok tt, st)
  | all =>
      match summary_data all with
      | [] => (Ok tt, st)
      | summary =>
          (combined ← concat summary;
           to_parquet combined_file combined ;;
           print (PyStr.nl +:+ "Combined dataset: " +:+ pretty (Pd.len combined)
                  +:+ " total records")) st
      end
  end.

(** Lines 136-139: the loop over the files, threading [total_records]. *)
Fixpoint report_files (files : list string) (total_records : nat) : M nat :=
  match files with
  | [] => mret total_records
  | f :: files' =>
      df ← read_parquet f;
      let total_records := total_records + Pd.len df in
      print ("  - " +:+ f +:+ ": " +:+ pretty (Pd.len df) +:+ " rows") ;;
      report_files files' total_records
  end.

(** Lines 135-141. *)
Definition report : M unit := λ st,
  (total_records ← report_files (glob_parquet st) 0;
   print (PyStr.nl +:+ "Total: " +:+ pretty total_records +:+ " records across "
          +:+ pretty (length (glob_parquet st)) +:+ " files")) st.

Definition banner (title : string) (leading_nl : bool) : M unit :=
  print ((if leading_nl then PyStr.nl else "") +:+ PyStr.repeat "=" 60) ;;
  print title ;;
  print (PyStr.repeat "=" 60).

(** [main] with the two lists of names as parameters.  [brick/] is created
    if it is not there ([mkdir(exist_ok=True)]): the state holds its files,
    none when it is new. *)
Definition main_with (adme_datasets tox_datasets : list string) : M unit :=
  (λ st, (Ok tt, State (brick st) (stdout st) (requests st) [])) ;;
  banner "Downloading ADME datasets from TDC..." false ;;
  for_each adme_datasets (process ADME) ;;
  banner "Downloading Toxicity datasets from TDC..." true ;;
  for_each tox_datasets (process Tox) ;;
  banner "Creating combined dataset..." true ;;
  combine ;;
  banner "Output files:" true ;;
  report.

Definition adme_datasets : list string :=
  [ "Caco2_Wang"; "PAMPA_NCATS"; "HIA_Hou"; "Pgp_Broccatelli";
    "Bioavailability_Ma"; "Lipophilicity_AstraZeneca"; "Solubility_AqSolDB";
    "HydrationFreeEnergy_FreeSolv"; "CYP2C19_Veith"; "CYP2D6_Veith";
    "CYP3A4_Veith"; "CYP1A2_Veith"; "CYP2C9_Veith";
    "CYP2C9_Substrate_CarbonMangels"; "CYP2D6_Substrate_CarbonMangels";
    "CYP3A4_Substrate_CarbonMangels"; "Half_Life_Obach";
    "Clearance_Hepatocyte_AZ"; "Clearance_Microsome_AZ"; "PPBR_AZ";
    "VDss_Lombardo"; "BBB_Martins" ].

Definition tox_datasets : list string :=
  [ "hERG"; "hERG_Karim"; "AMES"; "DILI"; "Skin_Reaction";
    "Carcinogens_Lagunin"; "ClinTox"; "LD50_Zhu" ].

Definition main : M unit := main_with adme_datasets tox_datasets.

(** ** What one iteration amounts to *)

(** The frame an iteration writes and accumulates, or the exception the
    body of its [try] ends with. *)
Definition outcome (c : category) (name : string) : result DataFrame :=
  match provider c name with
  | Raise e => Raise e
  | Ok df =>
      let df' := annotate c name df in
      if bool_decide (NoDup (columns df')) then
        match write_error (output_name c name) df' with
        | Some e => Raise e
        | None => Ok df'
        end
      else Raise (Exception "Duplicate column names found")
  end.

Definition processing_line (c : category) (name : string) : string :=
  PyStr.nl +:+ "Processing " +:+ class_name c +:+ "/" +:+ name +:+ "...".

Definition saved_line (c : category) (name : string) (df : DataFrame) : string :=
  "  - Saved " +:+ pretty (Pd.len df) +:+ " records to brick/" +:+ output_name c name.

Definition error_line (e : exn) : string := "  - Error: " +:+ str_exn e.

(** The file [to_parquet] leaves for a frame. *)
Definition parquet_of (df : DataFrame) : file :=
  Parquet (columns df) (map cells (rows df)).

(** A directory after the frames of a list are written to it in turn. *)
Definition write_all (b : gmap string file) (files : list (string * DataFrame))
  : gmap string file :=
  foldl (λ b fd, <[fd.1 := parquet_of fd.2]> b) b files.

(** No file of the directory is named [*.parquet]. *)
Definition no_parquet (b : gmap string file) : Prop :=
  ∀ f, is_Some (b !! f) → PyStr.endswith f ".parquet" = false.

(** The state one iteration leaves. *)
Definition process_state (c : category) (name : string) (st : state) : state :=
  match outcome c name with
  | Ok df =>
      State (<[output_name c name := parquet_of df]> (brick st))
            (stdout st ++ [processing_line c name; saved_line c name df])
            (requests st ++ [(c, name)])
            (all_datasets st ++ [df])
  | Raise e =>
      State (brick st)
            (stdout st ++ [processing_line c name; error_line e])
            (requests st ++ [(c, name)])
            (all_datasets st)
  end.

(** The state a whole loop leaves. *)
Definition loop_state (c : category) (names : list string) (st : state) : state :=
  foldl (λ st name, process_state c name st) st names.

(** The frames a loop accumulates, with the file name of each. *)
Definition fetched_files (c : category) (names : list string)
  : list (string * DataFrame) :=
  omap (λ name, match outcome c name with
                | Ok df => Some (output_name c name, df)
                | Raise _ => None
                end) names.

Definition fetched (c : category) (names : list string) : list DataFrame :=
  map snd (fetched_files c names).

(** The lines a loop prints. *)
Definition loop_lines (c : category) (names : list string) : list string :=
  flat_map (λ name, match outcome c name with
                    | Ok df => [processing_line c name; saved_line c name df]
                    | Raise e => [processing_line c name; error_line e]
                    end) names.

(** ** What the combiner and the reporter see *)

(** An accumulated frame has at least one of the five projected columns. *)
Definition has_projected_column (df : DataFrame) : bool :=
  existsb (λ c, Pd.has_column c df) cols_to_keep.

(** The number of rows a file of [brick/] reads back as. *)
Definition file_rows (f : option file) : nat :=
  match f with
  | Some (Parquet _ data) => length data
  | _ => 0
  end.

Definition readable (f : option file) : bool :=
  match f with
  | Some (Parquet _ _) => true
  | _ => false
  end.

Definition report_line (b : gmap string file) (f : string) : string :=
  "  - " +:+ f +:+ ": " +:+ pretty (file_rows (b !! f)) +:+ " rows".

Definition total_line (total_records files : nat) : string :=
  PyStr.nl +:+ "Total: " +:+ pretty total_records +:+ " records across "
  +:+ pretty files +:+ " files".

(** The value of column [c] in row [r] of [df], when [df] has the column. *)
Definition field (df : DataFrame) (r : row) (c : label) : option value :=
  match Pd.positions c (columns df) 0 with
  | j :: _ => Some (Pd.cell (cells r) j)
  | [] => None
  end.

(** As the spec words it: a row of an accumulated frame as it stands in the
    combined table, laid out along the columns [cols] of that table.  The
    identifier is turned into text, a column the frame lacks is NaN. *)
Definition combined_cells (cols : list label) (df : DataFrame) (r : row)
  : list value :=
  map (λ c, match field df r c with
            | Some v => if decide (c = LStr "drug_id") then VStr (str_value v) else v
            | None => VNaN
            end) cols.

(** The three lines around a title. *)
Definition banner_lines (title : string) (leading_nl : bool) : list string :=
  [ (if leading_nl then PyStr.nl else "") +:+ PyStr.repeat "=" 60; title;
    PyStr.repeat "=" 60 ].

Definition add_lines (lines : list string) (st : state) : state :=
  State (brick st) (stdout st ++ lines) (requests st) (all_datasets st).

(** The state when the second loop is over (line 105). *)
Definition after_loops (adme_names tox_names : list string) (st : state) : state :=
  loop_state Tox tox_names
    (add_lines (banner_lines "Downloading Toxicity datasets from TDC..." true)
       (loop_state ADME adme_names
          (add_lines (banner_lines "Downloading ADME datasets from TDC..." false)
             (State (brick st) (stdout st) (requests st) [])))).

(** The combined table (line 126). *)
Definition combined_table (all : list DataFrame) : DataFrame :=
  Pd.concat_frames (summary_data all).

Definition combined_line (combined : DataFrame) : string :=
  PyStr.nl +:+ "Combined dataset: " +:+ pretty (Pd.len combined) +:+ " total records".

(** The state when the combiner is over (line 129), if it does not raise. *)
Definition after_combine (adme_names tox_names : list string) (st : state) : state :=
  let st1 := add_lines (banner_lines "Creating combined dataset..." true)
               (after_loops adme_names tox_names st) in
  match summary_data (all_datasets st1) with
  | [] => st1
  | _ =>
      let combined := combined_table (all_datasets st1) in
      State (<[combined_file := parquet_of combined]> (brick st1))
            (stdout st1 ++ [combined_line combined])
            (requests st1) (all_datasets st1)
  end.

(** The names [glob("*.parquet")] finds, in no particular order. *)
Definition parquet_names (b : gmap string file) : list string :=
  filter (λ f, PyStr.endswith f ".parquet" = true) (map fst (map_to_list b)).

(** The names each loop of [main] runs over. *)
Definition dataset_names (c : category) : list string :=
  match c with ADME => adme_datasets | Tox => tox_datasets end.

(** The names of the files the two loops of [main] may write. *)
Definition dataset_files : list string :=
  map (output_name ADME) adme_datasets ++ map (output_name Tox) tox_datasets.

(** The combined file as an entry of the directory: none when the
    accumulator is empty. *)
Definition combined_entry (all : list DataFrame) : list (string * DataFrame) :=
  match all with
  | [] => []
  | _ => [(combined_file, combined_table all)]
  end.

End Script.

(** ** Notions used to state the properties *)

(** What lines 72 and 96 do to one character once the string is stripped. *)
Definition norm_char (c : ascii) : ascii :=
  let c1 := PyStr.lower_char c in
  let c2 := if Ascii.eqb c1 " " then "_"%char else c1 in
  if Ascii.eqb c2 "-" then "_"%char else c2.

(** A string that does not start with white space. *)
Definition clean_head (s : string) : Prop :=
  match s with
  | EmptyString => True
  | String c _ => PyStr.isspace c = false
  end.

(** The first testable property as the spec words it: whenever the provider
    call succeeds, the file of that name is there after the run, with the
    rows of the provider and exactly two more columns, [dataset] and
    [category]. *)
Definition file_has_two_more_columns
    (provider : category → string → result DataFrame)
    (write_error : string → DataFrame → option exn)
    (c : category) (name : string) (st : state) : Prop :=
  ∀ df, provider c name = Ok df →
    ∃ cols data,
      brick (main provider write_error st).2 !! output_name c name
      = Some (Parquet cols data)
      ∧ length cols = length (columns df) + 2
      ∧ length data = Pd.len df.

(** The identifier column as the spec words it: entirely text. *)
Definition identifier_all_text (combined : DataFrame) : Prop :=
  ∀ r j, r ∈ rows combined →
         columns combined !! j = Some (LStr "drug_id") →
         ∃ v, cells r !! j = Some v ∧ is_text v = true.

(** ** Providers and directories to run the script on *)

Module Mock.

(** An empty [brick/], a silent console, nothing requested yet. *)
Definition empty : state := State ∅ [] [] [].

(** A disk that takes every write. *)
Definition no_write_error (fname : string) (df : DataFrame) : option exn := None.

(** A table of three rows with the columns [Drug_ID], [Drug], [Y]. *)
Definition table3 : DataFrame :=
  Frame [LStr "Drug_ID"; LStr "Drug"; LStr "Y"]
        [ Row 0 [VInt 101; VStr "CCO"; VFloat "0.5"];
          Row 1 [VInt 102; VStr "CCN"; VFloat "1.25"];
          Row 2 [VInt 103; VStr "CCC"; VFloat "-0.75"] ].

Definition fetch_failure : exn := Exception "fetch failed".

(** The provider of the end-to-end scenario: one name is served, every
    other request fails. *)
Definition good_and_bad (c : category) (name : string) : result DataFrame :=
  if decide (name = "Good_Set") then Ok table3 else Raise fetch_failure.

(** A provider that serves [Caco2_Wang] only. *)
Definition only_caco2 (c : category) (name : string) : result DataFrame :=
  if decide (name = "Caco2_Wang") then Ok table3 else Raise fetch_failure.

(** A provider whose table for [Caco2_Wang] already has a [dataset] column. *)
Definition table_with_dataset : DataFrame :=
  Frame [LStr "Drug"; LStr "dataset"] [Row 0 [VStr "CCO"; VStr "old"]].

Definition with_dataset_column (c : category) (name : string) : result DataFrame :=
  if decide (name = "Caco2_Wang") then Ok table_with_dataset else Raise fetch_failure.

(** A provider whose table for [Caco2_Wang] has no identifier, while its
    table for [PAMPA_NCATS] has one. *)
Definition table_without_identifier : DataFrame :=
  Frame [LStr "Drug"; LStr "Y"] [Row 0 [VStr "CCO"; VFloat "0.5"]].

Definition one_without_identifier (c : category) (name : string) : result DataFrame :=
  if decide (name = "Caco2_Wang") then Ok table_without_identifier
  else if decide (name = "PAMPA_NCATS") then Ok table3
  else Raise fetch_failure.

(** A directory that holds a file named [*.parquet] which is no table. *)
Definition with_broken_file : state :=
  State {[ "notes.txt" := Blob "todo"; "zz_old.parquet" := Blob "garbage" ]} [] [] [].

(** A state whose accumulator holds one frame without any of the five
    columns and one with three of them. *)
Definition mixed_accumulator : state :=
  State ∅ [] []
        [ Frame [LStr "smiles"] [Row 0 [VStr "C"]; Row 1 [VStr "CC"]];
          Frame [LStr "drug_id"; LStr "y"; LStr "dataset"]
                [Row 0 [VInt 7; VFloat "0.1"; VStr "A"];
                 Row 1 [VInt 8; VFloat "0.2"; VStr "A"];
                 Row 2 [VInt 9; VFloat "0.3"; VStr "A"]] ].

End Mock.

(** ** More providers and directories to run the script on *)

Module Sample.

(** A table in which two labels differ only in spelling: both normalize to
    [drug_id]. *)
Definition table_with_twin_labels : DataFrame :=
  Frame [LStr "Drug ID"; LStr "drug_id"; LStr "Y"]
        [Row 0 [VInt 1; VStr "a"; VFloat "0.5"]].

Definition twin_labels (c : category) (name : string) : result DataFrame :=
  if decide (name = "Caco2_Wang") then Ok table_with_twin_labels
  else Raise Mock.fetch_failure.

(** A provider that is down. *)
Definition unreachable (c : category) (name : string) : result DataFrame :=
  Raise Mock.fetch_failure.

(** A directory left by an earlier run, next to a file of the user. *)
Definition earlier_run : state :=
  State {[ "adme_hia_hou.parquet" := Parquet [LStr "drug"] [[VStr "C"]; [VStr "CC"]];
           "tdc_admet_combined.parquet" := Parquet [LStr "drug"] [[VStr "C"]];
           "README.md" := Blob "notes" ]}
        [] [] [].

(** A table whose columns stand in another order than the projection's, and
    whose identifiers are text already. *)
Definition table_in_other_order : DataFrame :=
  Frame [LStr "y"; LStr "smiles"; LStr "drug_id"; LStr "category"; LStr "dataset"]
        [ Row 5 [VFloat "0.5"; VStr "CCO"; VStr "id-1"; VStr "ADME"; VStr "A"];
          Row 9 [VFloat "1.5"; VStr "CCN"; VStr "id-2"; VStr "ADME"; VStr "A"] ].

End Sample.

(** The files a run writes, in the order it writes them: one per frame
    fetched, then the combined table unless nothing was fetched or its
    write raises. *)
Definition main_writes
    (provider : category → string → result DataFrame)
    (write_error : string → DataFrame → option exn)
    (adme_names tox_names : list string) : list (string * DataFrame) :=
  let files := fetched_files provider write_error ADME adme_names
               ++ fetched_files provider write_error Tox tox_names in
  let all := fetched provider write_error ADME adme_names
             ++ fetched provider write_error Tox tox_names in
  match write_error combined_file (combined_table all) with
  | None => files ++ combined_entry all
  | Some _ => files
  end.

(** ** Directories that are not empty when the run starts *)

Module Stale.

(** A directory that holds a parquet file the script knows nothing of. *)
Definition with_foreign_file : state :=
  State (<["zinc_subset.parquet" :=
             Parquet [LStr "smiles"]
                     [[VStr "C"]; [VStr "CC"]; [VStr "CCC"]; [VStr "CCCC"]]]> ∅)
        [] [] [].

End Stale.

(** The parquet files of a directory that are neither the file of a name of
    [main] nor the combined file. *)
Definition other_parquet (b : gmap string file) : list string :=
  filter (λ f, (f ∉ dataset_files) ∧ f ≠ combined_file) (parquet_names b).

(** The grand total as the spec words it: the rows of the per-dataset files
    plus the rows of the combined file. *)
Definition total_is_datasets_plus_combined
    (provider : category → string → result DataFrame)
    (write_error : string → DataFrame → option exn) (st : state) : Prop :=
  let final := (main provider write_error st).2 in
  ∃ files,
    last (stdout final)
    = Some (total_line
              (sum_list_with (λ f, file_rows (brick final !! f)) dataset_files
               + file_rows (brick final !! combined_file))
              files).

(** ** The path [brick] before the script starts *)

(** What the working directory holds under the name [brick]. *)
Inductive brick_entry : Type :=
  | Missing
  | Directory (files : gmap string file)
  | NotADirectory.

(** [brick_path.mkdir(exist_ok=True)] (line 17).  A directory that is there
    is left as it is; a file of that name raises [FileExistsError]; where
    nothing is there the directory is made, unless the file system refuses
    ([mkdir_error]: no permission, a read-only disk). *)
Definition mkdir (mkdir_error : option exn) (p : brick_entry)
  : result (gmap string file) :=
  match p with
  | Directory files => Ok files
  | NotADirectory => Raise (Exception "[Errno 17] File exists: 'brick'")
  | Missing =>
      match mkdir_error with
      | Some e => Raise e
      | None => Ok ∅
      end
  end.

(** The files under [brick/] once line 17 is over. *)
Definition files_of (p : brick_entry) : gmap string file :=
  match p with
  | Directory files => files
  | _ => ∅
  end.

(** [main] from line 16 on, the two lists as parameters: line 17 is outside
    every [try], so its exception ends the run before anything is printed
    or requested ([None]: no state of the later lines is reached). *)
Definition main_from provider write_error
    (mkdir_error : option exn) (p : brick_entry)
    (adme_names tox_names : list string) : result unit * option state :=
  match mkdir mkdir_error p with
  | Raise e => (Raise e, None)
  | Ok files =>
      let out := main_with provider write_error adme_names tox_names
                   (State files [] [] []) in
      (out.1, Some out.2)
  end.

(** * Properties *)

(** ** Column-name normalization *)

Section Normalization.

Ltac by_cases_on c :=
  destruct c as [[] [] [] [] [] [] [] []]; vm_compute; congruence.

Lemma norm_char_idem c : norm_char (norm_char c) = norm_char c.
Proof. by_cases_on c. Qed.

Lemma norm_char_not_space c :
  PyStr.isspace c = false → PyStr.isspace (norm_char c) = false.
Proof. by_cases_on c. Qed.

Lemma pystr_map_map f g s : PyStr.map f (PyStr.map g s) = PyStr.map (λ c, f (g c)) s.
Proof. induction s as [|c s IH]; simpl; [done | by rewrite IH]. Qed.

Lemma normalize_unfold c :
  normalize c = PyStr.map norm_char (PyStr.strip (str_label c)).
Proof.
  unfold normalize, PyStr.replace, PyStr.lower. by rewrite !pystr_map_map.
Qed.

Lemma lstrip_clean_head s : clean_head (PyStr.lstrip s).
Proof.
  induction s as [|c s IH]; simpl; [done|].
  destruct (PyStr.isspace c) eqn:Hc; [done | by simpl].
Qed.

Lemma clean_head_lstrip s : clean_head s → PyStr.lstrip s = s.
Proof. destruct s as [|c s]; simpl; [done | by intros ->]. Qed.

Lemma rstrip_clean_head s : clean_head s → clean_head (PyStr.rstrip s).
Proof.
  destruct s as [|c s]; simpl; [done|]. intros Hc.
  destruct (PyStr.rstrip s); [by rewrite Hc | done].
Qed.

Lemma map_clean_head s : clean_head s → clean_head (PyStr.map norm_char s).
Proof. destruct s as [|c s]; simpl; [done | apply norm_char_not_space]. Qed.

Lemma rstrip_idem s : PyStr.rstrip (PyStr.rstrip s) = PyStr.rstrip s.
Proof.
  induction s as [|c s IH]; simpl; [done|].
  destruct (PyStr.rstrip s) as [|a r] eqn:Hr.
  - destruct (PyStr.isspace c) eqn:Hc; simpl; [done | by rewrite Hc].
  - change (PyStr.rstrip (String c (String a r))) with
      (match PyStr.rstrip (String a r) with
       | EmptyString =>
           if PyStr.isspace c then EmptyString else String c EmptyString
       | String a' r' => String c (String a' r')
       end).
    by rewrite IH.
Qed.

Lemma map_rstrip_fixed s :
  PyStr.rstrip s = s → PyStr.rstrip (PyStr.map norm_char s) = PyStr.map norm_char s.
Proof.
  induction s as [|c s IH]; simpl; [done|]. intros H.
  destruct (PyStr.rstrip s) as [|a r] eqn:Hr.
  - destruct (PyStr.isspace c) eqn:Hc; [done|].
    injection H as <-. simpl. by rewrite norm_char_not_space.
  - injection H as <-. rewrite IH by done. done.
Qed.

Lemma strip_map_strip s :
  PyStr.strip (PyStr.map norm_char (PyStr.strip s))
  = PyStr.map norm_char (PyStr.strip s).
Proof.
  unfold PyStr.strip at 1.
  rewrite clean_head_lstrip.
  - apply map_rstrip_fixed, rstrip_idem.
  - apply map_clean_head, rstrip_clean_head, lstrip_clean_head.
Qed.

(** C6.  Normalizing a column name twice gives what normalizing it once
    gives: [str], [strip], [lower] and the two replacements leave a
    normalized name as it is. *)
Theorem normalize_idempotent (c : label) :
  normalize (normalize_label c) = normalize c.
Proof.
  unfold normalize_label. rewrite !normalize_unfold. simpl str_label.
  rewrite strip_map_strip, pystr_map_map.
  generalize (PyStr.strip (str_label c)). intros s.
  induction s as [|a s IH]; simpl; [done|].
  by rewrite norm_char_idem, IH.
Qed.

End Normalization.

(** ** Frames *)

Section Frames.

Lemma map_fmap {A B} (f : A → B) (l : list A) : map f l = f <$> l.
Proof. done. Qed.

Lemma elem_of_map {A B} (f : A → B) (l : list A) (x : A) :
  x ∈ l → f x ∈ map f l.
Proof. rewrite map_fmap. apply list_elem_of_fmap_2. Qed.

Lemma setitem_columns key v df :
  columns (Pd.setitem key v df)
  = if Pd.has_column key df then columns df else columns df ++ [key].
Proof. unfold Pd.setitem. by destruct (Pd.has_column key df). Qed.

Lemma setitem_has key v df : key ∈ columns (Pd.setitem key v df).
Proof.
  rewrite setitem_columns. unfold Pd.has_column.
  case_bool_decide; [done|]. apply elem_of_app. right. apply list_elem_of_here.
Qed.

Lemma setitem_keeps key v df c :
  c ∈ columns df → c ∈ columns (Pd.setitem key v df).
Proof.
  rewrite setitem_columns. destruct (Pd.has_column key df); [done|].
  intros H. apply elem_of_app. by left.
Qed.

Lemma setitem_len key v df : Pd.len (Pd.setitem key v df) = Pd.len df.
Proof.
  unfold Pd.setitem, Pd.len.
  destruct (Pd.has_column key df); simpl; by rewrite length_map.
Qed.

Lemma setitem_fresh key v df :
  key ∉ columns df →
  Pd.setitem key v df
  = Frame (columns df ++ [key]) (map (λ r, Row (ix r) (cells r ++ [v])) (rows df)).
Proof.
  intros H. unfold Pd.setitem, Pd.has_column. by rewrite bool_decide_eq_false_2.
Qed.

Lemma annotate_len c name df : Pd.len (annotate c name df) = Pd.len df.
Proof.
  unfold annotate, Pd.rename, Pd.len at 1; simpl.
  fold (Pd.len (Pd.setitem (LStr "category") (VStr (category_tag c))
                  (Pd.setitem (LStr "dataset") (VStr name) df))).
  by rewrite !setitem_len.
Qed.

Lemma annotate_has_dataset c name df :
  LStr "dataset" ∈ columns (annotate c name df).
Proof.
  unfold annotate, Pd.rename; simpl.
  change (LStr "dataset") with (normalize_label (LStr "dataset")) at 1.
  apply elem_of_map, setitem_keeps, setitem_has.
Qed.

Lemma annotate_has_category c name df :
  LStr "category" ∈ columns (annotate c name df).
Proof.
  unfold annotate, Pd.rename; simpl.
  change (LStr "category") with (normalize_label (LStr "category")) at 1.
  apply elem_of_map, setitem_has.
Qed.

(** Annotating a frame that has neither column yet: two new last columns,
    every other cell as it was. *)
Lemma annotate_fresh c name df :
  LStr "dataset" ∉ columns df →
  LStr "category" ∉ columns df →
  annotate c name df
  = Frame (map normalize_label (columns df) ++ [LStr "dataset"; LStr "category"])
          (map (λ r, Row (ix r) (cells r ++ [VStr name; VStr (category_tag c)]))
               (rows df)).
Proof.
  intros Hd Hc. unfold annotate.
  rewrite (setitem_fresh (LStr "dataset")) by done.
  rewrite setitem_fresh
    by (simpl; rewrite elem_of_app, list_elem_of_singleton; intros [?|?]; done).
  unfold Pd.rename; simpl. f_equal.
  - by rewrite !map_app, <- app_assoc.
  - rewrite List.map_map. apply map_ext. intros r; simpl. by rewrite <- app_assoc.
Qed.

End Frames.

(** ** The fetch-and-write loops *)

Section Loops.

Variable provider : category → string → result DataFrame.
Variable write_error : string → DataFrame → option exn.

Local Abbreviation outcome := (outcome provider write_error).
Local Abbreviation process := (process provider write_error).
Local Abbreviation process_state := (process_state provider write_error).
Local Abbreviation loop_state := (loop_state provider write_error).
Local Abbreviation fetched := (fetched provider write_error).
Local Abbreviation fetched_files := (fetched_files provider write_error).
Local Abbreviation loop_lines := (loop_lines provider write_error).

(** One iteration never raises, and leaves the state [process_state]
    describes. *)
Lemma process_run c name st :
  process c name st = (Ok tt, process_state c name st).
Proof.
  unfold process, process_state, outcome, fetch_and_write,
    try_except, get_data, to_parquet, print, append_dataset,
    mbind, M_bind; simpl.
  destruct (provider c name) as [df|e]; simpl.
  - case_bool_decide; simpl.
    + destruct (write_error _ _) as [e|]; simpl;
        by rewrite <- (app_assoc (stdout st)).
    + by rewrite <- (app_assoc (stdout st)).
  - by rewrite <- (app_assoc (stdout st)).
Qed.

Lemma for_each_process c names st :
  for_each names (process c) st = (Ok tt, loop_state c names st).
Proof.
  revert st. induction names as [|name names IH]; intros st; [done|].
  simpl. unfold mbind, M_bind. rewrite process_run. apply IH.
Qed.

Lemma loop_state_cons c name names st :
  loop_state c (name :: names) st = loop_state c names (process_state c name st).
Proof. done. Qed.

Lemma loop_requests c names st :
  requests (loop_state c names st) = requests st ++ map (pair c) names.
Proof.
  revert st. induction names as [|name names IH]; intros st.
  - by rewrite app_nil_r.
  - rewrite loop_state_cons, IH. unfold process_state.
    destruct (outcome c name); simpl; by rewrite <- app_assoc.
Qed.

Lemma loop_all_datasets c names st :
  all_datasets (loop_state c names st) = all_datasets st ++ fetched c names.
Proof.
  revert st. induction names as [|name names IH]; intros st.
  - by rewrite app_nil_r.
  - rewrite loop_state_cons, IH. unfold process_state, fetched; simpl.
    destruct (outcome c name); simpl; [by rewrite <- app_assoc | done].
Qed.

Lemma loop_stdout c names st :
  stdout (loop_state c names st) = stdout st ++ loop_lines c names.
Proof.
  revert st. induction names as [|name names IH]; intros st.
  - by rewrite app_nil_r.
  - rewrite loop_state_cons, IH. unfold process_state; simpl.
    destruct (outcome c name); simpl; by rewrite <- app_assoc.
Qed.

(** The directory after a loop: the files of the fetched frames, written
    one after the other. *)
Lemma loop_brick c names st :
  brick (loop_state c names st)
  = write_all (brick st) (fetched_files c names).
Proof.
  revert st. induction names as [|name names IH]; intros st; [done|].
  rewrite loop_state_cons, IH. unfold process_state, fetched_files; simpl.
  by destruct (outcome c name).
Qed.

End Loops.

(** ** The combiner *)

Section Combiner.

Variable write_error : string → DataFrame → option exn.

Local Abbreviation combine := (combine write_error).

Lemma union_columns_acc (acc l : list label) :
  NoDup acc →
  let u := foldl (λ acc c, if decide (c ∈ acc) then acc else acc ++ [c]) acc l in
  NoDup u ∧ ∀ c, c ∈ u ↔ c ∈ acc ∨ c ∈ l.
Proof.
  revert acc. induction l as [|x l IH]; intros acc Hacc; simpl.
  - split; [done|]. intros c. rewrite elem_of_nil. tauto.
  - case_decide as Hx.
    + destruct (IH acc Hacc) as [Hn Hin]. split; [done|].
      intros c. rewrite Hin, elem_of_cons. split; [tauto|].
      intros [?|[->|?]]; tauto.
    + assert (NoDup (acc ++ [x])) as Hacc'.
      { apply NoDup_app. split_and!; [done| |apply NoDup_singleton].
        intros y Hy ->%list_elem_of_singleton. done. }
      destruct (IH _ Hacc') as [Hn Hin]. split; [done|].
      intros c. rewrite Hin, elem_of_app, list_elem_of_singleton, elem_of_cons.
      tauto.
Qed.

Lemma union_columns_NoDup frames : NoDup (Pd.union_columns frames).
Proof. apply (union_columns_acc [] _), NoDup_nil_2. Qed.

Lemma elem_of_union_columns frames c :
  c ∈ Pd.union_columns frames ↔ ∃ df, df ∈ frames ∧ c ∈ columns df.
Proof.
  unfold Pd.union_columns.
  destruct (union_columns_acc [] (flat_map columns frames) (NoDup_nil_2)) as [_ H].
  rewrite H, elem_of_nil, list_elem_of_In, in_flat_map.
  setoid_rewrite list_elem_of_In. tauto.
Qed.

Lemma length_flat_map_rows {A} (f : DataFrame → list A) frames :
  (∀ df, length (f df) = Pd.len df) →
  length (flat_map f frames) = sum_list_with Pd.len frames.
Proof.
  intros Hf. induction frames as [|df frames IH]; simpl; [done|].
  by rewrite length_app, Hf, IH.
Qed.

Lemma range_index_length data : length (Pd.range_index data) = length data.
Proof. apply length_imap. Qed.

(** No row is dropped and none is added by the concatenation. *)
Lemma concat_frames_len frames :
  Pd.len (Pd.concat_frames frames) = sum_list_with Pd.len frames.
Proof.
  unfold Pd.concat_frames, Pd.len at 1; simpl.
  rewrite range_index_length. apply length_flat_map_rows.
  intros df. by rewrite length_map.
Qed.

Lemma subset_of_len df : Pd.len (subset_of df) = Pd.len df.
Proof.
  unfold subset_of, Pd.astype_str, Pd.getitem, Pd.len.
  destruct (Pd.has_column _ _); simpl; by rewrite !length_map.
Qed.

Lemma available_cols_nil df :
  available_cols df = [] ↔ has_projected_column df = false.
Proof.
  unfold available_cols, has_projected_column, Pd.has_column.
  induction cols_to_keep as [|c l IH]; simpl; [done|].
  rewrite filter_cons. case_bool_decide; simpl.
  - by rewrite decide_True.
  - by rewrite decide_False.
Qed.

(** [summary_data] holds the projections of the frames that have one of
    the five columns, in the order of the accumulator. *)
Lemma summary_data_filter all :
  summary_data all = map subset_of (filter (λ df, has_projected_column df = true) all).
Proof.
  induction all as [|df all IH]; simpl; [done|].
  rewrite filter_cons.
  destruct (available_cols df) as [|c l] eqn:Hav.
  - apply available_cols_nil in Hav. rewrite decide_False by congruence. done.
  - rewrite decide_True; [simpl; by rewrite IH|].
    destruct (has_projected_column df) eqn:Hp; [done|].
    apply available_cols_nil in Hp. congruence.
Qed.

Lemma sum_list_with_map {A B} (f : B → nat) (g : A → B) (l : list A) :
  sum_list_with f (map g l) = sum_list_with (λ x, f (g x)) l.
Proof. induction l as [|x l IH]; simpl; [done | by rewrite IH]. Qed.

Lemma sum_list_with_ext {A} (f g : A → nat) (l : list A) :
  (∀ x, x ∈ l → f x = g x) → sum_list_with f l = sum_list_with g l.
Proof.
  induction l as [|x l IH]; simpl; [done|]. intros H.
  rewrite H, IH; [done| |].
  - intros y Hy. apply H. by apply list_elem_of_further.
  - apply list_elem_of_here.
Qed.

Lemma summary_len (l : list DataFrame) :
  sum_list_with Pd.len (map subset_of l) = sum_list_with Pd.len l.
Proof.
  rewrite sum_list_with_map. apply sum_list_with_ext.
  intros df _. apply subset_of_len.
Qed.

Lemma combined_table_len all :
  Pd.len (combined_table all)
  = sum_list_with Pd.len (filter (λ df, has_projected_column df = true) all).
Proof.
  unfold combined_table.
  by rewrite concat_frames_len, summary_data_filter, summary_len.
Qed.

Lemma combine_run st :
  combine st
  = match summary_data (all_datasets st) with
    | [] => (Ok tt, st)
    | _ =>
        let combined := combined_table (all_datasets st) in
        match write_error combined_file combined with
        | Some e => (Raise e, st)
        | None =>
            (Ok tt,
             State (<[combined_file := parquet_of combined]> (brick st))
                   (stdout st ++ [combined_line combined])
                   (requests st) (all_datasets st))
        end
    end.
Proof.
  unfold combine, combined_table.
  destruct (all_datasets st) as [|df all] eqn:Hall; [done|].
  destruct (summary_data (df :: all)) as [|s ss] eqn:Hs; [done|].
  unfold concat, to_parquet, print, mbind, M_bind, mret, M_ret; simpl.
  rewrite bool_decide_eq_true_2 by apply union_columns_NoDup.
  destruct (write_error _ _); [done|]. simpl. by rewrite Hall.
Qed.

End Combiner.

(** ** The projection of an accumulated frame *)

Section Projection.

Lemma positions_notin key cols i : key ∉ cols → Pd.positions key cols i = [].
Proof.
  revert i. induction cols as [|c cols IH]; intros i Hk; [done|].
  apply not_elem_of_cons in Hk as [Hne Hk]. simpl.
  rewrite decide_False by done. by apply IH.
Qed.

(** In a frame with pairwise distinct labels a label has one position. *)
Lemma positions_NoDup key cols i :
  NoDup cols → key ∈ cols →
  ∃ j, Pd.positions key cols i = [i + j] ∧ cols !! j = Some key.
Proof.
  revert i. induction cols as [|c cols IH]; intros i Hnd Hk.
  - by apply elem_of_nil in Hk.
  - apply NoDup_cons in Hnd as [Hc Hnd]. simpl.
    destruct (decide (c = key)) as [->|Hne].
    + exists 0. rewrite positions_notin by done. by rewrite Nat.add_0_r.
    + apply elem_of_cons in Hk as [->|Hk]; [done|].
      destruct (IH (S i) Hnd Hk) as (j & -> & Hj).
      exists (S j). split; [f_equal; lia | done].
Qed.

Lemma field_Some df r c :
  NoDup (columns df) → c ∈ columns df →
  ∃ j, Pd.positions c (columns df) 0 = [j] ∧ columns df !! j = Some c
       ∧ field df r c = Some (Pd.cell (cells r) j).
Proof.
  intros Hnd Hc. destruct (positions_NoDup c (columns df) 0 Hnd Hc) as (j & Hp & Hj).
  exists j. unfold field. by rewrite Hp.
Qed.

Lemma field_None df r c : c ∉ columns df → field df r c = None.
Proof. intros Hc. unfold field. by rewrite positions_notin. Qed.

(** [df[keys]] on a frame with pairwise distinct labels. *)
Lemma getitem_NoDup keys df :
  NoDup (columns df) →
  Forall (λ k, k ∈ columns df) keys →
  Pd.getitem keys df
  = Frame keys
          (map (λ r, Row (ix r) (map (λ k, default VNaN (field df r k)) keys))
               (rows df)).
Proof.
  intros Hnd Hkeys. unfold Pd.getitem. f_equal.
  - induction Hkeys as [|k keys Hk _ IH]; [done|]. simpl.
    destruct (field_Some df (Row 0 []) k Hnd Hk) as (j & -> & _). simpl.
    by rewrite IH.
  - apply map_ext. intros r. f_equal.
    induction Hkeys as [|k keys Hk _ IH]; [done|]. simpl.
    destruct (field_Some df r k Hnd Hk) as (j & Hp & _ & ->).
    rewrite Hp. simpl. by rewrite IH.
Qed.

Lemma astype_str_map key keys (g : label → value) :
  zip_with (λ c x, if decide (c = key) then VStr (str_value x) else x)
           keys (map g keys)
  = map (λ c, if decide (c = key) then VStr (str_value (g c)) else g c) keys.
Proof. induction keys as [|k keys IH]; simpl; [done | by rewrite IH]. Qed.

Lemma elem_of_available_cols df c :
  c ∈ available_cols df ↔ c ∈ cols_to_keep ∧ c ∈ columns df.
Proof. unfold available_cols. rewrite list_elem_of_filter. tauto. Qed.

Lemma cols_to_keep_NoDup : NoDup cols_to_keep.
Proof. apply (bool_decide_unpack _). by vm_compute. Qed.

Lemma available_cols_NoDup df : NoDup (available_cols df).
Proof. apply NoDup_filter, cols_to_keep_NoDup. Qed.

(** Lines 119-122 on a frame with pairwise distinct labels: the rows as the
    spec words them, laid out along the available columns. *)
Lemma subset_of_rows df :
  NoDup (columns df) →
  subset_of df
  = Frame (available_cols df)
          (map (λ r, Row (ix r) (combined_cells (available_cols df) df r))
               (rows df)).
Proof.
  intros Hnd. unfold subset_of.
  rewrite getitem_NoDup; [|done|].
  2:{ apply Forall_forall. intros c Hc. by apply elem_of_available_cols in Hc as [_ ?]. }
  unfold Pd.has_column, Pd.astype_str. cbn [columns rows].
  case_bool_decide as Hid; f_equal.
  - rewrite List.map_map. apply map_ext. intros r. cbn [ix cells]. f_equal.
    rewrite astype_str_map. unfold combined_cells.
    apply map_ext_in. intros c Hc%list_elem_of_In.
    apply elem_of_available_cols in Hc as [_ Hc].
    by destruct (field_Some df r c Hnd Hc) as (j & _ & _ & ->).
  - apply map_ext. intros r. f_equal. unfold combined_cells.
    apply map_ext_in. intros c Hc%list_elem_of_In.
    assert (c ≠ LStr "drug_id") as Hne by (by intros ->).
    apply elem_of_available_cols in Hc as [_ Hc].
    destruct (field_Some df r c Hnd Hc) as (j & _ & _ & ->).
    simpl. by rewrite decide_False.
Qed.

Lemma subset_of_columns df :
  NoDup (columns df) → columns (subset_of df) = available_cols df.
Proof. intros Hnd. by rewrite subset_of_rows. Qed.

(** Laying a projected row along columns among the five gives the row as
    the spec words it. *)
Lemma align_subset cols df r :
  NoDup (columns df) →
  (∀ c, c ∈ cols → c ∈ cols_to_keep) →
  Pd.align cols (subset_of df)
           (Row (ix r) (combined_cells (available_cols df) df r))
  = combined_cells cols df r.
Proof.
  intros Hnd Hcols. unfold Pd.align. rewrite subset_of_columns by done.
  cbn [cells]. unfold combined_cells at 2.
  apply map_ext_in. intros c Hc%list_elem_of_In.
  destruct (decide (c ∈ columns df)) as [Hin|Hnin].
  - assert (c ∈ available_cols df) as Hav.
    { apply elem_of_available_cols. auto. }
    destruct (positions_NoDup c _ 0 (available_cols_NoDup df) Hav) as (j & -> & Hj).
    unfold Pd.cell, combined_cells. rewrite map_fmap, list_lookup_fmap.
    simpl. by rewrite Hj.
  - rewrite positions_notin.
    + by rewrite field_None.
    + rewrite elem_of_available_cols. tauto.
Qed.

Lemma flat_map_map {A B C} (f : B → list C) (g : A → B) (l : list A) :
  flat_map f (map g l) = flat_map (λ x, f (g x)) l.
Proof. induction l as [|x l IH]; simpl; [done | by rewrite IH]. Qed.

Lemma flat_map_ext_in {A B} (f g : A → list B) (l : list A) :
  (∀ x, x ∈ l → f x = g x) → flat_map f l = flat_map g l.
Proof.
  induction l as [|x l IH]; simpl; [done|]. intros H.
  rewrite H, IH; [done| |apply list_elem_of_here].
  intros y Hy. apply H. by apply list_elem_of_further.
Qed.

Lemma combined_columns_kept all c :
  Forall (λ df, NoDup (columns df)) all →
  c ∈ columns (combined_table all) →
  c ∈ cols_to_keep
  ∧ ∃ df, df ∈ all ∧ has_projected_column df = true ∧ c ∈ columns df.
Proof.
  intros Hnd Hc. unfold combined_table, Pd.concat_frames in Hc. cbn [columns] in Hc.
  apply elem_of_union_columns in Hc as (sub & Hsub & Hc).
  rewrite summary_data_filter, map_fmap in Hsub.
  apply list_elem_of_fmap in Hsub as (df & -> & Hdf).
  apply list_elem_of_filter in Hdf as [Hp Hdf].
  rewrite Forall_forall in Hnd.
  rewrite subset_of_columns in Hc by auto.
  apply elem_of_available_cols in Hc as [? ?]. eauto.
Qed.

(** The rows of the combined table: the rows of the contributing frames one
    frame after the other, each as the spec words it, under a fresh index. *)
Lemma combined_table_rows all :
  Forall (λ df, NoDup (columns df)) all →
  rows (combined_table all)
  = Pd.range_index
      (flat_map (λ df, map (combined_cells (columns (combined_table all)) df) (rows df))
                (filter (λ df, has_projected_column df = true) all)).
Proof.
  intros Hnd.
  assert (∀ c, c ∈ columns (combined_table all) → c ∈ cols_to_keep) as Hkeep.
  { intros c Hc. by apply (combined_columns_kept all c) in Hc as [? _]. }
  revert Hkeep. unfold combined_table, Pd.concat_frames. cbn [rows columns].
  generalize (Pd.union_columns (summary_data all)). intros ucols Hkeep.
  f_equal. rewrite summary_data_filter, flat_map_map.
  apply flat_map_ext_in. intros df Hdf.
  apply list_elem_of_filter in Hdf as [_ Hdf].
  rewrite Forall_forall in Hnd. pose proof (Hnd df Hdf) as Hdfn.
  rewrite (subset_of_rows df) at 2 by done. cbn [rows].
  rewrite List.map_map. apply map_ext. intros r.
  by apply align_subset.
Qed.

Lemma range_index_from (k : nat) (data : list (list value)) :
  map ix (imap (λ i cs, Row (Z.of_nat (k + i)) cs) data)
  = map Z.of_nat (seq k (length data))
  ∧ map cells (imap (λ i cs, Row (Z.of_nat (k + i)) cs) data) = data.
Proof.
  revert k. induction data as [|cs data IH]; intros k; [done|].
  cbn [imap map seq length ix cells].
  rewrite (imap_ext _ (λ i cs, Row (Z.of_nat (S k + i)) cs)).
  - destruct (IH (S k)) as [-> ->]. by rewrite Nat.add_0_r.
  - intros i x _. simpl. do 2 f_equal. lia.
Qed.

(** The index of a concatenation counts the rows from zero. *)
Lemma range_index_ix data :
  map ix (Pd.range_index data) = map Z.of_nat (seq 0 (length data)).
Proof. apply (range_index_from 0). Qed.

Lemma range_index_cells data : map cells (Pd.range_index data) = data.
Proof. apply (range_index_from 0). Qed.

(** Where a row of the combined table comes from. *)
Lemma combined_row_origin all r :
  Forall (λ df, NoDup (columns df)) all →
  r ∈ rows (combined_table all) →
  ∃ df r0, df ∈ all ∧ has_projected_column df = true ∧ r0 ∈ rows df
           ∧ cells r = combined_cells (columns (combined_table all)) df r0.
Proof.
  intros Hnd Hr. apply (elem_of_map cells) in Hr.
  rewrite combined_table_rows, range_index_cells in Hr by done.
  apply list_elem_of_In, in_flat_map in Hr as (df & Hdf & Hin).
  apply list_elem_of_In, list_elem_of_filter in Hdf as [Hp Hdf].
  apply in_map_iff in Hin as (r0 & Heq & Hr0).
  exists df, r0. split_and!; [done|done|by apply list_elem_of_In|done].
Qed.

(** The cell of a combined row under [drug_id]. *)
Lemma combined_cells_lookup cols df r j c :
  cols !! j = Some c →
  combined_cells cols df r !! j
  = Some (match field df r c with
          | Some v => if decide (c = LStr "drug_id") then VStr (str_value v) else v
          | None => VNaN
          end).
Proof.
  intros Hj. unfold combined_cells. by rewrite map_fmap, list_lookup_fmap, Hj.
Qed.

End Projection.

(** ** The reporter *)

Section Reporter.

Lemma glob_parquet_perm st : glob_parquet st ≡ₚ parquet_names (brick st).
Proof. apply merge_sort_Permutation. Qed.

Lemma glob_parquet_sorted st : StronglySorted String.le (glob_parquet st).
Proof. apply (StronglySorted_merge_sort _). Qed.

Lemma elem_of_parquet_names b f :
  f ∈ parquet_names b ↔ is_Some (b !! f) ∧ PyStr.endswith f ".parquet" = true.
Proof.
  unfold parquet_names. rewrite list_elem_of_filter, map_fmap, list_elem_of_fmap.
  split.
  - intros [He [[f' x] [-> Hin%elem_of_map_to_list]]]. eauto.
  - intros [[x Hx] He]. split; [done|].
    exists (f, x). split; [done|]. by apply elem_of_map_to_list.
Qed.


Lemma parquet_names_NoDup b : NoDup (parquet_names b).
Proof.
  unfold parquet_names. apply NoDup_filter.
  rewrite map_fmap. apply NoDup_fst_map_to_list.
Qed.


(** The loop over the files when each of them reads back. *)
Lemma report_files_ok files total st :
  Forall (λ f, readable (brick st !! f) = true) files →
  report_files files total st
  = (Ok (total + sum_list_with (λ f, file_rows (brick st !! f)) files),
     add_lines (map (report_line (brick st)) files) st).
Proof.
  revert total st. induction files as [|f files IH]; intros total st Hok.
  - simpl. unfold mret, M_ret, add_lines. rewrite Nat.add_0_r, app_nil_r.
    by destruct st.
  - apply Forall_cons in Hok as [Hf Hok].
    simpl. unfold mbind, M_bind, read_parquet.
    destruct (brick st !! f) as [[cols data|bytes]|] eqn:Hb; try done.
    simpl. rewrite IH by done. simpl.
    change (Pd.len (Frame cols (Pd.range_index data)))
      with (length (Pd.range_index data)).
    rewrite range_index_length.
    unfold add_lines; simpl. f_equal; [f_equal; lia|].
    f_equal. rewrite <- app_assoc. simpl. unfold report_line at 2.
    by rewrite Hb.
Qed.

(** The loop over the files when one of them does not: the exception of
    the first such file ends the loop, after the lines of the files before
    it, and nothing handles it. *)
Lemma report_files_fail files total st :
  Exists (λ f, readable (brick st !! f) = false) files →
  ∃ e done,
    report_files files total st
    = (Raise e, add_lines (map (report_line (brick st)) done) st)
    ∧ done `prefix_of` files.
Proof.
  revert total st. induction files as [|f files IH]; intros total st Hex.
  - by apply Exists_nil in Hex.
  - assert (∀ e, (Raise e, st)
                 = (@Raise nat e, add_lines (map (report_line (brick st)) []) st))
      as Hnil.
    { intros e. unfold add_lines; simpl. rewrite app_nil_r. by destruct st. }
    simpl. unfold mbind, M_bind, read_parquet.
    destruct (brick st !! f) as [[cols data|bytes]|] eqn:Hb.
    + apply Exists_cons in Hex as [Hf|Hex]; [by rewrite Hb in Hf|].
      simpl.
      match goal with
      | |- context [report_files files ?t ?s] =>
          destruct (IH t s Hex) as (e & done & -> & Hp)
      end.
      exists e, (f :: done). split; [|by apply prefix_cons].
      unfold add_lines; simpl. rewrite <- app_assoc. simpl.
      change (Pd.len (Frame cols (Pd.range_index data)))
        with (length (Pd.range_index data)).
      rewrite range_index_length.
      assert (report_line (brick st) f
              = "  - " +:+ f +:+ ": " +:+ pretty (length data) +:+ " rows") as <-.
      { unfold report_line. by rewrite Hb. }
      done.
    + eexists _, []. split; [apply Hnil | apply prefix_nil].
    + eexists _, []. split; [apply Hnil | apply prefix_nil].
Qed.

Lemma report_run_ok st :
  Forall (λ f, readable (brick st !! f) = true) (glob_parquet st) →
  report st
  = (Ok tt,
     add_lines
       (map (report_line (brick st)) (glob_parquet st)
        ++ [total_line
              (sum_list_with (λ f, file_rows (brick st !! f)) (glob_parquet st))
              (length (glob_parquet st))])
       st).
Proof.
  intros Hok. unfold report, mbind, M_bind.
  rewrite report_files_ok by done. unfold print, add_lines; simpl.
  by rewrite <- app_assoc.
Qed.

Lemma report_run_fail st :
  Exists (λ f, readable (brick st !! f) = false) (glob_parquet st) →
  ∃ e done,
    report st = (Raise e, add_lines (map (report_line (brick st)) done) st)
    ∧ done `prefix_of` glob_parquet st.
Proof.
  intros Hex. unfold report, mbind, M_bind.
  destruct (report_files_fail _ 0 st Hex) as (e & done & -> & ?).
  by exists e, done.
Qed.

Lemma total_line_not_report_line total n b f : total_line total n ≠ report_line b f.
Proof. done. Qed.

End Reporter.

(** ** The whole run *)

Section Main.

Variable provider : category → string → result DataFrame.
Variable write_error : string → DataFrame → option exn.

Local Abbreviation outcome := (outcome provider write_error).
Local Abbreviation loop_state := (loop_state provider write_error).
Local Abbreviation fetched := (fetched provider write_error).
Local Abbreviation fetched_files := (fetched_files provider write_error).
Local Abbreviation loop_lines := (loop_lines provider write_error).
Local Abbreviation after_loops := (after_loops provider write_error).
Local Abbreviation after_combine := (after_combine provider write_error).
Local Abbreviation main_with := (main_with provider write_error).
Local Abbreviation combine := (combine write_error).

Lemma banner_run title leading_nl st :
  banner title leading_nl st = (Ok tt, add_lines (banner_lines title leading_nl) st).
Proof.
  unfold banner, print, add_lines, banner_lines, mbind, M_bind; simpl.
  by rewrite <- !app_assoc.
Qed.

(** The reporter writes to the console and to nothing else. *)
Lemma report_files_frame files total st :
  let st' := (report_files files total st).2 in
  brick st' = brick st ∧ requests st' = requests st
  ∧ all_datasets st' = all_datasets st.
Proof.
  revert total st. induction files as [|f files IH]; intros total st; [done|].
  simpl. unfold mbind, M_bind, read_parquet.
  destruct (brick st !! f) as [[cols data|bytes]|]; [|done..].
  simpl.
  match goal with
  | |- context [report_files files ?t ?s] => destruct (IH t s) as (? & ? & ?)
  end.
  done.
Qed.

Lemma report_frame st :
  let st' := (report st).2 in
  brick st' = brick st ∧ requests st' = requests st
  ∧ all_datasets st' = all_datasets st.
Proof.
  unfold report, mbind, M_bind.
  pose proof (report_files_frame (glob_parquet st) 0 st) as H.
  destruct (report_files (glob_parquet st) 0 st) as [[total|e] st']; done.
Qed.

Lemma after_loops_requests A T st :
  requests (after_loops A T st)
  = requests st ++ map (pair ADME) A ++ map (pair Tox) T.
Proof.
  unfold after_loops. rewrite !loop_requests; simpl.
  rewrite loop_requests; simpl. by rewrite <- app_assoc.
Qed.

Lemma after_loops_all_datasets A T st :
  all_datasets (after_loops A T st) = fetched ADME A ++ fetched Tox T.
Proof.
  unfold after_loops. rewrite !loop_all_datasets; simpl.
  by rewrite loop_all_datasets.
Qed.

Lemma after_loops_stdout A T st :
  stdout (after_loops A T st)
  = stdout st
    ++ banner_lines "Downloading ADME datasets from TDC..." false
    ++ loop_lines ADME A
    ++ banner_lines "Downloading Toxicity datasets from TDC..." true
    ++ loop_lines Tox T.
Proof.
  unfold after_loops. rewrite !loop_stdout. cbn [stdout add_lines].
  rewrite loop_stdout. cbn [stdout add_lines].
  by rewrite <- !app_assoc.
Qed.

Lemma after_loops_brick A T st :
  brick (after_loops A T st)
  = write_all (brick st) (fetched_files ADME A ++ fetched_files Tox T).
Proof.
  unfold after_loops. rewrite !loop_brick; simpl.
  unfold write_all. by rewrite loop_brick, foldl_app.
Qed.

(** [main] up to the reporter: the loops never raise; the combiner raises
    only when the write of the combined file does. *)
Lemma main_with_cases A T st :
  let st1 := add_lines (banner_lines "Creating combined dataset..." true)
               (after_loops A T st) in
  (∃ e, combine st1 = (Raise e, st1) ∧ main_with A T st = (Raise e, st1))
  ∨ (combine st1 = (Ok tt, after_combine A T st)
     ∧ main_with A T st
       = report (add_lines (banner_lines "Output files:" true)
                   (after_combine A T st))).
Proof.
  intros st1.
  assert (main_with A T st
          = (combine ;; banner "Output files:" true ;; report) st1) as Hmain.
  { unfold main_with, mbind, M_bind. cbn beta iota.
    rewrite banner_run. cbn beta iota.
    rewrite for_each_process. cbn beta iota.
    rewrite banner_run. cbn beta iota.
    rewrite for_each_process. cbn beta iota.
    rewrite banner_run. cbn beta iota. done. }
  rewrite Hmain. unfold mbind, M_bind.
  rewrite combine_run. unfold after_combine. fold st1.
  destruct (summary_data (all_datasets st1)) as [|s ss] eqn:Hs.
  - right. split; [done|]. by rewrite banner_run.
  - cbn zeta. destruct (write_error combined_file _) as [e|] eqn:Hw.
    + left. by exists e.
    + right. split; [done|]. by rewrite banner_run.
Qed.

Lemma outcome_Ok c name df' :
  outcome c name = Ok df' →
  ∃ df, provider c name = Ok df ∧ df' = annotate c name df
        ∧ NoDup (columns df')
        ∧ write_error (output_name c name) df' = None.
Proof.
  unfold outcome. destruct (provider c name) as [df|e]; [|done].
  cbn zeta. case_bool_decide as Hn; [|done].
  destruct (write_error _ _) eqn:Hw; [done|].
  intros [= <-]. by exists df.
Qed.

Lemma elem_of_fetched c names df' :
  df' ∈ fetched c names → ∃ name, name ∈ names ∧ outcome c name = Ok df'.
Proof.
  unfold fetched, fetched_files. rewrite map_fmap, list_elem_of_fmap.
  intros [[f d] [-> Hin]]. apply list_elem_of_omap in Hin as (name & Hin & Hd).
  exists name. split; [done|].
  destruct (outcome c name); by simplify_eq/=.
Qed.

(** Every accumulated frame went through lines 68-72 and was written. *)
Lemma fetched_annotated c names df' :
  df' ∈ fetched c names →
  ∃ name df, name ∈ names ∧ provider c name = Ok df
             ∧ df' = annotate c name df ∧ NoDup (columns df').
Proof.
  intros (name & Hin & Ho)%elem_of_fetched.
  apply outcome_Ok in Ho as (df & ? & ? & ? & ?). by exists name, df.
Qed.

Lemma fetched_have_both A T :
  Forall (λ df, LStr "dataset" ∈ columns df ∧ LStr "category" ∈ columns df)
         (fetched ADME A ++ fetched Tox T).
Proof.
  apply Forall_app. split; apply Forall_forall; intros df' Hin;
    apply fetched_annotated in Hin as (name & df & _ & _ & -> & _);
    split; [apply annotate_has_dataset | apply annotate_has_category
           |apply annotate_has_dataset | apply annotate_has_category].
Qed.

Lemma both_projected (all : list DataFrame) :
  Forall (λ df, LStr "dataset" ∈ columns df ∧ LStr "category" ∈ columns df) all →
  Forall (λ df, has_projected_column df = true) all.
Proof.
  intros Hboth. eapply Forall_impl; [exact Hboth|]. intros df [Hd _].
  unfold has_projected_column, cols_to_keep, Pd.has_column. simpl.
  rewrite (bool_decide_eq_true_2 _ Hd). by rewrite !orb_true_r.
Qed.

(** When every frame has a projected column, none is skipped. *)
Lemma summary_data_all (all : list DataFrame) :
  Forall (λ df, has_projected_column df = true) all →
  summary_data all = map subset_of all.
Proof.
  intros Hproj. rewrite summary_data_filter. f_equal.
  induction Hproj as [|df l Hdf _ IH]; [done|].
  rewrite filter_cons, decide_True by done. by rewrite IH.
Qed.

Lemma combined_table_len_all (all : list DataFrame) :
  Forall (λ df, has_projected_column df = true) all →
  Pd.len (combined_table all) = sum_list_with Pd.len all.
Proof.
  intros Hproj. unfold combined_table.
  by rewrite concat_frames_len, summary_data_all, summary_len.
Qed.

Lemma after_combine_all_datasets A T st :
  all_datasets (after_combine A T st) = fetched ADME A ++ fetched Tox T.
Proof.
  unfold after_combine. cbn zeta.
  destruct (summary_data _); simpl; apply after_loops_all_datasets.
Qed.

(** The accumulator is the same from line 105 to the end of the run. *)
Lemma main_with_all_datasets A T st :
  all_datasets (main_with A T st).2 = fetched ADME A ++ fetched Tox T.
Proof.
  destruct (main_with_cases A T st) as [(e & _ & ->)|[_ ->]].
  - apply after_loops_all_datasets.
  - destruct (report_frame (add_lines (banner_lines "Output files:" true)
                              (after_combine A T st))) as (_ & _ & ->).
    apply after_combine_all_datasets.
Qed.

Lemma main_with_requests A T st :
  requests (main_with A T st).2
  = requests st ++ map (pair ADME) A ++ map (pair Tox) T.
Proof.
  destruct (main_with_cases A T st) as [(e & _ & ->)|[_ ->]].
  - apply after_loops_requests.
  - destruct (report_frame (add_lines (banner_lines "Output files:" true)
                              (after_combine A T st))) as (_ & -> & _).
    unfold after_combine. cbn zeta.
    destruct (summary_data _); simpl; apply after_loops_requests.
Qed.

Lemma after_combine_stdout A T st :
  ∃ rest, stdout (after_combine A T st) = stdout (after_loops A T st) ++ rest.
Proof.
  unfold after_combine. cbn zeta.
  destruct (summary_data _); cbn [stdout add_lines]; eexists;
    [reflexivity | by rewrite <- app_assoc].
Qed.

(** A line of the first loop is on the console of every later state. *)
Lemma after_combine_loop_line A T st line :
  line ∈ loop_lines ADME A → line ∈ stdout (after_combine A T st).
Proof.
  intros Hin. destruct (after_combine_stdout A T st) as [rest ->].
  rewrite after_loops_stdout, !elem_of_app. auto.
Qed.

End Main.

(** ** The directory *)

Section Directory.

Lemma write_all_cons b k df files :
  write_all b ((k, df) :: files) = write_all (<[k := parquet_of df]> b) files.
Proof. done. Qed.

Lemma write_all_lookup_notin b files k :
  k ∉ files.*1 → write_all b files !! k = b !! k.
Proof.
  revert b. induction files as [|[k' df'] files IH]; intros b Hk; [done|].
  rewrite fmap_cons in Hk. apply not_elem_of_cons in Hk as [Hne Hk].
  rewrite write_all_cons, IH by done.
  by apply lookup_insert_ne.
Qed.

Lemma write_all_lookup_in b files k df :
  NoDup files.*1 → (k, df) ∈ files →
  write_all b files !! k = Some (parquet_of df).
Proof.
  revert b. induction files as [|[k' df'] files IH]; intros b Hnd Hin.
  - by apply elem_of_nil in Hin.
  - rewrite fmap_cons in Hnd. apply NoDup_cons in Hnd as [Hk' Hnd].
    rewrite write_all_cons.
    apply elem_of_cons in Hin as [[= <- <-]|Hin]; [|by apply IH].
    rewrite write_all_lookup_notin by done. apply lookup_insert_eq.
Qed.

Lemma write_all_is_Some b files k :
  is_Some (write_all b files !! k) ↔ is_Some (b !! k) ∨ k ∈ files.*1.
Proof.
  revert b. induction files as [|[k' df'] files IH]; intros b.
  - simpl. rewrite elem_of_nil. tauto.
  - rewrite write_all_cons, IH, fmap_cons, elem_of_cons, lookup_insert_is_Some.
    simpl. destruct (decide (k' = k)) as [->|Hne]; [tauto|].
    intuition congruence.
Qed.

Lemma length_append s1 s2 :
  String.length (s1 +:+ s2) = (String.length s1 + String.length s2)%nat.
Proof. induction s1 as [|c s1 IH]; simpl; [done | by rewrite IH]. Qed.

Lemma substring_all s : substring 0 (String.length s) s = s.
Proof. induction s as [|c s IH]; simpl; [done | by rewrite IH]. Qed.

Lemma substring_append s1 s2 :
  substring (String.length s1) (String.length s2) (s1 +:+ s2) = s2.
Proof. induction s1 as [|c s1 IH]; simpl; [apply substring_all | done]. Qed.

Lemma endswith_append s suffix : PyStr.endswith (s +:+ suffix) suffix = true.
Proof.
  unfold PyStr.endswith. rewrite length_append.
  replace (String.length s + String.length suffix - String.length suffix)%nat
    with (String.length s) by lia.
  rewrite substring_append, String.eqb_refl, andb_true_r.
  apply Nat.leb_le. lia.
Qed.

Lemma append_assoc s1 s2 s3 : (s1 +:+ s2) +:+ s3 = s1 +:+ (s2 +:+ s3).
Proof.
  induction s1 as [|c s1 IH]; [done|].
  change (String c ((s1 +:+ s2) +:+ s3) = String c (s1 +:+ (s2 +:+ s3))).
  by rewrite IH.
Qed.

Lemma output_name_parquet c name :
  PyStr.endswith (output_name c name) ".parquet" = true.
Proof.
  unfold output_name. rewrite <- append_assoc. apply endswith_append.
Qed.

Lemma output_name_not_combined c name : output_name c name ≠ combined_file.
Proof.
  unfold output_name, combined_file. by destruct c.
Qed.

Lemma write_all_no_parquet b files k :
  no_parquet b → PyStr.endswith k ".parquet" = true →
  k ∉ files.*1 → write_all b files !! k = None.
Proof.
  intros Hb Hk Hnot. rewrite write_all_lookup_notin by done.
  destruct (b !! k) eqn:Hbk; [|done].
  rewrite Hb in Hk; [done | by rewrite Hbk].
Qed.

End Directory.

(** ** A run in a directory without parquet files *)

Section Runs.

Variable provider : category → string → result DataFrame.
Variable write_error : string → DataFrame → option exn.

Local Abbreviation outcome := (outcome provider write_error).
Local Abbreviation fetched := (fetched provider write_error).
Local Abbreviation fetched_files := (fetched_files provider write_error).
Local Abbreviation after_loops := (after_loops provider write_error).
Local Abbreviation after_combine := (after_combine provider write_error).
Local Abbreviation main_with := (main_with provider write_error).
Local Abbreviation combine := (combine write_error).

Lemma parquet_of_rows df : file_rows (Some (parquet_of df)) = Pd.len df.
Proof. unfold parquet_of, Pd.len; simpl. apply length_map. Qed.

(** What a directory without parquet files holds once a list of frames is
    written to it under distinct names. *)
Lemma written_directory b (files : list (string * DataFrame)) :
  no_parquet b →
  NoDup files.*1 →
  Forall (λ k, PyStr.endswith k ".parquet" = true) files.*1 →
  parquet_names (write_all b files) ≡ₚ files.*1
  ∧ Forall (λ f, readable (write_all b files !! f) = true) files.*1
  ∧ sum_list_with (λ f, file_rows (write_all b files !! f)) files.*1
    = sum_list_with (λ fd, Pd.len fd.2) files.
Proof.
  intros Hb Hnd Hpq.
  assert (∀ k df, (k, df) ∈ files →
                  write_all b files !! k = Some (parquet_of df)) as Hlook.
  { intros k df Hin. by apply write_all_lookup_in. }
  split_and!.
  - apply NoDup_Permutation; [apply parquet_names_NoDup | done |].
    intros f. rewrite elem_of_parquet_names, write_all_is_Some. split.
    + intros [[Hbf|Hf] He]; [|done]. apply Hb in Hbf. congruence.
    + intros Hf. split; [by right|].
      rewrite Forall_forall in Hpq. by apply Hpq.
  - apply Forall_forall. intros f Hf.
    apply list_elem_of_fmap in Hf as ([k df] & -> & Hin).
    cbn [fst]. by rewrite (Hlook _ _ Hin).
  - rewrite <- map_fmap, sum_list_with_map. apply sum_list_with_ext.
    intros [k df] Hin. cbn [fst snd]. by rewrite (Hlook _ _ Hin), parquet_of_rows.
Qed.

Lemma written_rows b (files sub : list (string * DataFrame)) :
  NoDup files.*1 →
  (∀ fd, fd ∈ sub → fd ∈ files) →
  sum_list_with (λ f, file_rows (write_all b files !! f)) sub.*1
  = sum_list_with (λ fd, Pd.len fd.2) sub.
Proof.
  intros Hnd Hsub.
  rewrite <- map_fmap, sum_list_with_map. apply sum_list_with_ext.
  intros [k df] Hin. cbn [fst snd].
  by rewrite (write_all_lookup_in b files k df), parquet_of_rows by auto.
Qed.

(** A sum over a list without repetition, when only the entries of a
    sublist count. *)
Lemma sum_sublist {A} (f : A → nat) (l1 l2 : list A) :
  l1 `sublist_of` l2 → NoDup l2 →
  (∀ x, x ∈ l2 → x ∉ l1 → f x = 0) →
  sum_list_with f l2 = sum_list_with f l1.
Proof.
  induction 1 as [|x l1 l2 Hsub IH|x l1 l2 Hsub IH]; intros Hnd Hzero; [done|..];
    apply NoDup_cons in Hnd as [Hx Hnd]; cbn [sum_list_with].
  - rewrite IH; [done..|]. intros y Hy Hy1. apply Hzero.
    + by apply list_elem_of_further.
    + apply not_elem_of_cons. split; [|done]. by intros ->.
  - rewrite (Hzero x), IH; [done|done| |apply list_elem_of_here|].
    + intros y Hy Hy1. apply Hzero; [by apply list_elem_of_further | done].
    + intros Hx1. apply Hx. by eapply elem_of_sublist.
Qed.

Lemma fetched_files_keys c names k :
  k ∈ (fetched_files c names).*1 → ∃ name, name ∈ names ∧ k = output_name c name.
Proof.
  intros ([k' df] & -> & Hin)%list_elem_of_fmap.
  apply list_elem_of_omap in Hin as (name & Hin & Hd).
  exists name. split; [done|].
  destruct (outcome c name); by simplify_eq/=.
Qed.

Lemma fetched_files_snd A T :
  (fetched_files ADME A ++ fetched_files Tox T).*2 = fetched ADME A ++ fetched Tox T.
Proof. by rewrite fmap_app. Qed.

Lemma all_files_keys A T k :
  k ∈ (fetched_files ADME A ++ fetched_files Tox T).*1 →
  ∃ c name, k = output_name c name.
Proof.
  rewrite fmap_app, elem_of_app.
  intros [(name & _ & ->)%fetched_files_keys|(name & _ & ->)%fetched_files_keys];
    eauto.
Qed.

Lemma combined_entry_nil all : combined_entry all = [] ↔ all = [].
Proof. by destruct all. Qed.

(** The directory when the combiner is over. *)
Lemma after_combine_brick A T st :
  brick (after_combine A T st)
  = write_all (brick st)
      ((fetched_files ADME A ++ fetched_files Tox T)
       ++ combined_entry (fetched ADME A ++ fetched Tox T)).
Proof.
  unfold after_combine. cbn zeta. cbn [all_datasets add_lines].
  rewrite after_loops_all_datasets.
  rewrite (summary_data_all (fetched ADME A ++ fetched Tox T))
    by apply both_projected, fetched_have_both.
  unfold write_all. rewrite foldl_app. fold (write_all (brick st)).
  destruct (fetched ADME A ++ fetched Tox T) as [|df all] eqn:Hall;
    simpl; by rewrite after_loops_brick.
Qed.

Lemma all_files_NoDup A T :
  NoDup (fetched_files ADME A ++ fetched_files Tox T).*1 →
  let all := fetched ADME A ++ fetched Tox T in
  NoDup ((fetched_files ADME A ++ fetched_files Tox T) ++ combined_entry all).*1
  ∧ Forall (λ k, PyStr.endswith k ".parquet" = true)
           ((fetched_files ADME A ++ fetched_files Tox T) ++ combined_entry all).*1.
Proof.
  intros Hnd all. rewrite fmap_app. split.
  - apply NoDup_app. split_and!; [done| |].
    + intros k (c & name & ->)%all_files_keys Hin.
      destruct all; simpl in Hin; [by apply elem_of_nil in Hin|].
      apply list_elem_of_singleton in Hin.
      by apply output_name_not_combined in Hin.
    + destruct all; simpl; [apply NoDup_nil_2 | apply NoDup_singleton].
  - apply Forall_app. split.
    + apply Forall_forall. intros k (c & name & ->)%all_files_keys.
      apply output_name_parquet.
    + destruct all; simpl; [done|]. by apply Forall_singleton.
Qed.

Lemma combined_entry_rows all :
  Forall (λ df, has_projected_column df = true) all →
  sum_list_with (λ fd, Pd.len fd.2) (combined_entry all) = sum_list_with Pd.len all.
Proof.
  intros Hproj. destruct all as [|df all]; [done|].
  cbn [combined_entry sum_list_with snd].
  rewrite combined_table_len_all by done. cbn [sum_list_with]. lia.
Qed.

(** A whole run that starts without parquet files, writes its frames under
    distinct names and gets the combined file written: it ends normally,
    and its last line adds up every file written, the combined one
    included. *)
Lemma fresh_run A T st :
  let files := fetched_files ADME A ++ fetched_files Tox T in
  let all := fetched ADME A ++ fetched Tox T in
  let before :=
    add_lines (banner_lines "Output files:" true) (after_combine A T st) in
  no_parquet (brick st) →
  NoDup files.*1 →
  write_error combined_file (combined_table all) = None →
  main_with A T st
  = (Ok tt,
     add_lines
       (map (report_line (brick before)) (glob_parquet before)
        ++ [total_line (2 * sum_list_with Pd.len all)
                       (length all + length (combined_entry all))])
       before)
  ∧ glob_parquet before ≡ₚ (files ++ combined_entry all).*1
  ∧ brick before = write_all (brick st) (files ++ combined_entry all).
Proof.
  intros files all before Hb Hnd Hw.
  pose proof (both_projected _ (fetched_have_both provider write_error A T))
    as Hproj. fold all in Hproj.
  destruct (all_files_NoDup A T Hnd) as [Hnd' Hpq]. fold files all in Hnd', Hpq.
  assert (brick before = write_all (brick st) (files ++ combined_entry all))
    as Hbrick by apply after_combine_brick.
  destruct (written_directory (brick st) _ Hb Hnd' Hpq) as (Hperm & Hread & Hsum).
  rewrite <- Hbrick in Hperm, Hread, Hsum.
  assert (glob_parquet before ≡ₚ (files ++ combined_entry all).*1) as Hglob.
  { by rewrite glob_parquet_perm. }
  split_and!; [|done..].
  destruct (main_with_cases provider write_error A T st)
    as [(e & Hc & _)|[_ ->]].
  { exfalso. revert Hc. rewrite combine_run. cbn [all_datasets add_lines].
    rewrite after_loops_all_datasets. fold all.
    destruct (summary_data all); [done|]. cbn zeta. by rewrite Hw. }
  assert (sum_list_with (λ f, file_rows (brick before !! f)) (glob_parquet before)
          = 2 * sum_list_with Pd.len all) as Htotal.
  { rewrite Hglob, Hsum, sum_list_with_app, combined_entry_rows by done.
    rewrite <- (sum_list_with_map Pd.len snd), map_fmap.
    unfold files. rewrite fetched_files_snd. fold all. lia. }
  assert (length (glob_parquet before) = length all + length (combined_entry all))
    as Hcount.
  { rewrite Hglob, length_fmap, length_app. f_equal.
    unfold all. rewrite <- fetched_files_snd. by rewrite length_fmap. }
  fold before. rewrite report_run_ok by (by rewrite Hglob).
  by rewrite Htotal, Hcount.
Qed.

(** A frame a loop wrote is still in its file when the run is over. *)
Lemma main_with_lookup A T st k df :
  NoDup (fetched_files ADME A ++ fetched_files Tox T).*1 →
  (k, df) ∈ fetched_files ADME A ++ fetched_files Tox T →
  brick (main_with A T st).2 !! k = Some (parquet_of df).
Proof.
  intros Hnd Hin.
  destruct (main_with_cases provider write_error A T st)
    as [(e & _ & ->)|[_ ->]].
  - cbn [snd brick add_lines]. rewrite after_loops_brick.
    by apply write_all_lookup_in.
  - destruct (report_frame (add_lines (banner_lines "Output files:" true)
                              (after_combine A T st))) as (-> & _ & _).
    cbn [brick add_lines]. rewrite after_combine_brick.
    apply write_all_lookup_in; [by apply all_files_NoDup|].
    apply elem_of_app. by left.
Qed.

Lemma fetched_files_sublist c names :
  (fetched_files c names).*1 `sublist_of` map (output_name c) names.
Proof.
  induction names as [|name names IH]; [done|].
  unfold fetched_files. cbn [omap list_omap map].
  destruct (outcome c name); cbn [fmap list_fmap fst].
  - by apply sublist_skip.
  - by apply sublist_cons.
Qed.

Lemma elem_of_fetched_files c names name df :
  name ∈ names → outcome c name = Ok df →
  (output_name c name, df) ∈ fetched_files c names.
Proof.
  intros Hin Ho. apply list_elem_of_omap. exists name. by rewrite Ho.
Qed.

Lemma dataset_files_NoDup : NoDup dataset_files.
Proof. apply (bool_decide_unpack _). by vm_compute. Qed.

(** The two loops of [main] never write the same file twice. *)
Lemma main_files_NoDup :
  NoDup (fetched_files ADME adme_datasets ++ fetched_files Tox tox_datasets).*1.
Proof.
  apply (sublist_NoDup _ dataset_files); [apply dataset_files_NoDup|].
  rewrite fmap_app. apply sublist_app; apply fetched_files_sublist.
Qed.

End Runs.

(** ** The properties of the three phases *)

Section Phases.

Variable provider : category → string → result DataFrame.
Variable write_error : string → DataFrame → option exn.

Local Abbreviation process := (process provider write_error).
Local Abbreviation main_with := (main_with provider write_error).
Local Abbreviation main := (main provider write_error).
Local Abbreviation combine := (combine write_error).
Local Abbreviation to_parquet := (to_parquet write_error).
Local Abbreviation after_combine := (after_combine provider write_error).
Local Abbreviation fetched := (fetched provider write_error).

(** C2.  When the provider call for [X] raises [e], or the write of the
    annotated frame does, the iteration ends normally, prints the
    processing line and then the line ["  - Error: "] followed by the
    description of [e], leaves [brick/] and the accumulator as they were,
    and the run goes on: the provider is asked for every name of the first
    list and then for every name of the second, in list order. *)
Theorem failed_item_is_recovered (c : category) (X : string) (e : exn) (st : state) :
  (provider c X = Raise e
   ∨ ∃ df, provider c X = Ok df
           ∧ (to_parquet (output_name c X) (annotate c X df) st).1 = Raise e) →
  process c X st
  = (Ok tt,
     State (brick st)
           (stdout st ++ [processing_line c X; "  - Error: " +:+ str_exn e])
           (requests st ++ [(c, X)])
           (all_datasets st))
  ∧ ∀ adme_names tox_names st0,
      requests (main_with adme_names tox_names st0).2
      = requests st0 ++ map (pair ADME) adme_names ++ map (pair Tox) tox_names.
Proof.
  intros Hfail. split; [|apply main_with_requests].
  rewrite process_run. f_equal. unfold process_state.
  assert (outcome provider write_error c X = Raise e) as ->; [|done].
  unfold outcome. destruct Hfail as [->|(df & -> & Hw)]; [done|].
  cbn zeta. revert Hw. unfold to_parquet.
  case_bool_decide; [|by intros [= <-]].
  destruct (write_error _ _); [by intros [= <-] | done].
Qed.

(** C3.  On an accumulator of frames with pairwise distinct labels (the
    only frames a write lets through), the combiner counts the frames
    that have at least one of [drug_id], [drug], [y], [dataset],
    [category].  When there is none, which includes the empty accumulator,
    it returns with the state untouched: no combined file is written.
    Otherwise the file it writes has as many rows as those frames have
    together; if that write raises, the exception is the combiner's. *)
Theorem combined_file_row_count (st : state) :
  Forall (λ df, NoDup (columns df)) (all_datasets st) →
  let contributing :=
    filter (λ df, has_projected_column df = true) (all_datasets st) in
  match contributing with
  | [] => combine st = (Ok tt, st)
  | _ =>
      match write_error combined_file (combined_table (all_datasets st)) with
      | Some e => combine st = (Raise e, st)
      | None =>
          ∃ cols data,
            (combine st).1 = Ok tt
            ∧ brick (combine st).2 !! combined_file = Some (Parquet cols data)
            ∧ length data = sum_list_with Pd.len contributing
      end
  end.
Proof.
  intros _ contributing. rewrite combine_run.
  pose proof (summary_data_filter (all_datasets st)) as Hs.
  pose proof (combined_table_len (all_datasets st)) as Hlen.
  fold contributing in Hs, Hlen.
  destruct contributing as [|df l]; [by rewrite Hs|].
  rewrite Hs. cbn [map]. cbn zeta.
  destruct (write_error combined_file _) as [e|]; [done|].
  eexists _, _. split; [done|]. cbn [snd brick].
  split; [apply lookup_insert_eq|].
  by rewrite length_map.
Qed.


(** C1, amended.  For a name of either list: when the provider returns a
    frame that has no column labelled [dataset] or [category] yet, and the
    write of the annotated frame does not raise, the file of that name is
    in [brick/] when the run is over, reads back as a table, and holds the
    rows of the provider in their order, under the normalized labels,
    each with two more cells at its end: the name under [dataset] and the
    category tag under [category]. *)
Theorem dataset_file_holds_provider_rows
    (c : category) (name : string) (df : DataFrame) (st : state) :
  name ∈ dataset_names c →
  provider c name = Ok df →
  LStr "dataset" ∉ columns df →
  LStr "category" ∉ columns df →
  (to_parquet (output_name c name) (annotate c name df) st).1 = Ok tt →
  let final := (main st).2 in
  let cols := map normalize_label (columns df) ++ [LStr "dataset"; LStr "category"] in
  let data := map (λ r, cells r ++ [VStr name; VStr (category_tag c)]) (rows df) in
  brick final !! output_name c name = Some (Parquet cols data)
  ∧ (read_parquet (output_name c name) final).1
    = Ok (Frame cols (Pd.range_index data))
  ∧ length data = Pd.len df.
Proof.
  intros Hname Hprov Hd Hc Hw final cols data.
  assert (outcome provider write_error c name = Ok (annotate c name df)) as Ho.
  { unfold outcome. rewrite Hprov. cbn zeta. revert Hw. unfold to_parquet.
    case_bool_decide; [|done]. by destruct (write_error _ _). }
  assert (brick final !! output_name c name = Some (Parquet cols data)) as Hfile.
  { unfold final, main.
    rewrite (main_with_lookup provider write_error _ _ st
               (output_name c name) (annotate c name df)).
    - rewrite annotate_fresh by done. unfold parquet_of; simpl.
      by rewrite List.map_map.
    - apply main_files_NoDup.
    - apply elem_of_app.
      destruct c; [left|right]; by apply elem_of_fetched_files. }
  split_and!; [done| |by unfold data; rewrite length_map].
  unfold read_parquet. by rewrite Hfile.
Qed.

(** C4, amended.  On an accumulator of frames with pairwise distinct labels,
    every column of the combined table is one of [drug_id], [drug], [y],
    [dataset], [category] and is a column of an accumulated frame.  Under
    [drug_id] every cell is text or NaN; NaN stands in the rows of the
    frames that have no [drug_id] column, so the column is all text when
    every accumulated frame has one. *)
Theorem combined_columns_and_identifier (all : list DataFrame) :
  Forall (λ df, NoDup (columns df)) all →
  let combined := combined_table all in
  (∀ c, c ∈ columns combined → c ∈ cols_to_keep ∧ ∃ df, df ∈ all ∧ c ∈ columns df)
  ∧ (∀ r j, r ∈ rows combined →
            columns combined !! j = Some (LStr "drug_id") →
            ∃ v, cells r !! j = Some v ∧ (is_text v = true ∨ v = VNaN))
  ∧ (Forall (λ df, LStr "drug_id" ∈ columns df) all →
     ∀ r j, r ∈ rows combined →
            columns combined !! j = Some (LStr "drug_id") →
            ∃ v, cells r !! j = Some v ∧ is_text v = true).
Proof.
  intros Hnd combined. split_and!.
  - intros c Hc. apply combined_columns_kept in Hc as (? & df & ? & _ & ?); eauto.
  - intros r j Hr Hj.
    destruct (combined_row_origin all r Hnd Hr) as (df & r0 & _ & _ & _ & ->).
    fold combined. rewrite (combined_cells_lookup _ _ _ _ _ Hj).
    eexists. split; [done|].
    destruct (field df r0 (LStr "drug_id")); [left|right]; done.
  - intros Hid r j Hr Hj.
    destruct (combined_row_origin all r Hnd Hr) as (df & r0 & Hdf & _ & _ & ->).
    fold combined. rewrite (combined_cells_lookup _ _ _ _ _ Hj).
    eexists. split; [done|].
    rewrite Forall_forall in Hid, Hnd.
    by destruct (field_Some df r0 (LStr "drug_id") (Hnd _ Hdf) (Hid _ Hdf))
      as (? & _ & _ & ->).
Qed.

(** C5, amended.  Two names for the first loop and none for the second, in
    an empty directory that takes every write: the provider returns three
    rows under [Drug_ID], [Drug], [Y] for one name and raises for the
    other.  The run ends normally.  The directory then holds two files: the
    file of the first name, with the three rows and the two added columns,
    and the combined file, with the three rows under [drug_id], [drug], [y],
    [dataset], [category] and the identifiers as text.  The failure is
    reported on the console, the reporter lists the two files, and the last
    line counts 6 records across 2 files: the three rows are in both. *)
Theorem two_name_scenario
    (good bad : string) (e : exn) (i1 i2 i3 : Z)
    (a1 b1 c1 a2 b2 c2 a3 b3 c3 : value) (st : state) :
  provider ADME good
  = Ok (Frame [LStr "Drug_ID"; LStr "Drug"; LStr "Y"]
              [Row i1 [a1; b1; c1]; Row i2 [a2; b2; c2]; Row i3 [a3; b3; c3]]) →
  provider ADME bad = Raise e →
  (∀ fname df, write_error fname df = None) →
  brick st = ∅ →
  let final := (main_with [good; bad] [] st).2 in
  let cols :=
    [LStr "drug_id"; LStr "drug"; LStr "y"; LStr "dataset"; LStr "category"] in
  (main_with [good; bad] [] st).1 = Ok tt
  ∧ brick final
    = <[combined_file :=
          Parquet cols
            [ [VStr (str_value a1); b1; c1; VStr good; VStr "ADME"];
              [VStr (str_value a2); b2; c2; VStr good; VStr "ADME"];
              [VStr (str_value a3); b3; c3; VStr good; VStr "ADME"] ]]>
      (<[output_name ADME good :=
           Parquet cols
             [ [a1; b1; c1; VStr good; VStr "ADME"];
               [a2; b2; c2; VStr good; VStr "ADME"];
               [a3; b3; c3; VStr good; VStr "ADME"] ]]> ∅)
  ∧ error_line e ∈ stdout final
  ∧ ∃ lines,
      stdout final
      = lines ++ [ "  - " +:+ output_name ADME good +:+ ": 3 rows";
                   "  - tdc_admet_combined.parquet: 3 rows";
                   total_line 6 2 ].
Proof.
  intros Hgood Hbad Hw Hst final cols.
  set (df := Frame [LStr "Drug_ID"; LStr "Drug"; LStr "Y"]
               [Row i1 [a1; b1; c1]; Row i2 [a2; b2; c2]; Row i3 [a3; b3; c3]])
    in Hgood.
  set (ann := annotate ADME good df).
  assert (outcome provider write_error ADME good = Ok ann) as Ho1.
  { unfold outcome. rewrite Hgood. cbn zeta. fold ann.
    rewrite bool_decide_eq_true_2, Hw; [done|].
    apply (bool_decide_unpack _). by vm_compute. }
  assert (outcome provider write_error ADME bad = Raise e) as Ho2.
  { unfold outcome. by rewrite Hbad. }
  assert (fetched_files provider write_error ADME [good; bad]
          = [(output_name ADME good, ann)]) as Hfiles.
  { unfold fetched_files. cbn [omap list_omap]. by rewrite Ho1, Ho2. }
  assert (fetched ADME [good; bad] = [ann]) as Hall.
  { unfold fetched. by rewrite Hfiles. }
  destruct (fresh_run provider write_error [good; bad] [] st) as (Hmain & Hglob & Hbrick).
  { intros f [x Hx]. by rewrite Hst, lookup_empty in Hx. }
  { rewrite Hfiles. apply NoDup_singleton. }
  { apply Hw. }
  assert (fetched_files provider write_error Tox [] = []) as Hnone by done.
  assert (fetched Tox [] = []) as Hnone' by done.
  rewrite ?Hfiles, ?Hall, ?Hnone, ?Hnone' in Hmain.
  rewrite ?Hfiles, ?Hall, ?Hnone, ?Hnone' in Hglob.
  rewrite ?Hfiles, ?Hall, ?Hnone, ?Hnone' in Hbrick.
  cbn [app combined_entry fmap list_fmap fst length] in Hmain, Hglob, Hbrick.
  set (before := add_lines (banner_lines "Output files:" true)
                   (after_combine [good; bad] [] st)) in *.
  assert (glob_parquet before = [output_name ADME good; combined_file]) as Hsorted.
  { apply (StronglySorted_unique String.le).
    - apply glob_parquet_sorted.
    - repeat constructor.
    - exact Hglob. }
  assert (brick before
          = <[combined_file := parquet_of (combined_table [ann])]>
              (<[output_name ADME good := parquet_of ann]> ∅)) as Hb.
  { rewrite Hbrick, Hst. done. }
  assert (parquet_of ann
          = Parquet cols
              [ [a1; b1; c1; VStr good; VStr "ADME"];
                [a2; b2; c2; VStr good; VStr "ADME"];
                [a3; b3; c3; VStr good; VStr "ADME"] ]) as Hann.
  { by vm_compute. }
  assert (parquet_of (combined_table [ann])
          = Parquet cols
              [ [VStr (str_value a1); b1; c1; VStr good; VStr "ADME"];
                [VStr (str_value a2); b2; c2; VStr good; VStr "ADME"];
                [VStr (str_value a3); b3; c3; VStr good; VStr "ADME"] ]) as Hcomb.
  { by vm_compute. }
  rewrite Hann, Hcomb in Hb.
  unfold final. rewrite Hmain. cbn [fst snd].
  split_and!.
  - done.
  - exact Hb.
  - cbn [stdout add_lines]. apply elem_of_app. left.
    unfold before. cbn [stdout add_lines]. apply elem_of_app. left.
    apply after_combine_loop_line.
    unfold loop_lines. cbn [flat_map]. rewrite Ho1, Ho2.
    rewrite !elem_of_app, !elem_of_cons. auto 10.
  - exists (stdout before). cbn [stdout add_lines]. f_equal.
    rewrite Hsorted. cbn [map app]. unfold report_line.
    rewrite Hb, lookup_insert_eq.
    rewrite lookup_insert_ne by apply not_eq_sym, output_name_not_combined.
    rewrite lookup_insert_eq. done.
Qed.

End Phases.

(** ** The properties at work *)

(** C2 on a provider failure: the second name of the scenario. *)
Lemma failed_item_is_recovered_witness :
  Mock.good_and_bad ADME "Bad_Set" = Raise Mock.fetch_failure
  ∧ process Mock.good_and_bad Mock.no_write_error ADME "Bad_Set" Mock.empty
    = (Ok tt,
       State ∅
             [processing_line ADME "Bad_Set"; "  - Error: fetch failed"]
             [(ADME, "Bad_Set")] []).
Proof.
  split; [reflexivity|].
  exact (proj1 (failed_item_is_recovered Mock.good_and_bad Mock.no_write_error
                  ADME "Bad_Set" Mock.fetch_failure Mock.empty
                  (or_introl eq_refl))).
Defined.

(** C3 on an accumulator where one frame of two contributes. *)
Lemma combined_file_row_count_witness :
  Forall (λ df, NoDup (columns df)) (all_datasets Mock.mixed_accumulator)
  ∧ ∃ cols data,
      (combine Mock.no_write_error Mock.mixed_accumulator).1 = Ok tt
      ∧ brick (combine Mock.no_write_error Mock.mixed_accumulator).2 !! combined_file
        = Some (Parquet cols data)
      ∧ length data = 3.
Proof.
  assert (Forall (λ df, NoDup (columns df)) (all_datasets Mock.mixed_accumulator))
    as Hnd.
  { apply (bool_decide_unpack _). vm_compute. exact I. }
  split; [exact Hnd|].
  exact (combined_file_row_count Mock.no_write_error Mock.mixed_accumulator Hnd).
Defined.

(** C1 on the provider that serves [Caco2_Wang]. *)
Lemma dataset_file_holds_provider_rows_witness :
  brick (main Mock.only_caco2 Mock.no_write_error Mock.empty).2
    !! "adme_caco2_wang.parquet"
  = Some (Parquet
            [LStr "drug_id"; LStr "drug"; LStr "y"; LStr "dataset"; LStr "category"]
            [ [VInt 101; VStr "CCO"; VFloat "0.5"; VStr "Caco2_Wang"; VStr "ADME"];
              [VInt 102; VStr "CCN"; VFloat "1.25"; VStr "Caco2_Wang"; VStr "ADME"];
              [VInt 103; VStr "CCC"; VFloat "-0.75"; VStr "Caco2_Wang"; VStr "ADME"] ]).
Proof.
  refine (proj1 (dataset_file_holds_provider_rows
                   Mock.only_caco2 Mock.no_write_error
                   ADME "Caco2_Wang" Mock.table3 Mock.empty _ _ _ _ _)).
  - apply list_elem_of_here.
  - reflexivity.
  - apply (bool_decide_unpack _). vm_compute. exact I.
  - apply (bool_decide_unpack _). vm_compute. exact I.
  - vm_compute. reflexivity.
Defined.

(** C4 on an accumulator where every frame has an identifier. *)
Lemma combined_columns_and_identifier_witness :
  Forall (λ df, NoDup (columns df)) [annotate ADME "Caco2_Wang" Mock.table3]
  ∧ identifier_all_text (combined_table [annotate ADME "Caco2_Wang" Mock.table3]).
Proof.
  assert (Forall (λ df, NoDup (columns df)) [annotate ADME "Caco2_Wang" Mock.table3])
    as Hnd.
  { apply (bool_decide_unpack _). vm_compute. exact I. }
  split; [exact Hnd|].
  destruct (combined_columns_and_identifier
              [annotate ADME "Caco2_Wang" Mock.table3] Hnd) as (_ & _ & Htext).
  unfold identifier_all_text. apply Htext.
  apply (bool_decide_unpack _). vm_compute. exact I.
Defined.

(** C5 on the two names of the scenario. *)
Lemma two_name_scenario_witness :
  (main_with Mock.good_and_bad Mock.no_write_error ["Good_Set"; "Bad_Set"] []
     Mock.empty).1 = Ok tt
  ∧ ∃ lines,
      stdout (main_with Mock.good_and_bad Mock.no_write_error
                ["Good_Set"; "Bad_Set"] [] Mock.empty).2
      = lines ++ [ "  - adme_good_set.parquet: 3 rows";
                   "  - tdc_admet_combined.parquet: 3 rows";
                   total_line 6 2 ].
Proof.
  destruct (two_name_scenario Mock.good_and_bad Mock.no_write_error
              "Good_Set" "Bad_Set" Mock.fetch_failure 0 1 2
              (VInt 101) (VStr "CCO") (VFloat "0.5")
              (VInt 102) (VStr "CCN") (VFloat "1.25")
              (VInt 103) (VStr "CCC") (VFloat "-0.75")
              Mock.empty eq_refl eq_refl (λ _ _, eq_refl) eq_refl)
    as (Hok & _ & _ & Hlines).
  split; [exact Hok | exact Hlines].
Defined.

(** ** Where the spec says more than the script does *)

(** C1 as worded fails when the provider's table has a [dataset] column
    already: line 68 overwrites it, and the file has one column more than
    the table, not two. *)
Lemma provider_dataset_column_is_overwritten :
  ¬ file_has_two_more_columns Mock.with_dataset_column Mock.no_write_error
      ADME "Caco2_Wang" Mock.empty.
Proof.
  intros H. destruct (H Mock.table_with_dataset eq_refl) as (cols & data & Hf & Hl & _).
  vm_compute in Hf. injection Hf as <- <-. vm_compute in Hl. discriminate.
Qed.

(** C4 as worded fails when one accumulated frame has no identifier and
    another has one: the rows of the first hold NaN under [drug_id]. *)
Lemma identifier_column_holds_nan :
  ¬ identifier_all_text
      (combined_table
         (all_datasets
            (main Mock.one_without_identifier Mock.no_write_error Mock.empty).2)).
Proof.
  intros H.
  destruct (H (Row 0 [VStr "CCO"; VFloat "0.5"; VStr "Caco2_Wang"; VStr "ADME"; VNaN]) 4)
    as (v & Hv & Htext).
  - vm_compute. apply list_elem_of_here.
  - vm_compute. reflexivity.
  - vm_compute in Hv. injection Hv as <-. discriminate.
Qed.

(** C5 as worded fails on its own scenario: the last line counts the three
    rows twice. *)
Lemma scenario_total_is_six :
  last (stdout (main_with Mock.good_and_bad Mock.no_write_error
                  ["Good_Set"; "Bad_Set"] [] Mock.empty).2)
  ≠ Some (total_line 3 2).
Proof. vm_compute. discriminate. Qed.

(** * Further properties of the script *)

(** ** Names *)

Section Names.

Lemma chars_map f s :
  list_ascii_of_string (PyStr.map f s) = map f (list_ascii_of_string s).
Proof. induction s as [|c s IH]; simpl; [done | by rewrite IH]. Qed.

Lemma norm_char_shape c :
  norm_char c ≠ " "%char ∧ norm_char c ≠ "-"%char
  ∧ PyStr.lower_char (norm_char c) = norm_char c.
Proof. destruct c as [[] [] [] [] [] [] [] []]; vm_compute; split_and!; congruence. Qed.

(** X1.  A normalized column name has no space and no hyphen, no character
    that [lower] would change, and no white space at either end. *)
Theorem normalize_shape (c : label) :
  Forall (λ ch, ch ≠ " "%char ∧ ch ≠ "-"%char ∧ PyStr.lower_char ch = ch)
         (list_ascii_of_string (normalize c))
  ∧ PyStr.strip (normalize c) = normalize c.
Proof.
  rewrite normalize_unfold. split; [|apply strip_map_strip].
  rewrite chars_map. apply Forall_forall. intros ch Hch.
  rewrite map_fmap in Hch. apply list_elem_of_fmap in Hch as (a & -> & _).
  apply norm_char_shape.
Qed.

Lemma append_cancel_r (s1 s2 t : string) : s1 +:+ t = s2 +:+ t → s1 = s2.
Proof.
  intros Heq.
  assert (String.length s1 = String.length s2) as Hlen.
  { apply (f_equal String.length) in Heq. rewrite !length_append in Heq. lia. }
  revert s2 Heq Hlen. induction s1 as [|c s1 IH]; intros [|c2 s2] Heq Hlen;
    simplify_eq/=; [done|].
  f_equal. by apply IH.
Qed.

Lemma output_name_eq c1 n1 c2 n2 :
  output_name c1 n1 = output_name c2 n2 ↔ c1 = c2 ∧ PyStr.lower n1 = PyStr.lower n2.
Proof.
  split; [|intros [-> Hl]; unfold output_name; by rewrite Hl].
  unfold output_name. intros Heq. destruct c1, c2; try done.
  - split; [done|]. cbn in Heq. simplify_eq/=. by eapply append_cancel_r.
  - split; [done|]. cbn in Heq. simplify_eq/=. by eapply append_cancel_r.
Qed.

(** X2.  Two iterations write to the same file exactly when they are in the
    same loop and their names have the same lower-case form; the file name
    ends in [.parquet] and is never the name of the combined file. *)
Theorem output_name_collisions (c1 c2 : category) (n1 n2 : string) :
  (output_name c1 n1 = output_name c2 n2
   ↔ c1 = c2 ∧ PyStr.lower n1 = PyStr.lower n2)
  ∧ PyStr.endswith (output_name c1 n1) ".parquet" = true
  ∧ output_name c1 n1 ≠ combined_file.
Proof.
  split_and!; [apply output_name_eq | apply output_name_parquet
              | apply output_name_not_combined].
Qed.

End Names.

(** ** The annotation of a fetched frame *)

Section Annotation.

Variable provider : category → string → result DataFrame.
Variable write_error : string → DataFrame → option exn.

(** One row under [df[key] = v]: a cell per column again, [v] under [key],
    every other cell as it was. *)
Lemma set_cells_spec (key : label) (v : value) (cols : list label) (cs : list value) :
  length cs = length cols →
  let cols' := if bool_decide (key ∈ cols) then cols else cols ++ [key] in
  let cs' :=
    if bool_decide (key ∈ cols)
    then zip_with (λ c x, if decide (c = key) then v else x) cols cs
    else cs ++ [v] in
  length cs' = length cols'
  ∧ ∀ j c, cols' !! j = Some c →
           if decide (c = key) then cs' !! j = Some v
           else cs' !! j = cs !! j ∧ cols !! j = Some c.
Proof.
  intros Hlen. cbn zeta. case_bool_decide as Hin.
  - split; [rewrite length_zip_with; lia|].
    intros j c Hj. rewrite lookup_zip_with, Hj. simpl.
    destruct (lookup_lt_is_Some_2 cs j) as [x Hx].
    { rewrite Hlen. by eapply lookup_lt_Some. }
    rewrite Hx. simpl. by case_decide.
  - split; [rewrite !length_app; simpl; lia|].
    intros j c Hj.
    destruct (decide (j < length cols)) as [Hlt|Hge].
    + rewrite lookup_app_l in Hj by done.
      rewrite decide_False.
      * split; [|done]. apply lookup_app_l. lia.
      * intros ->. apply Hin. by eapply list_elem_of_lookup_2.
    + assert (j = length cols) as ->.
      { apply lookup_lt_Some in Hj. rewrite length_app in Hj. simpl in Hj. lia. }
      rewrite list_lookup_middle in Hj by done. injection Hj as <-.
      rewrite decide_True by done. by apply list_lookup_middle.
Qed.

Lemma setitem_spec key v df :
  rectangular df →
  rectangular (Pd.setitem key v df)
  ∧ map ix (rows (Pd.setitem key v df)) = map ix (rows df)
  ∧ ∀ r', r' ∈ rows (Pd.setitem key v df) →
      ∃ r, r ∈ rows df
           ∧ ∀ j c, columns (Pd.setitem key v df) !! j = Some c →
                    if decide (c = key) then cells r' !! j = Some v
                    else cells r' !! j = cells r !! j ∧ columns df !! j = Some c.
Proof.
  intros Hrect. unfold rectangular in *. rewrite Forall_forall in Hrect.
  assert (∀ r, r ∈ rows df →
            length (cells r) = length (columns df)) as Hlen by auto.
  unfold Pd.setitem, Pd.has_column.
  split_and!.
  - apply Forall_forall. intros r' Hr'.
    destruct (bool_decide (key ∈ columns df)) eqn:Hb; cbn [rows columns] in *;
      rewrite map_fmap in Hr'; apply list_elem_of_fmap in Hr' as (r & -> & Hr);
      pose proof (proj1 (set_cells_spec key v _ _ (Hlen r Hr))) as H;
      rewrite Hb in H; exact H.
  - destruct (bool_decide (key ∈ columns df)); cbn [rows];
      rewrite List.map_map; by apply map_ext.
  - intros r' Hr'.
    destruct (bool_decide (key ∈ columns df)) eqn:Hb; cbn [rows columns] in *;
      rewrite map_fmap in Hr'; apply list_elem_of_fmap in Hr' as (r & -> & Hr);
      exists r; (split; [done|]);
      pose proof (proj2 (set_cells_spec key v _ _ (Hlen r Hr))) as H;
      rewrite Hb in H; exact H.
Qed.

(** Lines 68-72 on a rectangular frame: the frame stays rectangular, keeps
    its index, and every row has the name and the tag under the columns
    that lines 68 and 69 set. *)
Lemma annotate_spec c name df :
  rectangular df →
  let ann := annotate c name df in
  rectangular ann
  ∧ map ix (rows ann) = map ix (rows df)
  ∧ ∃ jd jc,
      columns ann !! jd = Some (LStr "dataset")
      ∧ columns ann !! jc = Some (LStr "category")
      ∧ ∀ r, r ∈ rows ann →
             cells r !! jd = Some (VStr name)
             ∧ cells r !! jc = Some (VStr (category_tag c)).
Proof.
  intros Hrect ann.
  set (df1 := Pd.setitem (LStr "dataset") (VStr name) df).
  set (df2 := Pd.setitem (LStr "category") (VStr (category_tag c)) df1).
  destruct (setitem_spec (LStr "dataset") (VStr name) df Hrect)
    as (Hrect1 & Hix1 & Hrows1). fold df1 in Hrect1, Hix1, Hrows1.
  destruct (setitem_spec (LStr "category") (VStr (category_tag c)) df1 Hrect1)
    as (Hrect2 & Hix2 & Hrows2). fold df2 in Hrect2, Hix2, Hrows2.
  assert (columns ann = map normalize_label (columns df2)) as Hcols by done.
  assert (rows ann = rows df2) as Hrows by done.
  split_and!.
  - unfold rectangular. rewrite Hcols, Hrows, length_map. exact Hrect2.
  - by rewrite Hrows, Hix2, Hix1.
  - destruct (proj1 (list_elem_of_lookup (columns df2) (LStr "dataset")))
      as [jd Hjd].
    { apply setitem_keeps, setitem_has. }
    destruct (proj1 (list_elem_of_lookup (columns df2) (LStr "category")))
      as [jc Hjc].
    { apply setitem_has. }
    exists jd, jc. rewrite Hcols, !map_fmap, !list_lookup_fmap, Hjd, Hjc, Hrows.
    split_and!; [done..|]. intros r Hr.
    destruct (Hrows2 r Hr) as (r1 & Hr1 & Hcells2).
    destruct (Hrows1 r1 Hr1) as (r0 & _ & Hcells1).
    pose proof (Hcells2 jd _ Hjd) as Hd. rewrite decide_False in Hd by done.
    destruct Hd as [Hd Hjd1].
    pose proof (Hcells1 jd _ Hjd1) as Hd1. rewrite decide_True in Hd1 by done.
    pose proof (Hcells2 jc _ Hjc) as Hc. rewrite decide_True in Hc by done.
    split; [by rewrite Hd | done].
Qed.

Lemma field_at df r c j :
  NoDup (columns df) → columns df !! j = Some c →
  field df r c = Some (Pd.cell (cells r) j).
Proof.
  intros Hnd Hj.
  destruct (field_Some df r c Hnd) as (j' & _ & Hj' & ->).
  { by eapply list_elem_of_lookup_2. }
  by rewrite (NoDup_lookup _ _ _ _ Hnd Hj Hj').
Qed.

End Annotation.

(** ** The directory after a run *)

Section FinalDirectory.

Variable provider : category → string → result DataFrame.
Variable write_error : string → DataFrame → option exn.

Local Abbreviation outcome := (outcome provider write_error).
Local Abbreviation fetched := (fetched provider write_error).
Local Abbreviation fetched_files := (fetched_files provider write_error).
Local Abbreviation after_loops := (after_loops provider write_error).
Local Abbreviation after_combine := (after_combine provider write_error).
Local Abbreviation main_with := (main_with provider write_error).
Local Abbreviation main := (main provider write_error).
Local Abbreviation main_writes := (main_writes provider write_error).
Local Abbreviation process := (process provider write_error).

(** How a run ends: with the exception of the combined write, or as the
    reporter ends on the state the combiner leaves. *)
Lemma main_with_run A T st :
  let all := fetched ADME A ++ fetched Tox T in
  match all, write_error combined_file (combined_table all) with
  | _ :: _, Some e =>
      main_with A T st
      = (Raise e,
         add_lines (banner_lines "Creating combined dataset..." true)
           (after_loops A T st))
  | _, _ =>
      main_with A T st
      = report (add_lines (banner_lines "Output files:" true)
                  (after_combine A T st))
  end.
Proof.
  intros all.
  pose proof (both_projected _ (fetched_have_both provider write_error A T)) as Hproj.
  fold all in Hproj.
  destruct (main_with_cases provider write_error A T st) as [(e & Hc & Hm)|[Hc Hm]];
    revert Hc; rewrite combine_run; cbn [all_datasets add_lines];
    rewrite after_loops_all_datasets; fold all;
    rewrite (summary_data_all all Hproj).
  - destruct all as [|df l]; [done|]. cbn [map]. cbn zeta.
    destruct (write_error combined_file _) as [e'|]; [|done].
    intros [= ->]. exact Hm.
  - destruct all as [|df l]; [done|]. cbn [map]. cbn zeta.
    by destruct (write_error combined_file _) as [e'|].
Qed.

(** The directory when the run is over, however it ends. *)
Lemma main_with_brick A T st :
  brick (main_with A T st).2 = write_all (brick st) (main_writes A T).
Proof.
  pose proof (main_with_run A T st) as Hrun. cbn zeta in Hrun.
  unfold main_writes.
  destruct (fetched ADME A ++ fetched Tox T) as [|df l] eqn:Hall.
  - rewrite Hrun.
    destruct (report_frame (add_lines (banner_lines "Output files:" true)
                              (after_combine A T st))) as (-> & _ & _).
    cbn [brick add_lines]. rewrite after_combine_brick, Hall.
    cbn [combined_entry]. rewrite app_nil_r.
    by destruct (write_error combined_file _).
  - destruct (write_error combined_file _) as [e|].
    + rewrite Hrun. cbn [snd brick add_lines]. apply after_loops_brick.
    + rewrite Hrun.
      destruct (report_frame (add_lines (banner_lines "Output files:" true)
                                (after_combine A T st))) as (-> & _ & _).
      cbn [brick add_lines]. by rewrite after_combine_brick, Hall.
Qed.

Lemma main_writes_keys A T k :
  k ∈ (main_writes A T).*1 →
  k = combined_file
  ∨ (∃ name, name ∈ A ∧ k = output_name ADME name
             ∧ ∃ df, outcome ADME name = Ok df)
  ∨ (∃ name, name ∈ T ∧ k = output_name Tox name
             ∧ ∃ df, outcome Tox name = Ok df).
Proof.
  assert (∀ c names, k ∈ (fetched_files c names).*1 →
            ∃ name, name ∈ names ∧ k = output_name c name
                    ∧ ∃ df, outcome c name = Ok df) as Hkeys.
  { intros c names ([k' df] & -> & Hin)%list_elem_of_fmap.
    apply list_elem_of_omap in Hin as (name & Hin & Hd).
    exists name. destruct (outcome c name) as [d|] eqn:Ho; [|done].
    simplify_eq/=. eauto. }
  assert (k ∈ (fetched_files ADME A ++ fetched_files Tox T).*1 →
          (∃ name, name ∈ A ∧ k = output_name ADME name
                   ∧ ∃ df, outcome ADME name = Ok df)
          ∨ (∃ name, name ∈ T ∧ k = output_name Tox name
                     ∧ ∃ df, outcome Tox name = Ok df)) as Hfiles.
  { rewrite fmap_app, elem_of_app. intros [?|?]; [left|right]; by apply Hkeys. }
  unfold main_writes. cbn zeta.
  destruct (write_error combined_file _); [by right; apply Hfiles|].
  rewrite fmap_app, elem_of_app. intros [?|Hce]; [by right; apply Hfiles|].
  left. destruct (fetched ADME A ++ fetched Tox T); simpl in Hce.
  - by apply elem_of_nil in Hce.
  - by apply list_elem_of_singleton in Hce.
Qed.

(** X4.  A run deletes nothing and touches no file but its own: a file that
    is neither the combined file nor the file of a name of the two lists is
    after the run what it was before, and every file that was in the
    directory before the run is in it after the run, however the run ends. *)
Theorem run_leaves_other_files
    (adme_names tox_names : list string) (st : state) (k : string) :
  let final := (main_with adme_names tox_names st).2 in
  (k ≠ combined_file →
   (∀ name, name ∈ adme_names → k ≠ output_name ADME name) →
   (∀ name, name ∈ tox_names → k ≠ output_name Tox name) →
   brick final !! k = brick st !! k)
  ∧ (is_Some (brick st !! k) → is_Some (brick final !! k)).
Proof.
  intros final. unfold final. rewrite main_with_brick. split.
  - intros Hc Ha Ht. apply write_all_lookup_notin.
    intros [->|[(n & Hn & -> & _)|(n & Hn & -> & _)]]%main_writes_keys.
    + done.
    + by apply (Ha n).
    + by apply (Ht n).
  - intros Hk. apply write_all_is_Some. by left.
Qed.

Lemma NoDup_map_eq {A B} (f : A → B) (l : list A) (x y : A) :
  NoDup (map f l) → x ∈ l → y ∈ l → f x = f y → x = y.
Proof.
  induction l as [|a l IH]; intros Hnd Hx Hy Heq; [by apply elem_of_nil in Hx|].
  cbn [map] in Hnd. apply NoDup_cons in Hnd as [Ha Hnd].
  apply elem_of_cons in Hx as [->|Hx]; apply elem_of_cons in Hy as [->|Hy].
  - done.
  - exfalso. apply Ha. rewrite Heq. by apply elem_of_map.
  - exfalso. apply Ha. rewrite <- Heq. by apply elem_of_map.
  - by apply IH.
Qed.

(** No two names of a list of [main] have the same lower-case form. *)
Lemma dataset_names_lower_NoDup c : NoDup (map PyStr.lower (dataset_names c)).
Proof. destruct c; apply (bool_decide_unpack _); by vm_compute. Qed.

Lemma elem_of_dataset_names c name :
  name ∈ dataset_names c
  ↔ match c with ADME => name ∈ adme_datasets | Tox => name ∈ tox_datasets end.
Proof. by destruct c. Qed.

(** The file of a name of [main] whose iteration fails is not written by any
    other iteration. *)
Lemma failed_name_not_written c name e :
  name ∈ dataset_names c →
  outcome c name = Raise e →
  output_name c name ∉ (main_writes adme_datasets tox_datasets).*1.
Proof.
  intros Hin Ho Hk.
  assert (∀ c' n df, n ∈ dataset_names c' →
                     output_name c name = output_name c' n →
                     outcome c' n = Ok df → False) as Hno.
  { intros c' n df Hn [-> Hl]%output_name_eq Hok.
    assert (name = n) as ->.
    { by apply (NoDup_map_eq PyStr.lower (dataset_names c'));
        [apply dataset_names_lower_NoDup|..]. }
    congruence. }
  apply main_writes_keys in Hk as [Hk|[(n & Hn & Heq & df & Hok)|(n & Hn & Heq & df & Hok)]].
  - by apply output_name_not_combined in Hk.
  - by apply (Hno ADME n df).
  - by apply (Hno Tox n df).
Qed.

Lemma failure_outcome c name e st :
  (provider c name = Raise e
   ∨ ∃ df, provider c name = Ok df
           ∧ (to_parquet write_error (output_name c name) (annotate c name df) st).1
             = Raise e) →
  outcome c name = Raise e.
Proof.
  unfold outcome. intros [->|(df & -> & Hw)]; [done|].
  cbn zeta. revert Hw. unfold to_parquet.
  case_bool_decide; [|by intros [= <-]].
  destruct (write_error _ _); [by intros [= <-] | done].
Qed.

(** X5.  When the iteration of a name of [main] fails, in the provider call
    or in the write, the file of that name is after the run what it was
    before: none if there was none, and the file of an earlier run if there
    was one.  Nothing marks or removes it. *)
Theorem failed_name_keeps_its_old_file
    (c : category) (name : string) (e : exn) (st : state) :
  name ∈ dataset_names c →
  (provider c name = Raise e
   ∨ ∃ df, provider c name = Ok df
           ∧ (to_parquet write_error (output_name c name) (annotate c name df) st).1
             = Raise e) →
  brick (main st).2 !! output_name c name = brick st !! output_name c name.
Proof.
  intros Hin Hfail%failure_outcome. unfold main.
  rewrite main_with_brick. apply write_all_lookup_notin.
  by eapply failed_name_not_written.
Qed.

Lemma fetched_files_none c names :
  (∀ name, name ∈ names → ∃ e, provider c name = Raise e) →
  fetched_files c names = [].
Proof.
  induction names as [|name names IH]; intros Hall; [done|].
  unfold fetched_files. cbn [omap list_omap].
  destruct (Hall name) as [e He]; [apply list_elem_of_here|].
  unfold outcome. rewrite He. apply IH.
  intros n Hn. apply Hall. by apply list_elem_of_further.
Qed.

(** The reporter ends the same way on two states with the same directory. *)
Lemma report_files_result files total st1 st2 :
  brick st1 = brick st2 →
  (report_files files total st1).1 = (report_files files total st2).1.
Proof.
  revert total st1 st2. induction files as [|f files IH]; intros total st1 st2 Hb;
    [done|].
  simpl. unfold mbind, M_bind, read_parquet. rewrite Hb.
  destruct (brick st2 !! f) as [[cols data|bytes]|]; [|done..].
  simpl. by apply IH.
Qed.

Lemma report_result st1 st2 :
  brick st1 = brick st2 → (report st1).1 = (report st2).1.
Proof.
  intros Hb. unfold report, mbind, M_bind, glob_parquet. rewrite Hb.
  pose proof (report_files_result
                (merge_sort String.le
                   (filter (λ f, PyStr.endswith f ".parquet" = true)
                      (map fst (map_to_list (brick st2))))) 0 st1 st2 Hb) as H.
  destruct (report_files _ 0 st1) as [[t1|e1] s1],
           (report_files _ 0 st2) as [[t2|e2] s2]; simpl in H; by simplify_eq.
Qed.

(** X6.  When the provider raises for every name of the two lists, the run
    accumulates nothing, writes nothing (no combined file either), leaves
    the directory exactly as it found it, and ends as the reporter ends on
    that directory. *)
Theorem unreachable_provider_changes_nothing
    (adme_names tox_names : list string) (st : state) :
  (∀ name, name ∈ adme_names → ∃ e, provider ADME name = Raise e) →
  (∀ name, name ∈ tox_names → ∃ e, provider Tox name = Raise e) →
  let final := (main_with adme_names tox_names st).2 in
  all_datasets final = []
  ∧ brick final = brick st
  ∧ (main_with adme_names tox_names st).1 = (report st).1.
Proof.
  intros Ha Ht final.
  pose proof (fetched_files_none ADME _ Ha) as HA.
  pose proof (fetched_files_none Tox _ Ht) as HT.
  assert (fetched ADME adme_names ++ fetched Tox tox_names = []) as Hall.
  { unfold fetched. by rewrite HA, HT. }
  assert (brick final = brick st) as Hb.
  { unfold final. rewrite main_with_brick. unfold main_writes.
    rewrite HA, HT, Hall. cbn [app combined_entry].
    by destruct (write_error combined_file _). }
  split_and!; [|done|].
  - unfold final. by rewrite main_with_all_datasets.
  - pose proof (main_with_run adme_names tox_names st) as Hrun.
    cbn zeta in Hrun. rewrite Hall in Hrun. rewrite Hrun.
    apply report_result. cbn [brick add_lines].
    rewrite after_combine_brick, HA, HT, Hall. done.
Qed.




End FinalDirectory.

(** ** Edge cases of an iteration and of a fresh run *)

Section Iterations.

Variable provider : category → string → result DataFrame.
Variable write_error : string → DataFrame → option exn.

Local Abbreviation process := (process provider write_error).
Local Abbreviation main := (main provider write_error).
Local Abbreviation fetched := (fetched provider write_error).

Lemma annotate_columns_prefix c name df :
  ∃ extra, columns (annotate c name df)
           = map normalize_label (columns df) ++ map normalize_label extra.
Proof.
  unfold annotate, Pd.rename. cbn [columns]. rewrite !setitem_columns.
  destruct (Pd.has_column (LStr "dataset") df);
    destruct (Pd.has_column (LStr "category") _).
  - exists []. by rewrite app_nil_r.
  - exists [LStr "category"]. by rewrite map_app.
  - exists [LStr "dataset"]. by rewrite map_app.
  - exists [LStr "dataset"; LStr "category"]. by rewrite !map_app, <- app_assoc.
Qed.

(** X9.  When two columns of the provider's table normalize to the same
    name, the write refuses the frame (pyarrow takes no duplicate labels):
    the iteration ends normally with an error line, writes no file and
    accumulates nothing. *)
Theorem twin_labels_skip_the_dataset
    (c : category) (name : string) (df : DataFrame) (st : state) :
  provider c name = Ok df →
  ¬ NoDup (map normalize (columns df)) →
  ∃ e, process c name st
       = (Ok tt,
          State (brick st)
                (stdout st ++ [processing_line c name; error_line e])
                (requests st ++ [(c, name)])
                (all_datasets st)).
Proof.
  intros Hprov Hdup. rewrite process_run. unfold process_state, outcome.
  rewrite Hprov. cbn zeta.
  rewrite bool_decide_eq_false_2; [by eexists|].
  intros Hnd. apply Hdup.
  destruct (annotate_columns_prefix c name df) as [extra Hcols].
  rewrite Hcols in Hnd. apply NoDup_app in Hnd as (Hnd & _ & _).
  apply (NoDup_fmap_1 LStr). by rewrite <- !map_fmap, List.map_map.
Qed.

(** X10.  In a directory without parquet files, and when the write of the
    combined file does not raise, the run ends normally and its last line
    counts every accumulated row twice, across one file per accumulated
    frame plus the combined file; with nothing accumulated it counts 0
    records across 0 files. *)
Theorem fresh_run_last_line (st : state) :
  no_parquet (brick st) →
  (∀ df, write_error combined_file df = None) →
  let final := (main st).2 in
  let all := all_datasets final in
  (main st).1 = Ok tt
  ∧ last (stdout final)
    = Some (total_line (2 * sum_list_with Pd.len all)
                       (length all + match all with [] => 0 | _ => 1 end))
  ∧ length (glob_parquet final)
    = length all + match all with [] => 0 | _ => 1 end.
Proof.
  intros Hb Hw final all. subst all final. unfold main.
  rewrite (main_with_all_datasets provider write_error
             adme_datasets tox_datasets st).
  destruct (fresh_run provider write_error adme_datasets tox_datasets st Hb
              (main_files_NoDup provider write_error) (Hw _))
    as (Hmain & Hglob & Hbrick).
  set (all := fetched ADME adme_datasets ++ fetched Tox tox_datasets) in *.
  assert (length (combined_entry all) = match all with [] => 0 | _ => 1 end) as Hce
    by (by destruct all).
  rewrite Hce in Hmain. rewrite Hmain. cbn [fst snd stdout add_lines].
  split_and!.
  - done.
  - by rewrite app_assoc, last_snoc.
  - unfold glob_parquet at 1. cbn [brick add_lines].
    fold (glob_parquet (add_lines (banner_lines "Output files:" true)
                          (after_combine provider write_error
                             adme_datasets tox_datasets st))).
    rewrite Hglob, length_fmap, length_app, Hce. f_equal.
    unfold all. rewrite <- fetched_files_snd. by rewrite length_fmap.
Qed.

End Iterations.

(** ** The shape of the projection and of the combined table *)

Section Shapes.

(** X12.  On a frame with pairwise distinct labels whose identifiers are
    text already, lines 121-122 change nothing: the subset is the plain
    projection of the frame. *)
Theorem text_identifiers_are_kept (df : DataFrame) :
  NoDup (columns df) →
  (∀ r v, r ∈ rows df → field df r (LStr "drug_id") = Some v → is_text v = true) →
  subset_of df = Pd.getitem (available_cols df) df.
Proof.
  intros Hnd Htext. rewrite subset_of_rows by done.
  rewrite getitem_NoDup; [|done|].
  2:{ apply Forall_forall. intros c Hc. by apply elem_of_available_cols in Hc as [_ ?]. }
  f_equal. apply map_ext_in. intros r Hr%list_elem_of_In. f_equal.
  unfold combined_cells. apply map_ext. intros c.
  destruct (field df r c) as [v|] eqn:Hf; [|done]. simpl.
  case_decide as Hc; [|done]. subst c.
  specialize (Htext r v Hr Hf). by destruct v.
Qed.

Lemma union_step_extends (acc l : list label) :
  ∃ rest,
    foldl (λ acc c, if decide (c ∈ acc) then acc else acc ++ [c]) acc l
    = acc ++ rest.
Proof.
  revert acc. induction l as [|x l IH]; intros acc; simpl.
  - exists []. by rewrite app_nil_r.
  - case_decide; [apply IH|].
    destruct (IH (acc ++ [x])) as [rest ->]. exists ([x] ++ rest).
    by rewrite app_assoc.
Qed.

Lemma union_step_NoDup (acc l : list label) :
  NoDup (acc ++ l) →
  foldl (λ acc c, if decide (c ∈ acc) then acc else acc ++ [c]) acc l = acc ++ l.
Proof.
  revert acc. induction l as [|x l IH]; intros acc Hnd; simpl.
  - by rewrite app_nil_r.
  - apply NoDup_app in Hnd as Hparts. destruct Hparts as (_ & Hdisj & _).
    rewrite decide_False.
    + rewrite IH; [by rewrite <- app_assoc|]. by rewrite <- app_assoc.
    + intros Hx. apply (Hdisj x Hx), list_elem_of_here.
Qed.

(** X13.  The columns of the combined table are pairwise distinct and start
    with the kept columns of the first contributing frame, in the order of
    the projection; a column that only a later frame has comes after. *)
Theorem combined_columns_start_with_first (df : DataFrame) (all : list DataFrame) :
  NoDup (columns df) →
  has_projected_column df = true →
  NoDup (columns (combined_table (df :: all)))
  ∧ ∃ rest, columns (combined_table (df :: all)) = available_cols df ++ rest.
Proof.
  intros Hnd Hp. split; [apply union_columns_NoDup|].
  unfold combined_table, Pd.concat_frames. cbn [columns summary_data].
  destruct (available_cols df) as [|c l] eqn:Hav.
  { apply available_cols_nil in Hav. congruence. }
  rewrite <- Hav. unfold Pd.union_columns. cbn [flat_map].
  rewrite foldl_app, subset_of_columns by done.
  rewrite (union_step_NoDup [] (available_cols df))
    by apply available_cols_NoDup.
  apply union_step_extends.
Qed.

End Shapes.

(** ** Memory and disk *)

Section MemoryAndDisk.

Variable provider : category → string → result DataFrame.
Variable write_error : string → DataFrame → option exn.

Local Abbreviation main := (main provider write_error).

(** X15.  When a run of [main] is over, every frame of the accumulator is
    the annotated table of a name of the two lists and is what the file of
    that name holds: nothing is accumulated that is not on disk. *)
Theorem accumulated_frames_are_on_disk (st : state) (df : DataFrame) :
  df ∈ all_datasets (main st).2 →
  ∃ c name table,
    name ∈ dataset_names c
    ∧ provider c name = Ok table
    ∧ df = annotate c name table
    ∧ brick (main st).2 !! output_name c name = Some (parquet_of df).
Proof.
  unfold main. rewrite main_with_all_datasets.
  assert (∀ c, df ∈ fetched provider write_error c (dataset_names c) →
            ∃ name table,
              name ∈ dataset_names c ∧ provider c name = Ok table
              ∧ df = annotate c name table
              ∧ (output_name c name, df)
                ∈ fetched_files provider write_error c (dataset_names c)) as Hone.
  { intros c (name & Hin & Ho)%elem_of_fetched.
    pose proof (elem_of_fetched_files provider write_error c _ name df Hin Ho) as Hf.
    apply outcome_Ok in Ho as (table & ? & ? & _). by exists name, table. }
  intros [Hin|Hin]%elem_of_app.
  - destruct (Hone ADME Hin) as (name & table & ? & ? & ? & Hf).
    exists ADME, name, table. split_and!; [done..|].
    apply main_with_lookup; [apply main_files_NoDup|].
    apply elem_of_app. by left.
  - destruct (Hone Tox Hin) as (name & table & ? & ? & ? & Hf).
    exists Tox, name, table. split_and!; [done..|].
    apply main_with_lookup; [apply main_files_NoDup|].
    apply elem_of_app. by right.
Qed.

End MemoryAndDisk.

(** ** The further properties at work *)

(** X4 on a file of the user next to the files of an earlier run. *)
Lemma run_leaves_other_files_witness :
  brick (main_with Mock.only_caco2 Mock.no_write_error adme_datasets tox_datasets
           Sample.earlier_run).2 !! "README.md"
  = Some (Blob "notes").
Proof.
  refine (proj1 (run_leaves_other_files Mock.only_caco2 Mock.no_write_error
                   adme_datasets tox_datasets Sample.earlier_run "README.md")
                _ _ _).
  - vm_compute. discriminate.
  - intros name _. unfold output_name. destruct name; vm_compute; discriminate.
  - intros name _. unfold output_name. destruct name; vm_compute; discriminate.
Defined.

(** X5 on a name that fails while its file of an earlier run is there. *)
Lemma failed_name_keeps_its_old_file_witness :
  brick (main Sample.unreachable Mock.no_write_error Sample.earlier_run).2
    !! "adme_hia_hou.parquet"
  = Some (Parquet [LStr "drug"] [[VStr "C"]; [VStr "CC"]]).
Proof.
  refine (failed_name_keeps_its_old_file Sample.unreachable Mock.no_write_error
            ADME "HIA_Hou" Mock.fetch_failure Sample.earlier_run _ _).
  - apply (bool_decide_unpack _). vm_compute. exact I.
  - left. reflexivity.
Defined.

(** X6 on the provider that is down. *)
Lemma unreachable_provider_changes_nothing_witness :
  brick (main_with Sample.unreachable Mock.no_write_error adme_datasets tox_datasets
           Sample.earlier_run).2
  = brick Sample.earlier_run.
Proof.
  refine (proj1 (proj2 (unreachable_provider_changes_nothing
                          Sample.unreachable Mock.no_write_error
                          adme_datasets tox_datasets Sample.earlier_run _ _))).
  - intros name _. exists Mock.fetch_failure. reflexivity.
  - intros name _. exists Mock.fetch_failure. reflexivity.
Defined.

(** X9 on a table with the labels [Drug ID] and [drug_id]. *)
Lemma twin_labels_skip_the_dataset_witness :
  ¬ NoDup (map normalize (columns Sample.table_with_twin_labels))
  ∧ ∃ e, process Sample.twin_labels Mock.no_write_error ADME "Caco2_Wang" Mock.empty
         = (Ok tt,
            State ∅ [processing_line ADME "Caco2_Wang"; error_line e]
                  [(ADME, "Caco2_Wang")] []).
Proof.
  assert (¬ NoDup (map normalize (columns Sample.table_with_twin_labels))) as Hdup.
  { apply (bool_decide_unpack _). vm_compute. exact I. }
  split; [exact Hdup|].
  exact (twin_labels_skip_the_dataset Sample.twin_labels Mock.no_write_error
           ADME "Caco2_Wang" Sample.table_with_twin_labels Mock.empty
           eq_refl Hdup).
Defined.

(** X10 on the run that fetches one table of three rows. *)
Lemma fresh_run_last_line_witness :
  last (stdout (main Mock.only_caco2 Mock.no_write_error Mock.empty).2)
  = Some (total_line
            (2 * sum_list_with Pd.len
                   (all_datasets (main Mock.only_caco2 Mock.no_write_error Mock.empty).2))
            (length (all_datasets (main Mock.only_caco2 Mock.no_write_error Mock.empty).2)
             + match all_datasets (main Mock.only_caco2 Mock.no_write_error Mock.empty).2
               with [] => 0 | _ => 1 end)).
Proof.
  refine (proj1 (proj2 (fresh_run_last_line Mock.only_caco2 Mock.no_write_error
                          Mock.empty _ _))).
  - intros f [x Hx]. vm_compute in Hx. discriminate.
  - intros df. reflexivity.
Defined.

(** X12 on the same table, whose identifiers are text. *)
Lemma text_identifiers_are_kept_witness :
  subset_of Sample.table_in_other_order
  = Pd.getitem (available_cols Sample.table_in_other_order) Sample.table_in_other_order.
Proof.
  refine (text_identifiers_are_kept Sample.table_in_other_order _ _).
  - apply (bool_decide_unpack _). vm_compute. exact I.
  - intros r v Hr Hf.
    assert (r = Row 5 [VFloat "0.5"; VStr "CCO"; VStr "id-1"; VStr "ADME"; VStr "A"]
            ∨ r = Row 9 [VFloat "1.5"; VStr "CCN"; VStr "id-2"; VStr "ADME"; VStr "A"])
      as [->| ->].
    { cbn [rows Sample.table_in_other_order] in Hr.
      rewrite !elem_of_cons, elem_of_nil in Hr. tauto. }
    + vm_compute in Hf. injection Hf as <-. reflexivity.
    + vm_compute in Hf. injection Hf as <-. reflexivity.
Defined.

(** X13 on an accumulator whose second frame has a column the first lacks. *)
Lemma combined_columns_start_with_first_witness :
  ∃ rest,
    columns (combined_table
               [annotate ADME "Caco2_Wang" Mock.table_without_identifier;
                annotate ADME "PAMPA_NCATS" Mock.table3])
    = available_cols (annotate ADME "Caco2_Wang" Mock.table_without_identifier) ++ rest.
Proof.
  refine (proj2 (combined_columns_start_with_first
                   (annotate ADME "Caco2_Wang" Mock.table_without_identifier)
                   [annotate ADME "PAMPA_NCATS" Mock.table3] _ _)).
  - apply (bool_decide_unpack _). vm_compute. exact I.
  - vm_compute. reflexivity.
Defined.

(** X15 on the run that fetches one table. *)
Lemma accumulated_frames_are_on_disk_witness :
  ∃ c name table,
    name ∈ dataset_names c
    ∧ Mock.only_caco2 c name = Ok table
    ∧ annotate ADME "Caco2_Wang" Mock.table3 = annotate c name table
    ∧ brick (main Mock.only_caco2 Mock.no_write_error Mock.empty).2 !! output_name c name
      = Some (parquet_of (annotate ADME "Caco2_Wang" Mock.table3)).
Proof.
  refine (accumulated_frames_are_on_disk Mock.only_caco2 Mock.no_write_error
            Mock.empty (annotate ADME "Caco2_Wang" Mock.table3) _).
  vm_compute. apply list_elem_of_here.
Defined.

(** * The properties that need the whole directory *)

(** ** The grand total *)

Section GrandTotal.

Variable provider : category → string → result DataFrame.
Variable write_error : string → DataFrame → option exn.

Local Abbreviation fetched := (fetched provider write_error).
Local Abbreviation fetched_files := (fetched_files provider write_error).
Local Abbreviation main_with := (main_with provider write_error).
Local Abbreviation main := (main provider write_error).
Local Abbreviation after_combine := (after_combine provider write_error).

(** The reporter ends normally exactly when every file it reads is a
    table. *)
Lemma report_ends_normally_iff (s : state) :
  (report s).1 = Ok tt
  ↔ Forall (λ f, readable (brick (report s).2 !! f) = true)
           (glob_parquet (report s).2).
Proof.
  destruct (report_frame s) as (Hb & _ & _). cbn zeta in Hb.
  unfold glob_parquet at 1. rewrite Hb. fold (glob_parquet s).
  destruct (forallb (λ f, readable (brick s !! f)) (glob_parquet s)) eqn:Hall.
  - assert (Forall (λ f, readable (brick s !! f) = true) (glob_parquet s)) as Hok.
    { apply Forall_forall. intros f Hf. rewrite forallb_forall in Hall.
      apply Hall. by apply list_elem_of_In. }
    split; [done|]. intros _. by rewrite report_run_ok.
  - assert (Exists (λ f, readable (brick s !! f) = false) (glob_parquet s)) as Hex.
    { apply not_true_iff_false in Hall.
      destruct (decide (Exists (λ f, readable (brick s !! f) = false)
                          (glob_parquet s))) as [Hex|Hnex]; [done|].
      exfalso. apply Hall, forallb_forall. intros f Hf%list_elem_of_In.
      destruct (readable (brick s !! f)) eqn:Hr; [done|].
      exfalso. apply Hnex, Exists_exists. eauto. }
    destruct (report_run_fail s Hex) as (e & done & Hr & _).
    split; [by rewrite Hr|]. intros Hok. exfalso.
    apply Exists_exists in Hex as (f & Hf & Hbad).
    rewrite Forall_forall in Hok. specialize (Hok f Hf). congruence.
Qed.

Lemma sum_filter_split {A} (P : A → Prop) `{∀ x, Decision (P x)}
    (g : A → nat) (l : list A) :
  sum_list_with g l
  = sum_list_with g (filter P l) + sum_list_with g (filter (λ x, ¬ P x) l).
Proof.
  induction l as [|x l IH]; [done|].
  rewrite !filter_cons. cbn [sum_list_with].
  destruct (decide (P x)) as [HP|HP].
  - rewrite decide_False by tauto. cbn [sum_list_with]. lia.
  - rewrite decide_True by tauto. cbn [sum_list_with]. lia.
Qed.

Lemma sum_filter_eq {A} `{EqDecision A} (g : A → nat) (c : A) (l : list A) :
  NoDup l →
  sum_list_with g (filter (λ x, x = c) l) = if decide (c ∈ l) then g c else 0.
Proof.
  induction l as [|x l IH]; intros Hnd; [done|].
  apply NoDup_cons in Hnd as [Hx Hnd]. rewrite filter_cons.
  destruct (decide (x = c)) as [->|Hne].
  - cbn [sum_list_with]. rewrite IH by done.
    rewrite decide_False by done. rewrite decide_True by apply list_elem_of_here. lia.
  - rewrite IH by done. destruct (decide (c ∈ l)) as [Hc|Hc].
    + rewrite decide_True; [done|]. by apply list_elem_of_further.
    + rewrite decide_False; [done|]. intros [?|?]%elem_of_cons; congruence.
Qed.

Lemma sum_sublist_le {A} (g : A → nat) (l1 l2 : list A) :
  l1 `sublist_of` l2 → sum_list_with g l1 ≤ sum_list_with g l2.
Proof. induction 1; cbn [sum_list_with]; lia. Qed.

Lemma sum_perm_ext {A} (g h : A → nat) (l k : list A) :
  l ≡ₚ k → (∀ x, x ∈ l → g x = h x) → sum_list_with g l = sum_list_with h k.
Proof. intros Hp Hext. rewrite <- Hp. by apply sum_list_with_ext. Qed.

Lemma elem_of_dataset_files f :
  f ∈ dataset_files →
  PyStr.endswith f ".parquet" = true ∧ f ≠ combined_file.
Proof.
  unfold dataset_files. rewrite elem_of_app, !map_fmap.
  intros [(n & -> & _)%list_elem_of_fmap|(n & -> & _)%list_elem_of_fmap];
    split; auto using output_name_parquet, output_name_not_combined.
Qed.

Lemma main_keys k :
  k ∈ ((fetched_files ADME adme_datasets ++ fetched_files Tox tox_datasets)
       ++ combined_entry (fetched ADME adme_datasets ++ fetched Tox tox_datasets)).*1 →
  k ∈ dataset_files ∨ k = combined_file.
Proof.
  rewrite fmap_app, elem_of_app. intros [Hk|Hk].
  - left. eapply elem_of_sublist; [exact Hk|].
    rewrite fmap_app. apply sublist_app; apply fetched_files_sublist.
  - right. destruct (fetched ADME adme_datasets ++ fetched Tox tox_datasets);
      simpl in Hk; [by apply elem_of_nil in Hk|].
    by apply list_elem_of_singleton in Hk.
Qed.

(** The sum over the parquet files of the directory a run of [main] leaves:
    the files of the names, the combined file, and the files that were
    there and are none of these. *)
Lemma final_directory_rows (b : gmap string file) :
  let F := (fetched_files ADME adme_datasets ++ fetched_files Tox tox_datasets)
           ++ combined_entry (fetched ADME adme_datasets ++ fetched Tox tox_datasets) in
  let B := write_all b F in
  sum_list_with (λ f, file_rows (B !! f)) (parquet_names B)
  = sum_list_with (λ f, file_rows (B !! f)) dataset_files
    + file_rows (B !! combined_file)
    + sum_list_with (λ f, file_rows (b !! f)) (other_parquet b).
Proof.
  intros F B. set (g := λ f, file_rows (B !! f)). set (PN := parquet_names B).
  assert (∀ f, PyStr.endswith f ".parquet" = true → f ∉ PN → g f = 0) as Hzero.
  { intros f He Hf. unfold g.
    destruct (B !! f) as [x|] eqn:HBf; [|done].
    exfalso. apply Hf, elem_of_parquet_names. by rewrite HBf. }
  assert (∀ f, f ∉ dataset_files → f ≠ combined_file → B !! f = b !! f) as Hsame.
  { intros f Hd Hc. apply write_all_lookup_notin.
    intros [?|?]%main_keys; tauto. }
  pose proof (parquet_names_NoDup B) as HndPN. fold PN in HndPN.
  rewrite (sum_filter_split (λ f, f = combined_file) g PN).
  rewrite sum_filter_eq by done.
  rewrite (sum_filter_split (λ f, f ∈ dataset_files) g
             (filter (λ f, ¬ f = combined_file) PN)).
  assert ((if decide (combined_file ∈ PN) then g combined_file else 0)
          = g combined_file) as ->.
  { case_decide as Hc; [done|]. symmetry. by apply Hzero. }
  assert (sum_list_with g (filter (λ f, f ∈ dataset_files)
                             (filter (λ f, ¬ f = combined_file) PN))
          = sum_list_with g dataset_files) as ->.
  { rewrite (sum_sublist g (filter (λ f, f ∈ PN) dataset_files) dataset_files).
    - apply sum_perm_ext; [|done].
      apply NoDup_Permutation.
      + by do 2 apply NoDup_filter.
      + apply NoDup_filter, dataset_files_NoDup.
      + intros f. rewrite !list_elem_of_filter. split; [tauto|].
        intros [HPN Hd]. split_and!; [done| |done].
        by apply elem_of_dataset_files in Hd as [_ ?].
    - apply sublist_filter.
    - apply dataset_files_NoDup.
    - intros f Hd Hf. apply elem_of_dataset_files in Hd as Hd'.
      destruct Hd' as [He _]. apply Hzero; [done|].
      intros HPN. apply Hf, list_elem_of_filter. done. }
  assert (sum_list_with g (filter (λ f, ¬ f ∈ dataset_files)
                             (filter (λ f, ¬ f = combined_file) PN))
          = sum_list_with (λ f, file_rows (b !! f)) (other_parquet b)) as ->.
  { apply sum_perm_ext.
    - apply NoDup_Permutation.
      + by do 2 apply NoDup_filter.
      + apply NoDup_filter, parquet_names_NoDup.
      + intros f. unfold other_parquet, PN.
        rewrite !list_elem_of_filter, !elem_of_parquet_names.
        split.
        * intros (Hd & Hc & Hs & He). rewrite <- (Hsame f) by done. tauto.
        * intros ([Hd Hc] & Hs & He). rewrite (Hsame f) by done. tauto.
    - intros f Hf. apply list_elem_of_filter in Hf as [Hd Hf].
      apply list_elem_of_filter in Hf as [Hc _].
      unfold g. by rewrite Hsame. }
  unfold g. lia.
Qed.

(** C10, amended.  When [main] ends normally, the total of its last line is
    the number of rows in the files of the names of the two lists, plus the
    number of rows in the combined file, plus the number of rows in every
    other parquet file of the directory; the number of files it reports is
    that of the parquet files of the directory.  When something was
    accumulated, the combined file has as many rows as were accumulated,
    and the files of the names have these rows as well: they are counted
    twice.  In a directory without parquet files at the start nothing else
    is counted: the combined file has as many rows as the files of the names
    together, and that is the number of rows accumulated. *)
Theorem total_counts_every_parquet_file (st : state) :
  (main st).1 = Ok tt →
  let final := (main st).2 in
  let per_dataset :=
    sum_list_with (λ f, file_rows (brick final !! f)) dataset_files in
  let combined := file_rows (brick final !! combined_file) in
  let others :=
    sum_list_with (λ f, file_rows (brick st !! f)) (other_parquet (brick st)) in
  let all := all_datasets final in
  last (stdout final)
  = Some (total_line (per_dataset + combined + others)
                     (length (glob_parquet final)))
  ∧ (all ≠ [] → combined = sum_list_with Pd.len all)
  ∧ sum_list_with Pd.len all ≤ per_dataset
  ∧ (no_parquet (brick st) →
     others = 0 ∧ combined = per_dataset
     ∧ per_dataset = sum_list_with Pd.len all).
Proof.
  intros Hend final per_dataset combined others all.
  subst final per_dataset combined others all. unfold main in *.
  set (W := fetched_files ADME adme_datasets ++ fetched_files Tox tox_datasets).
  set (acc := fetched ADME adme_datasets ++ fetched Tox tox_datasets).
  set (F := W ++ combined_entry acc).
  set (B := write_all (brick st) F).
  set (before := add_lines (banner_lines "Output files:" true)
                   (after_combine adme_datasets tox_datasets st)).
  pose proof (main_files_NoDup provider write_error) as HndW. fold W in HndW.
  destruct (all_files_NoDup provider write_error _ _ HndW) as [HndF HpqF].
  fold W acc F in HndF, HpqF.
  pose proof (both_projected _ (fetched_have_both provider write_error
                                  adme_datasets tox_datasets)) as Hproj.
  fold acc in Hproj.
  assert (brick before = B) as Hbefore.
  { unfold before. cbn [brick add_lines]. apply after_combine_brick. }
  assert (main_with adme_datasets tox_datasets st = report before) as Hmain.
  { pose proof (main_with_run provider write_error adme_datasets tox_datasets st)
      as Hrun. cbn zeta in Hrun. fold acc in Hrun.
    destruct acc as [|d l]; [exact Hrun|].
    destruct (write_error combined_file _); [|exact Hrun].
    by rewrite Hrun in Hend. }
  assert (glob_parquet (report before).2 = glob_parquet before) as Hsameglob.
  { destruct (report_frame before) as (Hb & _ & _). cbn zeta in Hb.
    unfold glob_parquet. by rewrite Hb. }
  assert (Forall (λ f, readable (brick before !! f) = true) (glob_parquet before))
    as Hok.
  { rewrite Hmain in Hend. apply report_ends_normally_iff in Hend.
    destruct (report_frame before) as (Hb & _ & _). cbn zeta in Hb.
    by rewrite Hsameglob, Hb in Hend. }
  assert (∀ k df, (k, df) ∈ F → B !! k = Some (parquet_of df)) as Hlook.
  { intros k df Hin. by apply write_all_lookup_in. }
  assert (all_datasets before = acc) as Hacc.
  { unfold before. cbn [all_datasets add_lines]. apply after_combine_all_datasets. }
  rewrite Hmain, Hsameglob, (report_run_ok before Hok).
  cbn [fst snd brick stdout all_datasets add_lines].
  rewrite Hbefore, Hacc.
  assert (sum_list_with (λ f, file_rows (B !! f)) (glob_parquet before)
          = sum_list_with (λ f, file_rows (B !! f)) (parquet_names B)) as Hglob.
  { apply sum_perm_ext; [|done]. by rewrite glob_parquet_perm, Hbefore. }
  assert (sum_list_with (λ f, file_rows (B !! f)) W.*1 = sum_list_with Pd.len acc)
    as Hwritten.
  { unfold B. rewrite written_rows; [|done|intros fd ?; apply elem_of_app; by left].
    rewrite <- (sum_list_with_map Pd.len snd), map_fmap.
    unfold W. by rewrite fetched_files_snd. }
  assert (W.*1 `sublist_of` dataset_files) as Hsub.
  { unfold W. rewrite fmap_app. apply sublist_app; apply fetched_files_sublist. }
  assert (acc ≠ [] →
          file_rows (B !! combined_file) = sum_list_with Pd.len acc) as Hcomb.
  { intros Hne. rewrite (Hlook combined_file (combined_table acc)).
    - by rewrite parquet_of_rows, combined_table_len_all.
    - apply elem_of_app. right. destruct acc; [done|]. apply list_elem_of_here. }
  split_and!.
  - rewrite app_assoc, last_snoc, Hglob. do 2 f_equal.
    apply (final_directory_rows (brick st)).
  - exact Hcomb.
  - rewrite <- Hwritten. by apply sum_sublist_le.
  - intros Hfresh.
    assert (sum_list_with (λ f, file_rows (B !! f)) dataset_files
            = sum_list_with Pd.len acc) as Hper.
    { rewrite <- Hwritten. apply sum_sublist; [done|apply dataset_files_NoDup|].
      intros f Hd HfW. apply elem_of_dataset_files in Hd as [He Hne].
      unfold B. apply (f_equal file_rows (y := None)).
      apply write_all_no_parquet; [done..|].
      unfold F. rewrite fmap_app, elem_of_app. intros [?|Hce]; [done|].
      destruct acc; simpl in Hce; [by apply elem_of_nil in Hce|].
      by apply list_elem_of_singleton in Hce. }
    split_and!.
    + assert (other_parquet (brick st) = []) as ->; [|done].
      apply elem_of_nil_inv. intros f [_ Hf]%list_elem_of_filter.
      apply elem_of_parquet_names in Hf as [Hs He].
      apply Hfresh in Hs. congruence.
    + rewrite Hper. destruct (decide (acc = [])) as [Hnil|Hne]; [|by apply Hcomb].
      rewrite Hnil. unfold B, F. rewrite Hnil. cbn [combined_entry].
      rewrite app_nil_r.
      apply (f_equal file_rows (y := None)).
      apply write_all_no_parquet; [done..|].
      intros Hk. apply (elem_of_sublist _ _ _ Hk) in Hsub.
      by apply elem_of_dataset_files in Hsub as [_ ?].
    + exact Hper.
Qed.

End GrandTotal.

(** C10 on a directory with a foreign parquet file of four rows: three rows
    are fetched, and ten are counted. *)
Lemma total_counts_every_parquet_file_witness :
  (main Mock.only_caco2 Mock.no_write_error Stale.with_foreign_file).1 = Ok tt
  ∧ last (stdout (main Mock.only_caco2 Mock.no_write_error
                    Stale.with_foreign_file).2)
    = Some (total_line (3 + 3 + 4) 3).
Proof.
  assert ((main Mock.only_caco2 Mock.no_write_error Stale.with_foreign_file).1
          = Ok tt) as Hend.
  { vm_compute. reflexivity. }
  split; [exact Hend|].
  pose proof (total_counts_every_parquet_file Mock.only_caco2 Mock.no_write_error
                Stale.with_foreign_file Hend) as H.
  cbv zeta in H. destruct H as (Hlast & _).
  rewrite Hlast. vm_compute. reflexivity.
Defined.

(** C10 as worded fails when the directory holds a parquet file that is
    neither a dataset file nor the combined file: its rows are in the total
    as well. *)
Lemma foreign_parquet_file_is_counted :
  ¬ total_is_datasets_plus_combined
      Mock.only_caco2 Mock.no_write_error Stale.with_foreign_file.
Proof.
  intros [files H].
  assert (last (stdout (main Mock.only_caco2 Mock.no_write_error
                          Stale.with_foreign_file).2)
          = Some (total_line 10 3)) as Hlast by (vm_compute; reflexivity).
  rewrite Hlast in H.
  assert (sum_list_with
            (λ f, file_rows
                    (brick (main Mock.only_caco2 Mock.no_write_error
                              Stale.with_foreign_file).2 !! f)) dataset_files
          + file_rows
              (brick (main Mock.only_caco2 Mock.no_write_error
                        Stale.with_foreign_file).2 !! combined_file)
          = 6) as Hsum by (vm_compute; reflexivity).
  rewrite Hsum in H. injection H as H.
  unfold total_line, PyStr.nl in H.
  change (pretty 10) with "10" in H. change (pretty 6) with "6" in H.
  cbv [String.append] in H. discriminate H.
Qed.

(** ** The accumulator and the combined file *)

Section AccumulatorAndCombined.

Variable provider : category → string → result DataFrame.
Variable write_error : string → DataFrame → option exn.

Local Abbreviation outcome := (outcome provider write_error).
Local Abbreviation fetched := (fetched provider write_error).
Local Abbreviation fetched_files := (fetched_files provider write_error).
Local Abbreviation main_with := (main_with provider write_error).
Local Abbreviation to_parquet := (to_parquet write_error).

(** The names a loop of a run goes through. *)
Local Abbreviation names_of adme_names tox_names c :=
  (match c with ADME => adme_names | Tox => tox_names end).

Lemma success_outcome c name table st :
  provider c name = Ok table →
  (to_parquet (output_name c name) (annotate c name table) st).1 = Ok tt →
  outcome c name = Ok (annotate c name table).
Proof.
  intros Hprov Hw. unfold outcome. rewrite Hprov. cbn zeta.
  revert Hw. unfold to_parquet. case_bool_decide; [|done].
  by destruct (write_error _ _).
Qed.

Lemma outcome_fetched c names name df :
  name ∈ names → outcome c name = Ok df → df ∈ fetched c names.
Proof.
  intros Hin Ho. unfold fetched. rewrite map_fmap.
  apply list_elem_of_fmap. exists (output_name c name, df). split; [done|].
  by apply elem_of_fetched_files.
Qed.

Lemma fetched_NoDup_columns A T :
  Forall (λ df, NoDup (columns df)) (fetched ADME A ++ fetched Tox T).
Proof.
  apply Forall_app. split; apply Forall_forall; intros df' Hin;
    by apply fetched_annotated in Hin as (name & df & _ & _ & _ & ?).
Qed.

Lemma filter_all_projected (all : list DataFrame) :
  Forall (λ df, has_projected_column df = true) all →
  filter (λ df, has_projected_column df = true) all = all.
Proof.
  induction 1 as [|df l Hdf _ IH]; [done|].
  by rewrite filter_cons, decide_True, IH.
Qed.

(** The cells of the combined table of a run. *)
Lemma run_combined_cells A T :
  let all := fetched ADME A ++ fetched Tox T in
  map cells (rows (combined_table all))
  = flat_map (λ df, map (combined_cells (columns (combined_table all)) df) (rows df))
             all.
Proof.
  intros all.
  rewrite combined_table_rows, range_index_cells by apply fetched_NoDup_columns.
  fold all. rewrite filter_all_projected; [done|].
  apply both_projected, fetched_have_both.
Qed.

(** The combined file of a run when something was accumulated and the
    write of the combined table does not raise. *)
Lemma run_combined_file A T st :
  let all := fetched ADME A ++ fetched Tox T in
  all ≠ [] →
  write_error combined_file (combined_table all) = None →
  brick (main_with A T st).2 !! combined_file = Some (parquet_of (combined_table all)).
Proof.
  intros all Hne Hw. rewrite main_with_brick. unfold main_writes. cbn zeta.
  fold all. rewrite Hw. unfold write_all. rewrite foldl_app.
  destruct all; [done|]. cbn [combined_entry foldl fst snd].
  apply lookup_insert_eq.
Qed.

Lemma combined_has_both A T :
  let all := fetched ADME A ++ fetched Tox T in
  all ≠ [] →
  LStr "dataset" ∈ columns (combined_table all)
  ∧ LStr "category" ∈ columns (combined_table all).
Proof.
  intros all Hne.
  pose proof (fetched_have_both provider write_error A T) as Hboth. fold all in Hboth.
  pose proof (both_projected _ Hboth) as Hproj.
  destruct all as [|df l] eqn:Hall; [done|].
  apply Forall_cons in Hboth as [[Hd Hc] _].
  assert (∀ c, c ∈ cols_to_keep → c ∈ columns df →
               c ∈ columns (combined_table (df :: l))) as Hin.
  { intros c Hk Hcol. unfold combined_table, Pd.concat_frames. cbn [columns].
    apply elem_of_union_columns. exists (subset_of df). split.
    - rewrite summary_data_all by done. apply list_elem_of_here.
    - rewrite subset_of_columns.
      + by apply elem_of_available_cols.
      + pose proof (fetched_NoDup_columns A T) as Hnd. fold all in Hnd.
        rewrite Hall in Hnd. by apply Forall_cons in Hnd as [? _]. }
  split; apply Hin; try done; unfold cols_to_keep;
    rewrite !elem_of_cons; auto 10.
Qed.

(** C9.  The accumulator of a run holds exactly the frames that were fetched
    and written: the annotated table of every name whose provider call and
    write succeed is in it, and nothing else is.  Each of its frames has a
    [dataset] and a [category] column, whatever the provider returned, so
    each has a projected column and the combiner never takes its skip
    branch: [summary_data] is the projection of every accumulated frame.
    When something was accumulated and the write of the combined table does
    not raise, the combined file has the two columns, as many rows as the
    accumulated frames together, and every row of every accumulated frame
    is one of its rows. *)
Theorem accumulator_keeps_dataset_and_category
    (adme_names tox_names : list string) (st : state) :
  let final := (main_with adme_names tox_names st).2 in
  let all := all_datasets final in
  Forall (λ df, LStr "dataset" ∈ columns df ∧ LStr "category" ∈ columns df) all
  ∧ Forall (λ df, has_projected_column df = true) all
  ∧ summary_data all = map subset_of all
  ∧ Pd.len (combined_table all) = sum_list_with Pd.len all
  ∧ (∀ c name table,
       name ∈ names_of adme_names tox_names c →
       provider c name = Ok table →
       (to_parquet (output_name c name) (annotate c name table) st).1 = Ok tt →
       annotate c name table ∈ all)
  ∧ (∀ df, df ∈ all →
       ∃ c name table,
         name ∈ names_of adme_names tox_names c
         ∧ provider c name = Ok table
         ∧ df = annotate c name table
         ∧ outcome c name = Ok df)
  ∧ (all ≠ [] →
     write_error combined_file (combined_table all) = None →
     ∃ cols data,
       brick final !! combined_file = Some (Parquet cols data)
       ∧ LStr "dataset" ∈ cols ∧ LStr "category" ∈ cols
       ∧ length data = sum_list_with Pd.len all
       ∧ ∀ df r, df ∈ all → r ∈ rows df → combined_cells cols df r ∈ data).
Proof.
  intros final all. subst all final. rewrite main_with_all_datasets.
  set (all := fetched ADME adme_names ++ fetched Tox tox_names).
  pose proof (fetched_have_both provider write_error adme_names tox_names) as Hboth.
  fold all in Hboth.
  pose proof (both_projected _ Hboth) as Hproj.
  split_and!; [done | done | by apply summary_data_all
              | by apply combined_table_len_all | | |].
  - intros c name table Hin Hprov Hw.
    pose proof (success_outcome c name table st Hprov Hw) as Ho.
    unfold all. apply elem_of_app.
    destruct c; [left|right]; by eapply outcome_fetched.
  - intros df [Hin|Hin]%elem_of_app;
      apply elem_of_fetched in Hin as (name & Hin & Ho);
      pose proof Ho as Ho'; apply outcome_Ok in Ho' as (table & ? & ? & _).
    + by exists ADME, name, table.
    + by exists Tox, name, table.
  - intros Hne Hw.
    exists (columns (combined_table all)), (map cells (rows (combined_table all))).
    destruct (combined_has_both adme_names tox_names Hne) as [Hd Hc].
    split_and!.
    + by apply run_combined_file.
    + exact Hd.
    + exact Hc.
    + rewrite length_map. by apply combined_table_len_all.
    + intros df r Hdf Hr. unfold all.
      rewrite (run_combined_cells adme_names tox_names). fold all.
      apply list_elem_of_In, in_flat_map. exists df.
      split; [by apply list_elem_of_In|].
      apply in_map. by apply list_elem_of_In.
Qed.

Lemma filter_ext_in {A} (P Q : A → Prop)
    `{∀ x, Decision (P x)} `{∀ x, Decision (Q x)} (l : list A) :
  (∀ x, x ∈ l → P x ↔ Q x) → filter P l = filter Q l.
Proof.
  induction l as [|x l IH]; intros Hext; [done|].
  rewrite !filter_cons.
  assert (filter P l = filter Q l) as ->.
  { apply IH. intros y Hy. apply Hext. by apply list_elem_of_further. }
  pose proof (Hext x (list_elem_of_here _ _)) as Hx.
  destruct (decide (P x)), (decide (Q x)); tauto.
Qed.

Lemma union_step_filter (acc l : list label) :
  NoDup l →
  foldl (λ acc c, if decide (c ∈ acc) then acc else acc ++ [c]) acc l
  = acc ++ filter (λ c, c ∉ acc) l.
Proof.
  revert acc. induction l as [|x l IH]; intros acc Hnd; simpl.
  - by rewrite app_nil_r.
  - apply NoDup_cons in Hnd as [Hx Hnd]. rewrite filter_cons.
    destruct (decide (x ∈ acc)) as [Hin|Hnin].
    + rewrite decide_False by tauto. by apply IH.
    + rewrite decide_True by done. rewrite IH by done.
      rewrite <- app_assoc. cbn [app]. do 2 f_equal.
      apply filter_ext_in. intros c Hc.
      rewrite elem_of_app, list_elem_of_singleton.
      split; [tauto|]. intros Hnc [?|Heq]; [done|]. by subst c.
Qed.

Lemma union_columns_frames (acc : list label) (subs : list DataFrame) :
  foldl (λ acc c, if decide (c ∈ acc) then acc else acc ++ [c])
        acc (flat_map columns subs)
  = foldl (λ acc s,
             foldl (λ acc c, if decide (c ∈ acc) then acc else acc ++ [c])
                   acc (columns s))
          acc subs.
Proof.
  revert acc. induction subs as [|s subs IH]; intros acc; [done|].
  cbn [flat_map foldl]. by rewrite foldl_app, IH.
Qed.

Lemma union_frames_filter (acc : list label) (all : list DataFrame) :
  Forall (λ df, NoDup (columns df)) all →
  foldl (λ acc s,
           foldl (λ acc c, if decide (c ∈ acc) then acc else acc ++ [c])
                 acc (columns s))
        acc (map subset_of all)
  = foldl (λ acc df, acc ++ filter (λ c, c ∉ acc) (available_cols df)) acc all.
Proof.
  intros Hnd. revert acc.
  induction Hnd as [|df l Hdf _ IH]; intros acc; [done|].
  cbn [map foldl]. rewrite subset_of_columns by done.
  rewrite union_step_filter by apply available_cols_NoDup. apply IH.
Qed.

(** The columns of the combined table: frame after frame, the kept columns
    of the frame that no earlier frame had. *)
Lemma combined_columns_by_frame (all : list DataFrame) :
  Forall (λ df, NoDup (columns df)) all →
  Forall (λ df, has_projected_column df = true) all →
  columns (combined_table all)
  = foldl (λ acc df, acc ++ filter (λ c, c ∉ acc) (available_cols df)) [] all.
Proof.
  intros Hnd Hproj. unfold combined_table, Pd.concat_frames, Pd.union_columns.
  cbn [columns]. rewrite summary_data_all, union_columns_frames by done.
  by apply union_frames_filter.
Qed.

(** C7.  When the run is over the accumulator holds the frames of the first
    list in list order and then those of the second.  The combined table
    has, frame after frame, the kept columns a frame is the first to have:
    pairwise distinct, all among [drug_id], [drug], [y], [dataset],
    [category], each a column of an accumulated frame, [dataset] and
    [category] among them.  Its rows are the rows of the projections of
    the accumulated frames, one projection after the other, in the order
    each has them, laid out along the columns of the table; that is, the
    rows of the accumulated frames one frame after the other, in the order
    each frame has them, every row of every frame once (so as many rows as
    the frames have together), under the index 0, 1, 2, ...;
    and that table is what the combined file holds when its write does not
    raise. *)
Theorem combined_table_is_concatenation
    (adme_names tox_names : list string) (st : state) :
  let final := (main_with adme_names tox_names st).2 in
  let all := all_datasets final in
  let combined := combined_table all in
  all = fetched ADME adme_names ++ fetched Tox tox_names
  ∧ columns combined
    = foldl (λ acc df, acc ++ filter (λ c, c ∉ acc) (available_cols df)) [] all
  ∧ NoDup (columns combined)
  ∧ (∀ c, c ∈ columns combined
          ↔ c ∈ cols_to_keep ∧ ∃ df, df ∈ all ∧ c ∈ columns df)
  ∧ (all ≠ [] →
     LStr "dataset" ∈ columns combined ∧ LStr "category" ∈ columns combined)
  ∧ map cells (rows combined)
    = flat_map (λ sub, map (Pd.align (columns combined) sub) (rows sub))
               (map subset_of all)
  ∧ map cells (rows combined)
    = flat_map (λ df, map (combined_cells (columns combined) df) (rows df)) all
  ∧ map ix (rows combined) = map Z.of_nat (seq 0 (Pd.len combined))
  ∧ Pd.len combined = sum_list_with Pd.len all
  ∧ (all ≠ [] →
     write_error combined_file combined = None →
     brick final !! combined_file
     = Some (Parquet (columns combined) (map cells (rows combined)))).
Proof.
  intros final all combined. subst combined all final.
  rewrite main_with_all_datasets.
  set (all := fetched ADME adme_names ++ fetched Tox tox_names).
  pose proof (fetched_have_both provider write_error adme_names tox_names) as Hboth.
  fold all in Hboth.
  pose proof (both_projected _ Hboth) as Hproj.
  pose proof (fetched_NoDup_columns adme_names tox_names) as Hnd. fold all in Hnd.
  split_and!.
  - done.
  - by apply combined_columns_by_frame.
  - apply union_columns_NoDup.
  - intros c. split.
    + intros Hc. apply combined_columns_kept in Hc as (? & df & ? & _ & ?); eauto.
    + intros (Hk & df & Hdf & Hc).
      unfold combined_table, Pd.concat_frames. cbn [columns].
      apply elem_of_union_columns. exists (subset_of df). split.
      * rewrite summary_data_all by done. by apply elem_of_map.
      * rewrite Forall_forall in Hnd. rewrite subset_of_columns by auto.
        by apply elem_of_available_cols.
  - apply combined_has_both.
  - unfold combined_table, Pd.concat_frames. cbn [rows columns].
    by rewrite range_index_cells, summary_data_all.
  - apply run_combined_cells.
  - unfold Pd.len. rewrite combined_table_rows by done.
    by rewrite range_index_ix, range_index_length.
  - by apply combined_table_len_all.
  - intros Hne Hw. by apply run_combined_file.
Qed.

End AccumulatorAndCombined.

(** C7 on a run that accumulates two frames, the first one without an
    identifier: the columns of the combined table in order of first
    appearance, and the combined file row by row. *)
Lemma combined_table_is_concatenation_witness :
  let final := (main Mock.one_without_identifier Mock.no_write_error Mock.empty).2 in
  columns (combined_table (all_datasets final))
  = [LStr "drug"; LStr "y"; LStr "dataset"; LStr "category"; LStr "drug_id"]
  ∧ brick final !! combined_file
    = Some (Parquet
              [LStr "drug"; LStr "y"; LStr "dataset"; LStr "category"; LStr "drug_id"]
              [ [VStr "CCO"; VFloat "0.5"; VStr "Caco2_Wang"; VStr "ADME"; VNaN];
                [VStr "CCO"; VFloat "0.5"; VStr "PAMPA_NCATS"; VStr "ADME"; VStr "101"];
                [VStr "CCN"; VFloat "1.25"; VStr "PAMPA_NCATS"; VStr "ADME"; VStr "102"];
                [VStr "CCC"; VFloat "-0.75"; VStr "PAMPA_NCATS"; VStr "ADME"; VStr "103"] ]).
Proof.
  destruct (combined_table_is_concatenation Mock.one_without_identifier
              Mock.no_write_error adme_datasets tox_datasets Mock.empty)
    as (_ & Hcols & _ & _ & _ & _ & _ & _ & _ & Hfile).
  split.
  - cbv zeta. unfold main. rewrite Hcols. vm_compute. reflexivity.
  - cbv zeta. unfold main. rewrite Hfile.
    + vm_compute. reflexivity.
    + vm_compute. discriminate.
    + reflexivity.
Defined.

(** C9 on a run that accumulates two frames: the frame of the first name is
    in the accumulator and its row, laid out along the columns of the
    combined file, is one of the four rows of that file. *)
Lemma accumulator_keeps_dataset_and_category_witness :
  let final := (main Mock.one_without_identifier Mock.no_write_error Mock.empty).2 in
  let df := annotate ADME "Caco2_Wang" Mock.table_without_identifier in
  df ∈ all_datasets final
  ∧ ∃ cols data,
      brick final !! combined_file = Some (Parquet cols data)
      ∧ LStr "dataset" ∈ cols
      ∧ length data = 4
      ∧ combined_cells cols df
          (Row 0 [VStr "CCO"; VFloat "0.5"; VStr "Caco2_Wang"; VStr "ADME"])
        ∈ data.
Proof.
  cbv zeta. unfold main.
  destruct (accumulator_keeps_dataset_and_category Mock.one_without_identifier
              Mock.no_write_error adme_datasets tox_datasets Mock.empty)
    as (_ & _ & _ & _ & Hin & _ & Hfile).
  assert (annotate ADME "Caco2_Wang" Mock.table_without_identifier
          ∈ all_datasets
              (main_with Mock.one_without_identifier Mock.no_write_error
                 adme_datasets tox_datasets Mock.empty).2) as Hmem.
  { apply (Hin ADME "Caco2_Wang" Mock.table_without_identifier).
    - apply list_elem_of_here.
    - reflexivity.
    - vm_compute. reflexivity. }
  split; [exact Hmem|].
  destruct Hfile as (cols & data & Hf & Hd & _ & Hlen & Hrows).
  - vm_compute. discriminate.
  - reflexivity.
  - exists cols, data. split_and!; [exact Hf|exact Hd| |].
    + rewrite Hlen. vm_compute. reflexivity.
    + apply (Hrows _ _ Hmem). vm_compute. apply list_elem_of_here.
Defined.

(** * The cells a frame keeps *)

Section Cells.

Variable provider : category → string → result DataFrame.
Variable write_error : string → DataFrame → option exn.

Local Abbreviation outcome := (outcome provider write_error).

(** [df[key] = v] leaves the columns that are there where they are. *)
Lemma setitem_columns_lookup key v df j c :
  columns df !! j = Some c → columns (Pd.setitem key v df) !! j = Some c.
Proof.
  intros Hj. rewrite setitem_columns. destruct (Pd.has_column key df); [done|].
  by apply lookup_app_l_Some.
Qed.

(** [df[key] = v] keeps every row in its place, with its index label and
    with its cells under the columns other than [key]. *)
Lemma setitem_other_cells key v df i r :
  rectangular df →
  rows df !! i = Some r →
  ∃ r', rows (Pd.setitem key v df) !! i = Some r'
        ∧ ix r' = ix r
        ∧ ∀ j c, columns df !! j = Some c → c ≠ key →
                 cells r' !! j = cells r !! j.
Proof.
  intros Hrect Hi.
  assert (length (cells r) = length (columns df)) as Hlen.
  { unfold rectangular in Hrect. rewrite Forall_forall in Hrect.
    apply Hrect. by eapply list_elem_of_lookup_2. }
  unfold Pd.setitem. destruct (Pd.has_column key df); cbn [rows].
  - eexists. rewrite map_fmap, list_lookup_fmap, Hi. cbn [fmap option_fmap option_map].
    split_and!; [done..|]. intros j c Hj Hne. cbn [ix cells].
    rewrite lookup_zip_with, Hj. cbn [mbind option_bind].
    destruct (cells r !! j); [|done]. cbn [mbind option_bind].
    by rewrite decide_False.
  - eexists. rewrite map_fmap, list_lookup_fmap, Hi. cbn [fmap option_fmap option_map].
    split_and!; [done..|]. intros j c Hj Hne. cbn [ix cells].
    apply lookup_app_l. rewrite Hlen. by eapply lookup_lt_Some.
Qed.

(** Lines 68-72 keep the table the provider returned: its columns stay where
    they are, under their normalized labels, and its cells stay where they
    are, but for the columns that lines 68 and 69 set. *)
Lemma annotate_keeps_cells c name df :
  rectangular df →
  let ann := annotate c name df in
  (∀ j l, columns df !! j = Some l → columns ann !! j = Some (normalize_label l))
  ∧ (∀ l', l' ∈ columns ann →
       l' = LStr "dataset" ∨ l' = LStr "category"
       ∨ ∃ l, l ∈ columns df ∧ l' = normalize_label l)
  ∧ (∀ i r, rows df !! i = Some r →
       ∃ r', rows ann !! i = Some r'
             ∧ ix r' = ix r
             ∧ ∀ j l, columns df !! j = Some l →
                      l ≠ LStr "dataset" → l ≠ LStr "category" →
                      cells r' !! j = cells r !! j).
Proof.
  intros Hrect ann.
  set (df1 := Pd.setitem (LStr "dataset") (VStr name) df).
  set (df2 := Pd.setitem (LStr "category") (VStr (category_tag c)) df1).
  assert (columns ann = map normalize_label (columns df2)) as Hcols by done.
  assert (rows ann = rows df2) as Hrows by done.
  pose proof (proj1 (setitem_spec (LStr "dataset") (VStr name) df Hrect)) as Hrect1.
  fold df1 in Hrect1.
  split_and!.
  - intros j l Hj. rewrite Hcols, map_fmap, list_lookup_fmap.
    assert (columns df2 !! j = Some l) as ->; [|done].
    by apply setitem_columns_lookup, setitem_columns_lookup.
  - intros l' Hl'. rewrite Hcols, map_fmap in Hl'.
    apply list_elem_of_fmap in Hl' as (l & -> & Hl).
    unfold df2, df1 in Hl. rewrite !setitem_columns in Hl.
    destruct (Pd.has_column (LStr "category") _);
      destruct (Pd.has_column (LStr "dataset") df);
      rewrite ?elem_of_app, ?list_elem_of_singleton in Hl;
      destruct_or?; subst; eauto.
  - intros i r Hi.
    destruct (setitem_other_cells (LStr "dataset") (VStr name) df i r Hrect Hi)
      as (r1 & Hi1 & Hix1 & Hc1). fold df1 in Hi1.
    destruct (setitem_other_cells (LStr "category") (VStr (category_tag c))
                df1 i r1 Hrect1 Hi1) as (r2 & Hi2 & Hix2 & Hc2). fold df2 in Hi2.
    exists r2. rewrite Hrows. split_and!; [done|congruence|].
    intros j l Hj Hd Hc. rewrite (Hc2 j l), (Hc1 j l); try done.
    by apply setitem_columns_lookup.
Qed.

(** X3.  When the provider returns a rectangular table and the iteration
    writes it, the frame written is rectangular, has the rows and the index
    of the table, and holds the name under [dataset] and the tag under
    [category] in every row, also when the table had such columns already
    (lines 68 and 69 then overwrite them).  The table itself is kept: its
    columns stand where they stood, under their normalized labels, the
    frame has no other column than these, [dataset] and [category], and
    every row stands where it stood with the cells it had under every column
    but those two. *)
Theorem written_frame_holds_name_and_tag
    (c : category) (name : string) (df ann : DataFrame) :
  provider c name = Ok df →
  rectangular df →
  outcome c name = Ok ann →
  rectangular ann
  ∧ Pd.len ann = Pd.len df
  ∧ map ix (rows ann) = map ix (rows df)
  ∧ (∀ r, r ∈ rows ann →
          field ann r (LStr "dataset") = Some (VStr name)
          ∧ field ann r (LStr "category") = Some (VStr (category_tag c)))
  ∧ (∀ j l, columns df !! j = Some l → columns ann !! j = Some (normalize_label l))
  ∧ (∀ l', l' ∈ columns ann →
       l' = LStr "dataset" ∨ l' = LStr "category"
       ∨ ∃ l, l ∈ columns df ∧ l' = normalize_label l)
  ∧ (∀ i r, rows df !! i = Some r →
       ∃ r', rows ann !! i = Some r'
             ∧ ix r' = ix r
             ∧ ∀ j l, columns df !! j = Some l →
                      l ≠ LStr "dataset" → l ≠ LStr "category" →
                      cells r' !! j = cells r !! j).
Proof.
  intros Hprov Hrect Ho.
  apply outcome_Ok in Ho as (df' & Hprov' & -> & Hnd & _).
  rewrite Hprov in Hprov'. injection Hprov' as <-.
  destruct (annotate_spec c name df Hrect) as (Hr & Hix & jd & jc & Hjd & Hjc & Hcells).
  destruct (annotate_keeps_cells c name df Hrect) as (Hcols & Honly & Hkeep).
  split_and!; [done|apply annotate_len|done| |done..].
  intros r Hin. destruct (Hcells r Hin) as [Hd Hc].
  rewrite (field_at _ r _ jd Hnd Hjd), (field_at _ r _ jc Hnd Hjc).
  unfold Pd.cell. by rewrite Hd, Hc.
Qed.

End Cells.

(** X3 on a table that has a [dataset] column already: the label [Drug] is
    normalized where it stood, the cell under it is the provider's, and the
    cell under [dataset] is the name, not the provider's [old]. *)
Lemma written_frame_holds_name_and_tag_witness :
  let ann := annotate ADME "Caco2_Wang" Mock.table_with_dataset in
  rectangular Mock.table_with_dataset
  ∧ columns ann !! 0 = Some (LStr "drug")
  ∧ ∃ r', rows ann !! 0 = Some r'
          ∧ ix r' = 0%Z
          ∧ cells r' !! 0 = Some (VStr "CCO")
          ∧ field ann r' (LStr "dataset") = Some (VStr "Caco2_Wang").
Proof.
  cbv zeta.
  assert (rectangular Mock.table_with_dataset) as Hrect.
  { apply (bool_decide_unpack _). vm_compute. exact I. }
  split; [exact Hrect|].
  destruct (written_frame_holds_name_and_tag
              Mock.with_dataset_column Mock.no_write_error
              ADME "Caco2_Wang" Mock.table_with_dataset
              (annotate ADME "Caco2_Wang" Mock.table_with_dataset)
              eq_refl Hrect eq_refl) as (_ & _ & _ & Hboth & Hcols & _ & Hkeep).
  split.
  - exact (Hcols 0 (LStr "Drug") eq_refl).
  - destruct (Hkeep 0 (Row 0 [VStr "CCO"; VStr "old"]) eq_refl)
      as (r' & Hr' & Hix & Hcells).
    exists r'. split_and!.
    + exact Hr'.
    + exact Hix.
    + apply (Hcells 0 (LStr "Drug")); [reflexivity|discriminate|discriminate].
    + apply Hboth. by eapply list_elem_of_lookup_2.
Defined.

(** * The cells of a projection *)

Section ProjectedCells.

(** A cell of a row laid out along pairwise distinct columns. *)
Lemma field_of_layout (cols : list label) (g : label → value) (i : Z)
    (rs : list row) (c : label) :
  NoDup cols → c ∈ cols →
  field (Frame cols rs) (Row i (map g cols)) c = Some (g c).
Proof.
  intros Hnd Hc.
  destruct (field_Some (Frame cols rs) (Row i (map g cols)) c Hnd Hc)
    as (j & _ & Hj & ->).
  cbn [columns cells] in *. unfold Pd.cell.
  by rewrite map_fmap, list_lookup_fmap, Hj.
Qed.

(** X11.  The projection of a frame with pairwise distinct labels has the
    kept columns the frame has, in the order [drug_id], [drug], [y],
    [dataset], [category] whatever their order in the frame, and the rows
    and the index of the frame: every row stands where it stood, under its
    index label, and has under each column of the projection the cell the
    frame has there, the identifier turned into text. *)
Theorem projection_orders_columns (df : DataFrame) :
  NoDup (columns df) →
  columns (subset_of df) `sublist_of` cols_to_keep
  ∧ (∀ c, c ∈ columns (subset_of df) ↔ c ∈ cols_to_keep ∧ c ∈ columns df)
  ∧ map ix (rows (subset_of df)) = map ix (rows df)
  ∧ (∀ r c, r ∈ rows (subset_of df) → c ∈ columns (subset_of df) →
            is_Some (field (subset_of df) r c))
  ∧ Pd.len (subset_of df) = Pd.len df
  ∧ (∀ i r, rows df !! i = Some r →
       ∃ r', rows (subset_of df) !! i = Some r'
             ∧ ix r' = ix r
             ∧ length (cells r') = length (columns (subset_of df))
             ∧ ∀ c, c ∈ columns (subset_of df) →
                    ∃ v, field df r c = Some v
                         ∧ field (subset_of df) r' c
                           = Some (if decide (c = LStr "drug_id")
                                   then VStr (str_value v) else v)).
Proof.
  intros Hnd. split_and!.
  - rewrite subset_of_columns by done. apply sublist_filter.
  - rewrite subset_of_columns by done. apply elem_of_available_cols.
  - rewrite subset_of_rows by done. cbn [rows].
    rewrite List.map_map. by apply map_ext.
  - rewrite subset_of_rows by done. cbn [columns rows]. intros r c _ Hc.
    destruct (field_Some (Frame (available_cols df)
                            (map (λ r, Row (ix r)
                                         (combined_cells (available_cols df) df r))
                                 (rows df))) r c) as (j & _ & _ & ->).
    + apply available_cols_NoDup.
    + done.
    + done.
  - apply subset_of_len.
  - intros i r Hi. rewrite subset_of_rows by done. cbn [columns rows].
    eexists. rewrite map_fmap, list_lookup_fmap, Hi.
    cbn [fmap option_fmap option_map]. split_and!; [done|done| |].
    + cbn [cells]. unfold combined_cells. by rewrite length_map.
    + intros c Hc. pose proof Hc as Hin.
      apply elem_of_available_cols in Hin as [_ Hin].
      destruct (field_Some df r c Hnd Hin) as (j & _ & _ & Hf).
      eexists. split; [exact Hf|]. cbn [ix].
      unfold combined_cells.
      rewrite (field_of_layout (available_cols df) _ (ix r) _ c
                 (available_cols_NoDup df) Hc).
      by rewrite Hf.
Qed.

End ProjectedCells.

(** X11 on a table whose columns stand in another order: the columns of the
    projection, and the cells of its second row. *)
Lemma projection_orders_columns_witness :
  let df := Sample.table_in_other_order in
  NoDup (columns df)
  ∧ ∃ r', rows (subset_of df) !! 1 = Some r'
          ∧ ix r' = 9%Z
          ∧ field (subset_of df) r' (LStr "drug_id") = Some (VStr "id-2")
          ∧ field (subset_of df) r' (LStr "y") = Some (VFloat "1.5")
          ∧ field (subset_of df) r' (LStr "dataset") = Some (VStr "A").
Proof.
  cbv zeta.
  assert (NoDup (columns Sample.table_in_other_order)) as Hnd.
  { apply (bool_decide_unpack _). vm_compute. exact I. }
  split; [exact Hnd|].
  destruct (projection_orders_columns Sample.table_in_other_order Hnd)
    as (_ & Hcols & _ & _ & _ & Hrows).
  destruct (Hrows 1 (Row 9 [VFloat "1.5"; VStr "CCN"; VStr "id-2"; VStr "ADME"; VStr "A"])
              eq_refl) as (r' & Hr' & Hix & _ & Hcells).
  exists r'. split_and!; [exact Hr'|exact Hix|..].
  - destruct (Hcells (LStr "drug_id")) as (v & Hv & ->).
    { apply Hcols. split; apply (bool_decide_unpack _); by vm_compute. }
    vm_compute in Hv. by injection Hv as <-.
  - destruct (Hcells (LStr "y")) as (v & Hv & ->).
    { apply Hcols. split; apply (bool_decide_unpack _); by vm_compute. }
    vm_compute in Hv. by injection Hv as <-.
  - destruct (Hcells (LStr "dataset")) as (v & Hv & ->).
    { apply Hcols. split; apply (bool_decide_unpack _); by vm_compute. }
    vm_compute in Hv. by injection Hv as <-.
Defined.

(** * How a run ends *)

Section Endings.

Variable provider : category → string → result DataFrame.
Variable write_error : string → DataFrame → option exn.

Local Abbreviation fetched := (fetched provider write_error).
Local Abbreviation main_with := (main_with provider write_error).
Local Abbreviation main_from := (main_from provider write_error).

(** The lines after line 17 end normally exactly when the write of the
    combined file does not raise (or nothing was fetched) and every
    [*.parquet] file of the final directory reads back as a table. *)
Lemma later_lines_end_normally_iff
    (adme_names tox_names : list string) (st : state) :
  let all := fetched ADME adme_names ++ fetched Tox tox_names in
  let final := (main_with adme_names tox_names st).2 in
  (main_with adme_names tox_names st).1 = Ok tt
  ↔ (all = [] ∨ write_error combined_file (combined_table all) = None)
    ∧ Forall (λ f, readable (brick final !! f) = true) (glob_parquet final).
Proof.
  intros all final.
  pose proof (main_with_run provider write_error adme_names tox_names st) as Hrun.
  cbn zeta in Hrun. fold all in Hrun.
  destruct all as [|df l] eqn:Hall.
  - unfold final. rewrite Hrun, report_ends_normally_iff.
    split; [by auto | by intros [_ ?]].
  - destruct (write_error combined_file _) as [e|] eqn:Hw.
    + unfold final. rewrite Hrun. cbn [fst].
      split; [done | by intros [[?|?] _]].
    + unfold final. rewrite Hrun, report_ends_normally_iff.
      split; [by auto | by intros [_ ?]].
Qed.

(** X8.  A run ends normally exactly when line 17 does not raise (the path
    [brick] is not taken by a file, and where nothing is there the
    directory can be made), the write of the combined file does not raise
    (or nothing was fetched, so that nothing is combined), and every
    [*.parquet] file of the final directory reads back as a table.  No
    failure of the provider and no failed write of a dataset file makes the
    run end with an exception.  When line 17 raises, the run ends with its
    exception before a line is printed or a table requested; otherwise the
    run is that of the later lines on the files of the directory.  As
    everywhere in the embedding, [print] and the listing of the directory
    are taken not to raise. *)
Theorem run_ends_normally_iff
    (mkdir_error : option exn) (p : brick_entry)
    (adme_names tox_names : list string) :
  let all := fetched ADME adme_names ++ fetched Tox tox_names in
  let later := main_with adme_names tox_names (State (files_of p) [] [] []) in
  let final := later.2 in
  ((main_from mkdir_error p adme_names tox_names).1 = Ok tt
   ↔ p ≠ NotADirectory
     ∧ (p = Missing → mkdir_error = None)
     ∧ (all = [] ∨ write_error combined_file (combined_table all) = None)
     ∧ Forall (λ f, readable (brick final !! f) = true) (glob_parquet final))
  ∧ (∀ e, mkdir mkdir_error p = Raise e →
          main_from mkdir_error p adme_names tox_names = (Raise e, None))
  ∧ (p ≠ NotADirectory → (p = Missing → mkdir_error = None) →
     main_from mkdir_error p adme_names tox_names = (later.1, Some final)).
Proof.
  intros all later final.
  pose proof (later_lines_end_normally_iff adme_names tox_names
                (State (files_of p) [] [] [])) as Hlater.
  cbn zeta in Hlater. fold all later final in Hlater.
  unfold main_from, mkdir.
  destruct p as [|files|]; [destruct mkdir_error as [e|]|..]; cbn [files_of] in *.
  - split_and!.
    + cbn [fst]. split; [done|]. intros (_ & H & _). by specialize (H eq_refl).
    + by intros ? [= <-].
    + intros _ H. by specialize (H eq_refl).
  - split_and!.
    + cbn [fst]. fold later. rewrite Hlater. split; [by intros [? ?]|tauto].
    + done.
    + done.
  - split_and!.
    + cbn [fst]. fold later. rewrite Hlater.
      split; [by intros [? ?]|tauto].
    + done.
    + done.
  - split_and!.
    + cbn [fst]. split; [done|]. by intros [? _].
    + by intros ? [= <-].
    + done.
Qed.

End Endings.

(** X8 on a path taken by a file, and on a run that makes the directory. *)
Lemma run_ends_normally_iff_witness :
  (main_from Mock.only_caco2 Mock.no_write_error None NotADirectory
     adme_datasets tox_datasets).1 ≠ Ok tt
  ∧ (main_from Mock.only_caco2 Mock.no_write_error None Missing
       adme_datasets tox_datasets).1 = Ok tt.
Proof.
  split.
  - intros H.
    apply (proj1 (run_ends_normally_iff Mock.only_caco2 Mock.no_write_error
                    None NotADirectory adme_datasets tox_datasets)) in H.
    by destruct H as [H _].
  - apply (proj1 (run_ends_normally_iff Mock.only_caco2 Mock.no_write_error
                    None Missing adme_datasets tox_datasets)).
    split_and!.
    + discriminate.
    + reflexivity.
    + right. reflexivity.
    + apply (bool_decide_unpack _). vm_compute. exact I.
Defined.
